(** * Ecommerce API: catalog, cart, checkout and order store

    A shallow embedding of [main.py]: the SQLAlchemy tables become lists of
    records in row-id order, a route handler becomes a function from the
    committed database to the committed database it leaves behind together
    with either the exception it raised or its response.

    Conventions of the embedding:
    - [Integer] columns and Python ints are [Z];
    - [Float] columns are an abstract type [money] with the three operations
      the routes use ([0.0], [+] and [price * quantity]); every theorem holds
      for any choice of them, binary64 included (see [float_money] below);
    - nullable columns are [option];
    - the identity of the caller ([current_user.id]) is an argument: token
      handling is not modelled;
    - [created_at] timestamps are left out, no property below reads them;
    - a primary key is assigned as one more than the largest key in the table
      (SQLite [INTEGER PRIMARY KEY]);
    - of the constraints of the schema only the unique [sku] can refuse a
      commit: a row never carries a value its column cannot hold (an integer
      beyond 64 bits, a NaN in a [Float] column), and a response never
      carries a float that JSON cannot; where a theorem asserts that a write
      goes through, this is a hypothesis on what is written ([int64],
      [storable]);
    - what is returned as database is what was committed when the handler
      returned or raised: the session is closed by [get_db], so that pending
      changes are lost when an exception escapes. *)

From Stdlib Require Import ZArith List String Bool Lia.
From Stdlib Require Import DecimalString Floats.
From Stdlib Require Import Ascii.
Import ListNotations.

Local Open Scope string_scope.
Local Open Scope list_scope.
Local Open Scope Z_scope.

(** ** Exceptions and results *)

(** [HTTPException] is what the handlers raise themselves; the others escape
    from the framework or the libraries: a request body refused by pydantic,
    an attribute read on [None], a constraint refused by the database at
    commit, and a failure while the invoice is rendered. *)
Inductive exn : Type :=
| HTTPException (status_code : Z) (detail : string)
| RequestValidationError
| AttributeError
| IntegrityError
| InvoiceError.

Definition result (A : Type) : Type := (exn + A)%type.

(** [str(n)] for a Python int. *)
Definition str (n : Z) : string := NilZero.string_of_int (Z.to_int n).

(** [1 + max(ids)], and 1 on an empty table. *)
Definition next_id (ids : list Z) : Z := 1 + fold_right Z.max 0 ids.

(** Python's [x or y] on a nullable string: [None] and the empty string are
    falsy. *)
Definition or_else (x : option string) (y : string) : string :=
  match x with
  | Some s => if (s =? "")%string then y else s
  | None => y
  end.

Definition option_string_eqb (a b : option string) : bool :=
  match a, b with
  | Some x, Some y => (x =? y)%string
  | _, _ => false
  end.

(** [os.path.basename(p)]: what follows the last slash of [p]. *)
Fixpoint has_slash (p : string) : bool :=
  match p with
  | EmptyString => false
  | String c rest => (c =? "/")%char || has_slash rest
  end.

Fixpoint basename (p : string) : string :=
  match p with
  | EmptyString => EmptyString
  | String c rest =>
      if has_slash rest then basename rest
      else if (c =? "/")%char then rest else p
  end.

(** ** The arithmetic of [Float] columns

    [mzero] is [0.0], [madd] is [+] on floats and [mscale] is a float times
    an int. *)
Class Money (money : Type) : Type := {
  mzero : money;
  madd : money -> money -> money;
  mscale : money -> Z -> money
}.

(** ** What the database stores

    [bound x] is the float that a [Float] column that is not nullable gives
    back, and that a response carries, once the float [x] is written to it;
    [None] when the write or the response is refused. A float is [storable]
    when it comes back as it is; an int is, when it fits the 64 bits of an
    [Integer] column ([int64]). The routes are embedded for such values; a
    theorem that asserts that a write goes through assumes them of what it
    writes. *)
Class FloatColumn (money : Type) : Type := {
  bound : money -> option money
}.

Definition storable {money : Type} {C : FloatColumn money} (x : money)
  : Prop :=
  bound x = Some x.

Definition int64 (n : Z) : Prop := - 2 ^ 63 <= n < 2 ^ 63.

Section Shop.

Context {money : Type} {M : Money money}.

(** ** Models (SQLAlchemy) *)

Record Product : Type := mkProduct {
  Product_id : Z;
  Product_name : string;
  Product_description : option string;
  Product_price : money;
  Product_currency : option string;
  Product_sku : option string;
  Product_stock : option Z
}.

Record CartItem : Type := mkCartItem {
  CartItem_id : Z;
  CartItem_user_id : Z;
  CartItem_product_id : Z;
  CartItem_quantity : Z
}.

Record Order : Type := mkOrder {
  Order_id : Z;
  Order_user_id : Z;
  Order_total_amount : money;
  Order_currency : string;
  Order_status : string;
  Order_invoice_path : option string
}.

Record OrderItem : Type := mkOrderItem {
  OrderItem_id : Z;
  OrderItem_order_id : Z;
  OrderItem_product_id : Z;
  OrderItem_name_snapshot : string;
  OrderItem_unit_price : money;
  OrderItem_quantity : Z;
  OrderItem_subtotal : money
}.

(** The committed database: one list of rows per table. *)
Record DB : Type := mkDB {
  products : list Product;
  cart_items : list CartItem;
  orders : list Order;
  order_items : list OrderItem
}.

Definition empty_db : DB := mkDB [] [] [] [].

(** ** Schemas (pydantic) *)

Record ProductCreate : Type := mkProductCreate {
  ProductCreate_name : string;
  ProductCreate_description : option string;
  ProductCreate_price : money;
  ProductCreate_currency : string;
  ProductCreate_sku : option string;
  ProductCreate_stock : Z
}.

(** A request body for [ProductCreate] as it arrives: each key is present or
    omitted. *)
Record ProductBody : Type := mkProductBody {
  body_name : option string;
  body_description : option (option string);
  body_price : option money;
  body_currency : option string;
  body_sku : option (option string);
  body_stock : option Z
}.

Definition field_default {A : Type} (d : A) (o : option A) : A :=
  match o with
  | Some v => v
  | None => d
  end.

(** pydantic's validation of the body: [name] and [price] are required, the
    other fields take the defaults declared in the class. *)
Definition ProductCreate_validate (b : ProductBody) : option ProductCreate :=
  match body_name b, body_price b with
  | Some n, Some pr =>
      Some (mkProductCreate n
              (field_default None (body_description b))
              pr
              (field_default "USD" (body_currency b))
              (field_default None (body_sku b))
              (field_default 0 (body_stock b)))
  | _, _ => None
  end.

Record CartAdd : Type := mkCartAdd {
  CartAdd_product_id : Z;
  CartAdd_quantity : Z
}.

Record CartItemOut : Type := mkCartItemOut {
  CartItemOut_id : Z;
  CartItemOut_product_id : Z;
  CartItemOut_product_name : string;
  CartItemOut_unit_price : money;
  CartItemOut_quantity : Z;
  CartItemOut_subtotal : money
}.

Record CheckoutOut : Type := mkCheckoutOut {
  CheckoutOut_order_id : Z;
  CheckoutOut_total_amount : money;
  CheckoutOut_currency : string;
  CheckoutOut_invoice_url : string
}.

Record OrderItemOut : Type := mkOrderItemOut {
  OrderItemOut_product_id : Z;
  OrderItemOut_name_snapshot : string;
  OrderItemOut_unit_price : money;
  OrderItemOut_quantity : Z;
  OrderItemOut_subtotal : money
}.

Record OrderOut : Type := mkOrderOut {
  OrderOut_id : Z;
  OrderOut_total_amount : money;
  OrderOut_currency : string;
  OrderOut_status : string;
  OrderOut_items : list OrderItemOut
}.

(** The invoice renderer writes a file and returns its path; [None] stands for
    an exception raised while rendering. *)
Class Invoicing : Type := {
  generate_invoice_pdf : Order -> list OrderItem -> option string
}.

Context {I : Invoicing}.

(** ** Queries *)

(** [db.get(Product, product_id)] *)
Definition get_Product (db : DB) (product_id : Z) : option Product :=
  find (fun p => Product_id p =? product_id) (products db).

(** [db.get(CartItem, item_id)] *)
Definition get_CartItem (db : DB) (item_id : Z) : option CartItem :=
  find (fun ci => CartItem_id ci =? item_id) (cart_items db).

(** [db.get(Order, order_id)] *)
Definition get_Order (db : DB) (order_id : Z) : option Order :=
  find (fun o => Order_id o =? order_id) (orders db).

(** [db.query(CartItem).filter(CartItem.user_id == user).all()] *)
Definition cart_of (user : Z) (db : DB) : list CartItem :=
  filter (fun ci => CartItem_user_id ci =? user) (cart_items db).

(** The relationship [Order.items]. *)
Definition items_of (db : DB) (order_id : Z) : list OrderItem :=
  filter (fun oi => OrderItem_order_id oi =? order_id) (order_items db).

(** The unique constraint on [Product.sku]: NULLs never collide. *)
Definition sku_taken (sku : option string) (ps : list Product) : bool :=
  existsb (fun p => option_string_eqb (Product_sku p) sku) ps.

(** ** Product routes *)

Definition create_product (product : ProductCreate) (db : DB)
  : DB * result Product :=
  if sku_taken (ProductCreate_sku product) (products db) then
    (db, inl IntegrityError)
  else
    let p := mkProduct (next_id (map Product_id (products db)))
               (ProductCreate_name product)
               (ProductCreate_description product)
               (ProductCreate_price product)
               (Some (ProductCreate_currency product))
               (ProductCreate_sku product)
               (Some (ProductCreate_stock product)) in
    (mkDB (products db ++ [p]) (cart_items db) (orders db) (order_items db),
     inr p).

(** [for k, v in product.model_dump().items(): setattr(p, k, v)] *)
Definition assign (product : ProductCreate) (p : Product) : Product :=
  mkProduct (Product_id p)
    (ProductCreate_name product)
    (ProductCreate_description product)
    (ProductCreate_price product)
    (Some (ProductCreate_currency product))
    (ProductCreate_sku product)
    (Some (ProductCreate_stock product)).

Definition update_product (product_id : Z) (product : ProductCreate) (db : DB)
  : DB * result Product :=
  match get_Product db product_id with
  | None => (db, inl (HTTPException 404 "Product not found"))
  | Some p =>
      if sku_taken (ProductCreate_sku product)
           (filter (fun q => negb (Product_id q =? product_id)) (products db))
      then (db, inl IntegrityError)
      else
        (mkDB (map (fun q => if Product_id q =? product_id
                             then assign product q else q) (products db))
              (cart_items db) (orders db) (order_items db),
         inr (assign product p))
  end.

(** The route as it is called: the body is validated first. *)
Definition put_product (product_id : Z) (body : ProductBody) (db : DB)
  : DB * result Product :=
  match ProductCreate_validate body with
  | None => (db, inl RequestValidationError)
  | Some product => update_product product_id product db
  end.

(** [db.delete(p)]: the relationship [Product.order_items] is declared with
    [cascade="all, delete"], so the order items of the product go with it.
    Cart items have no such relationship and are left alone: SQLite does
    not enforce their foreign key unless it is asked to. *)
Definition delete_product (product_id : Z) (db : DB) : DB * result unit :=
  match get_Product db product_id with
  | None => (db, inl (HTTPException 404 "Product not found"))
  | Some p =>
      (mkDB (filter (fun q => negb (Product_id q =? product_id)) (products db))
            (cart_items db)
            (orders db)
            (filter (fun oi => negb (OrderItem_product_id oi =? product_id))
                    (order_items db)),
       inr tt)
  end.

(** ** Cart routes *)

(** [product.stock is not None and quantity > product.stock] *)
Definition stock_exceeded (stock : option Z) (quantity : Z) : bool :=
  match stock with
  | Some s => quantity >? s
  | None => false
  end.

Definition cart_item_out (ci : CartItem) (product : Product) : CartItemOut :=
  mkCartItemOut (CartItem_id ci) (CartItem_product_id ci)
    (Product_name product) (Product_price product) (CartItem_quantity ci)
    (mscale (Product_price product) (CartItem_quantity ci)).

Definition set_quantity (quantity : Z) (ci : CartItem) : CartItem :=
  mkCartItem (CartItem_id ci) (CartItem_user_id ci) (CartItem_product_id ci)
    quantity.

(** The row with primary key [item_id] is rewritten by [f]. *)
Definition update_row (item_id : Z) (f : CartItem -> CartItem)
  (rows : list CartItem) : list CartItem :=
  map (fun ci => if CartItem_id ci =? item_id then f ci else ci) rows.

(** The first cart row of the pairing (user, product). *)
Definition existing_row (user product_id : Z) (db : DB) : option CartItem :=
  find (fun ci => (CartItem_user_id ci =? user)
                  && (CartItem_product_id ci =? product_id))
       (cart_items db).

Definition add_to_cart (current_user : Z) (item : CartAdd) (db : DB)
  : DB * result CartItemOut :=
  if CartAdd_quantity item <? 1 then (db, inl RequestValidationError) else
  match get_Product db (CartAdd_product_id item) with
  | None => (db, inl (HTTPException 404 "Product not found"))
  | Some product =>
      if stock_exceeded (Product_stock product) (CartAdd_quantity item) then
        (db, inl (HTTPException 400 "Not enough stock"))
      else
        match existing_row current_user (CartAdd_product_id item) db with
        | Some existing =>
            let cart_item :=
              set_quantity (CartItem_quantity existing + CartAdd_quantity item)
                           existing in
            (mkDB (products db)
                  (update_row (CartItem_id existing)
                     (fun ci => set_quantity
                        (CartItem_quantity ci + CartAdd_quantity item) ci)
                     (cart_items db))
                  (orders db) (order_items db),
             inr (cart_item_out cart_item product))
        | None =>
            let cart_item :=
              mkCartItem (next_id (map CartItem_id (cart_items db)))
                current_user (CartAdd_product_id item)
                (CartAdd_quantity item) in
            (mkDB (products db) (cart_items db ++ [cart_item])
                  (orders db) (order_items db),
             inr (cart_item_out cart_item product))
        end
  end.

(** The loop of [view_cart]: [ci.product] is [None] when the product row is
    gone, and reading its name raises. *)
Fixpoint view_rows (db : DB) (items : list CartItem)
  : result (list CartItemOut) :=
  match items with
  | [] => inr []
  | ci :: rest =>
      match get_Product db (CartItem_product_id ci) with
      | None => inl AttributeError
      | Some product =>
          match view_rows db rest with
          | inl e => inl e
          | inr out => inr (cart_item_out ci product :: out)
          end
      end
  end.

Definition view_cart (current_user : Z) (db : DB)
  : DB * result (list CartItemOut) :=
  (db, view_rows db (cart_of current_user db)).

Definition update_cart_item (current_user item_id quantity : Z) (db : DB)
  : DB * result CartItemOut :=
  if quantity <? 1 then (db, inl RequestValidationError) else
  match get_CartItem db item_id with
  | None => (db, inl (HTTPException 404 "Cart item not found"))
  | Some ci =>
      if negb (CartItem_user_id ci =? current_user) then
        (db, inl (HTTPException 404 "Cart item not found"))
      else
        match get_Product db (CartItem_product_id ci) with
        | None => (db, inl AttributeError)
        | Some product =>
            if stock_exceeded (Product_stock product) quantity then
              (db, inl (HTTPException 400 "Not enough stock"))
            else
              (mkDB (products db)
                    (update_row item_id (set_quantity quantity)
                                (cart_items db))
                    (orders db) (order_items db),
               inr (cart_item_out (set_quantity quantity ci) product))
        end
  end.

Definition remove_cart_item (current_user item_id : Z) (db : DB)
  : DB * result unit :=
  match get_CartItem db item_id with
  | None => (db, inl (HTTPException 404 "Cart item not found"))
  | Some ci =>
      if negb (CartItem_user_id ci =? current_user) then
        (db, inl (HTTPException 404 "Cart item not found"))
      else
        (mkDB (products db)
              (filter (fun c => negb (CartItem_id c =? item_id))
                      (cart_items db))
              (orders db) (order_items db),
         inr tt)
  end.

(** [db.query(CartItem).filter(CartItem.user_id == user).delete()] *)
Definition delete_cart (user : Z) (db : DB) : DB :=
  mkDB (products db)
       (filter (fun ci => negb (CartItem_user_id ci =? user)) (cart_items db))
       (orders db) (order_items db).

Definition clear_cart (current_user : Z) (db : DB) : DB * result unit :=
  (delete_cart current_user db, inr tt).

(** ** Checkout *)

(** The first loop of [checkout]: validate stock and compute total and
    currency. *)
Fixpoint validate_cart (db : DB) (cart : list CartItem)
  (total : money) (currency : string) : result (money * string) :=
  match cart with
  | [] => inr (total, currency)
  | ci :: rest =>
      match get_Product db (CartItem_product_id ci) with
      | None => inl AttributeError
      | Some product =>
          if stock_exceeded (Product_stock product) (CartItem_quantity ci) then
            inl (HTTPException 400
                   ("Not enough stock for " ++ Product_name product)%string)
          else
            validate_cart db rest
              (madd total
                 (mscale (Product_price product) (CartItem_quantity ci)))
              (or_else (Product_currency product) currency)
      end
  end.

(** [product.stock = max(0, product.stock - ci.quantity)] when the stock is
    tracked. *)
Definition decrement_stock (stock : option Z) (quantity : Z) : option Z :=
  match stock with
  | Some s => Some (Z.max 0 (s - quantity))
  | None => None
  end.

Definition set_stock (stock : option Z) (p : Product) : Product :=
  mkProduct (Product_id p) (Product_name p) (Product_description p)
    (Product_price p) (Product_currency p) (Product_sku p) stock.

(** The second loop of [checkout]: one order item per cart line, and the
    stock of its product reduced. The products are read again from the
    session, so a line sees the stock left by the lines before it. *)
Fixpoint create_order_items (order_id : Z) (cart : list CartItem) (db : DB)
  : result DB :=
  match cart with
  | [] => inr db
  | ci :: rest =>
      match get_Product db (CartItem_product_id ci) with
      | None => inl AttributeError
      | Some product =>
          let oi :=
            mkOrderItem (next_id (map OrderItem_id (order_items db)))
              order_id (Product_id product) (Product_name product)
              (Product_price product) (CartItem_quantity ci)
              (mscale (Product_price product) (CartItem_quantity ci)) in
          create_order_items order_id rest
            (mkDB (map (fun q =>
                          if Product_id q =? Product_id product
                          then set_stock
                                 (decrement_stock (Product_stock product)
                                    (CartItem_quantity ci)) q
                          else q)
                       (products db))
                  (cart_items db) (orders db) (order_items db ++ [oi]))
      end
  end.

Definition set_invoice_path (path : string) (o : Order) : Order :=
  mkOrder (Order_id o) (Order_user_id o) (Order_total_amount o)
    (Order_currency o) (Order_status o) (Some path).

Definition checkout (current_user : Z) (db : DB) : DB * result CheckoutOut :=
  let cart := cart_of current_user db in
  match cart with
  | [] => (db, inl (HTTPException 400 "Cart is empty"))
  | _ :: _ =>
      match validate_cart db cart mzero "USD" with
      | inl e => (db, inl e)
      | inr (total, currency) =>
          let order :=
            mkOrder (next_id (map Order_id (orders db))) current_user
              total currency "PAID" None in
          (* db.add(order); db.commit() *)
          let db1 :=
            mkDB (products db) (cart_items db) (orders db ++ [order])
                 (order_items db) in
          match create_order_items (Order_id order) cart db1 with
          | inl e => (db1, inl e)
          | inr db2 =>
              (* db.commit(), then the cart is cleared and committed *)
              let db3 := delete_cart current_user db2 in
              match get_Order db3 (Order_id order) with
              | None => (db3, inl AttributeError)
              | Some o =>
                  match generate_invoice_pdf o (items_of db3 (Order_id o)) with
                  | None => (db3, inl InvoiceError)
                  | Some invoice_path =>
                      (mkDB (products db3) (cart_items db3)
                            (map (fun q => if Order_id q =? Order_id o
                                           then set_invoice_path invoice_path q
                                           else q)
                                 (orders db3))
                            (order_items db3),
                       inr (mkCheckoutOut (Order_id o) (Order_total_amount o)
                              (Order_currency o)
                              ("/orders/" ++ str (Order_id o)
                               ++ "/invoice")%string))
                  end
              end
          end
      end
  end.

(** ** Orders *)

Definition order_item_out (it : OrderItem) : OrderItemOut :=
  mkOrderItemOut (OrderItem_product_id it) (OrderItem_name_snapshot it)
    (OrderItem_unit_price it) (OrderItem_quantity it) (OrderItem_subtotal it).

Definition get_order (current_user order_id : Z) (db : DB)
  : DB * result OrderOut :=
  match get_Order db order_id with
  | None => (db, inl (HTTPException 404 "Order not found"))
  | Some o =>
      if negb (Order_user_id o =? current_user) then
        (db, inl (HTTPException 404 "Order not found"))
      else
        (db, inr (mkOrderOut (Order_id o) (Order_total_amount o)
                    (Order_currency o) (Order_status o)
                    (map order_item_out (items_of db (Order_id o)))))
  end.

(** ** Routes that only read *)

Definition get_product (product_id : Z) (db : DB) : DB * result Product :=
  match get_Product db product_id with
  | None => (db, inl (HTTPException 404 "Product not found"))
  | Some p => (db, inr p)
  end.

(** [db.query(Product).offset(skip).limit(limit).all()]: rows come in row-id
    order; SQLite reads a negative [OFFSET] as 0 and a negative [LIMIT] as
    no limit. *)
Definition list_products (skip limit : Z) (db : DB)
  : DB * result (list Product) :=
  let rows := skipn (Z.to_nat skip) (products db) in
  (db, inr (if limit <? 0 then rows else firstn (Z.to_nat limit) rows)).

Record OrderedProductOut : Type := mkOrderedProductOut {
  OrderedProductOut_order_id : Z;
  OrderedProductOut_product_id : Z;
  OrderedProductOut_name_snapshot : string;
  OrderedProductOut_unit_price : money;
  OrderedProductOut_quantity : Z;
  OrderedProductOut_subtotal : money
}.

Definition ordered_product_out (o : Order) (it : OrderItem)
  : OrderedProductOut :=
  mkOrderedProductOut (Order_id o) (OrderItem_product_id it)
    (OrderItem_name_snapshot it) (OrderItem_unit_price it)
    (OrderItem_quantity it) (OrderItem_subtotal it).

(** [db.query(Order).filter(Order.user_id == user).all()] *)
Definition orders_of (user : Z) (db : DB) : list Order :=
  filter (fun o => Order_user_id o =? user) (orders db).

(** The handler of [/orders/items]. (As the routes are declared, the path
    is answered by [/orders/{order_id}] first; the handler is modelled as
    the function it is.) *)
Definition list_ordered_products (current_user : Z) (db : DB)
  : DB * result (list OrderedProductOut) :=
  (db, inr (flat_map
              (fun o => map (ordered_product_out o) (items_of db (Order_id o)))
              (orders_of current_user db))).

Record FileResponse : Type := mkFileResponse {
  FileResponse_path : string;
  FileResponse_filename : string;
  FileResponse_media_type : string
}.

(** [os_path_exists] is [os.path.exists] on the file system as it is when
    the request is served. [not o.invoice_path] holds of a null and of an
    empty path. *)
Definition download_invoice (os_path_exists : string -> bool)
  (current_user order_id : Z) (db : DB) : DB * result FileResponse :=
  match get_Order db order_id with
  | None => (db, inl (HTTPException 404 "Order not found"))
  | Some o =>
      if negb (Order_user_id o =? current_user) then
        (db, inl (HTTPException 404 "Order not found"))
      else
        match Order_invoice_path o with
        | None => (db, inl (HTTPException 404 "Invoice not found"))
        | Some invoice_path =>
            if (invoice_path =? "")%string
               || negb (os_path_exists invoice_path)
            then (db, inl (HTTPException 404 "Invoice not found"))
            else
              (db, inr (mkFileResponse invoice_path (basename invoice_path)
                          "application/pdf"))
        end
  end.

(** ** Requests

    A request names a route, the caller where the route is authenticated by
    user, and the validated arguments. [handle] keeps the database a request
    leaves behind; [run] serves a sequence of requests. *)
Inductive request : Type :=
| CreateProduct (product : ProductCreate)
| UpdateProduct (product_id : Z) (product : ProductCreate)
| DeleteProduct (product_id : Z)
| AddToCart (current_user : Z) (item : CartAdd)
| ViewCart (current_user : Z)
| UpdateCartItem (current_user item_id quantity : Z)
| RemoveCartItem (current_user item_id : Z)
| ClearCart (current_user : Z)
| Checkout (current_user : Z)
| GetOrder (current_user order_id : Z).

Definition handle (r : request) (db : DB) : DB :=
  match r with
  | CreateProduct product => fst (create_product product db)
  | UpdateProduct product_id product =>
      fst (update_product product_id product db)
  | DeleteProduct product_id => fst (delete_product product_id db)
  | AddToCart u item => fst (add_to_cart u item db)
  | ViewCart u => fst (view_cart u db)
  | UpdateCartItem u item_id quantity =>
      fst (update_cart_item u item_id quantity db)
  | RemoveCartItem u item_id => fst (remove_cart_item u item_id db)
  | ClearCart u => fst (clear_cart u db)
  | Checkout u => fst (checkout u db)
  | GetOrder u order_id => fst (get_order u order_id db)
  end.

Definition run (rs : list request) (db : DB) : DB :=
  fold_left (fun d r => handle r d) rs db.

End Shop.

(** The tables and the schemas are families over the type of prices. *)
Arguments Product : clear implicits.
Arguments Order : clear implicits.
Arguments OrderItem : clear implicits.
Arguments DB : clear implicits.
Arguments ProductCreate : clear implicits.
Arguments ProductBody : clear implicits.
Arguments CartItemOut : clear implicits.
Arguments CheckoutOut : clear implicits.
Arguments OrderItemOut : clear implicits.
Arguments OrderOut : clear implicits.
Arguments Invoicing : clear implicits.
Arguments request : clear implicits.
Arguments OrderedProductOut : clear implicits.

(** * Accounts

    The auth routes touch the [users] table only, which is kept apart from
    the tables above. Hashing and tokens are those of the libraries: a hash
    is computed from a password and a fresh salt, a token is encoded from
    the subject and the expiry and decoded at a given time, with [None] for
    a [JWTError] and [Some None] for a payload without subject. Times are in
    seconds. *)

Class PasswordContext : Type := {
  get_password_hash : string -> string -> string;
  verify_password : string -> string -> bool
}.

Class Jwt : Type := {
  jwt_encode : string -> Z -> string;
  jwt_decode : Z -> string -> option (option string)
}.

Section Accounts.

Context {P : PasswordContext} {J : Jwt}.

Record User : Type := mkUser {
  User_id : Z;
  User_email : string;
  User_full_name : option string;
  User_hashed_password : string
}.

(** The body of a signup once pydantic has validated it. *)
Record UserCreate : Type := mkUserCreate {
  UserCreate_email : string;
  UserCreate_full_name : option string;
  UserCreate_password : string
}.

Record UserOut : Type := mkUserOut {
  UserOut_id : Z;
  UserOut_email : string;
  UserOut_full_name : option string
}.

Record Token : Type := mkToken {
  Token_access_token : string;
  Token_token_type : string
}.

Definition ACCESS_TOKEN_EXPIRE_MINUTES : Z := 60 * 24.

Definition create_access_token (sub : string) (now : Z) : string :=
  jwt_encode sub (now + ACCESS_TOKEN_EXPIRE_MINUTES * 60).

Definition get_user_by_email (users : list User) (email : string)
  : option User :=
  find (fun u => (User_email u =? email)%string) users.

Definition authenticate_user (users : list User) (email password : string)
  : option User :=
  match get_user_by_email users email with
  | None => None
  | Some user =>
      if verify_password password (User_hashed_password user)
      then Some user else None
  end.

Definition user_out (u : User) : UserOut :=
  mkUserOut (User_id u) (User_email u) (User_full_name u).

Definition signup (salt : string) (user_in : UserCreate) (users : list User)
  : list User * result UserOut :=
  match get_user_by_email users (UserCreate_email user_in) with
  | Some _ => (users, inl (HTTPException 400 "Email already registered"))
  | None =>
      let user :=
        mkUser (next_id (map User_id users)) (UserCreate_email user_in)
          (UserCreate_full_name user_in)
          (get_password_hash salt (UserCreate_password user_in)) in
      (users ++ [user], inr (user_out user))
  end.

Definition login (now : Z) (username password : string) (users : list User)
  : list User * result Token :=
  match authenticate_user users username password with
  | None => (users, inl (HTTPException 400 "Incorrect email or password"))
  | Some user =>
      (users, inr (mkToken (create_access_token (User_email user) now)
                     "bearer"))
  end.

(** The 401 of [get_current_user]; its [WWW-Authenticate] header is left
    out. *)
Definition credentials_exception : exn :=
  HTTPException 401 "Could not validate credentials".

Definition get_current_user (now : Z) (token : string) (users : list User)
  : result User :=
  match jwt_decode now token with
  | None => inl credentials_exception
  | Some None => inl credentials_exception
  | Some (Some email) =>
      match get_user_by_email users email with
      | None => inl credentials_exception
      | Some user => inr user
      end
  end.

End Accounts.

(** * Predicates of the specification *)

Section Predicates.

Context {money : Type} {M : Money money} {I : Invoicing money}.

(** The error raised by the stock check of [checkout]. *)
Definition InsufficientStock (name : string) : exn :=
  HTTPException 400 ("Not enough stock for " ++ name)%string.

(** The cart line [ci] asks for more than the tracked stock of its product
    [p]. *)
Definition insufficient (db : DB money) (ci : CartItem) (p : Product money)
  : Prop :=
  get_Product db (CartItem_product_id ci) = Some p /\
  exists s, Product_stock p = Some s /\ CartItem_quantity ci > s.

(** The cart line [ci] passes the stock check. *)
Definition passes (db : DB money) (ci : CartItem) : Prop :=
  exists p, get_Product db (CartItem_product_id ci) = Some p /\
            stock_exceeded (Product_stock p) (CartItem_quantity ci) = false.

(** The order that [checkout] adds for the caller. *)
Definition new_order (u : Z) (db : DB money) (total : money)
  (currency : string) : Order money :=
  mkOrder (next_id (map Order_id (orders db))) u total currency "PAID" None.

(** The database once the order is committed. *)
Definition with_order (db : DB money) (o : Order money) : DB money :=
  mkDB (products db) (cart_items db) (orders db ++ [o]) (order_items db).

(** The database once the invoice path is recorded on the order. *)
Definition with_invoice (db : DB money) (order_id : Z) (path : string)
  : DB money :=
  mkDB (products db) (cart_items db)
       (map (fun q => if Order_id q =? order_id
                      then set_invoice_path path q else q) (orders db))
       (order_items db).

(** [sum(item.subtotal for item in items)], from left to right. *)
Definition sum_subtotals (items : list (OrderItem money)) : money :=
  fold_left (fun acc it => madd acc (OrderItem_subtotal it)) items mzero.

(** Every order item belongs to an order of the table: the foreign key
    [order_items.order_id]. *)
Definition order_items_reference_orders (db : DB money) : Prop :=
  Forall (fun oi => In (OrderItem_order_id oi) (map Order_id (orders db)))
         (order_items db).

(** What the second loop of checkout must read as the first loop did. *)
Definition listing (p : Product money) : Z * string * money :=
  (Product_id p, Product_name p, Product_price p).

(** The product of the cart line has no currency to give: in
    [product.currency or currency] the left operand is null or empty. *)
Definition no_currency (db : DB money) (ci : CartItem) : Prop :=
  exists p, get_Product db (CartItem_product_id ci) = Some p /\
            forall currency, or_else (Product_currency p) currency = currency.

(** The reading of the currency rule that the code does not follow: the
    order takes the currency of the product of the last cart line, whatever
    it is. *)
Definition last_line_currency_wins (u : Z) (db : DB money) : Prop :=
  forall db' out pre ci p,
    checkout u db = (db', inr out) ->
    cart_of u db = pre ++ [ci] ->
    get_Product db (CartItem_product_id ci) = Some p ->
    Product_currency p = Some (CheckoutOut_currency out).

(** The reading of the snapshot rule that the code does not follow: every
    order item outlives the deletion of a product. *)
Definition order_items_survive_delete (product_id : Z) (db : DB money)
  : Prop :=
  forall oi,
    In oi (order_items db) ->
    In oi (order_items (fst (delete_product product_id db))).

(** The user and the product of a cart row. *)
Definition pairing (ci : CartItem) : Z * Z :=
  (CartItem_user_id ci, CartItem_product_id ci).

(** No two cart rows have the same user and the same product. *)
Definition cart_unique (db : DB money) : Prop :=
  NoDup (map pairing (cart_items db)).

(** Every tracked stock is at least 0. *)
Definition stock_nonneg (db : DB money) : Prop :=
  Forall (fun p => forall s, Product_stock p = Some s -> 0 <= s) (products db).

(** The stock a request writes into the catalog, if it writes one, is at
    least 0. *)
Definition writes_nonneg_stock (r : request money) : Prop :=
  match r with
  | CreateProduct product => 0 <= ProductCreate_stock product
  | UpdateProduct _ product => 0 <= ProductCreate_stock product
  | _ => True
  end.

(** The reading of the stock rule that the code does not follow: whatever
    the requests, no tracked stock is negative. *)
Definition stock_nonneg_always : Prop :=
  forall rs, stock_nonneg (run rs empty_db).

End Predicates.

(** * Predicates of the further properties *)

Section FurtherPredicates.

Context {money : Type} {M : Money money} {I : Invoicing money}.
Context {C : FloatColumn money}.

Definition error_of {A : Type} (x : result A) : option exn :=
  match x with
  | inl e => Some e
  | inr _ => None
  end.

(** The exception with which a request is answered, if it is. *)
Definition raised (r : request money) (db : DB money) : option exn :=
  match r with
  | CreateProduct product => error_of (snd (create_product product db))
  | UpdateProduct product_id product =>
      error_of (snd (update_product product_id product db))
  | DeleteProduct product_id => error_of (snd (delete_product product_id db))
  | AddToCart u item => error_of (snd (add_to_cart u item db))
  | ViewCart u => error_of (snd (view_cart u db))
  | UpdateCartItem u item_id quantity =>
      error_of (snd (update_cart_item u item_id quantity db))
  | RemoveCartItem u item_id => error_of (snd (remove_cart_item u item_id db))
  | ClearCart u => error_of (snd (clear_cart u db))
  | Checkout u => error_of (snd (checkout u db))
  | GetOrder u order_id => error_of (snd (get_order u order_id db))
  end.

(** The user on whose cart and orders a request acts. *)
Definition acts_for (r : request money) : option Z :=
  match r with
  | AddToCart u _ => Some u
  | UpdateCartItem u _ _ => Some u
  | RemoveCartItem u _ => Some u
  | ClearCart u => Some u
  | Checkout u => Some u
  | _ => None
  end.

(** The primary key of [cart_items]. *)
Definition cart_ids_unique (db : DB money) : Prop :=
  NoDup (map CartItem_id (cart_items db)).

(** Every cart row holds at least one unit. *)
Definition cart_quantities_positive (db : DB money) : Prop :=
  Forall (fun ci => 1 <= CartItem_quantity ci) (cart_items db).

(** The order item [it] is the snapshot of the cart line [ci] taken from
    the catalog of [db] for the order [order_id]. *)
Definition snapshot_of (db : DB money) (order_id : Z) (ci : CartItem)
  (it : OrderItem money) : Prop :=
  exists p,
    get_Product db (CartItem_product_id ci) = Some p /\
    OrderItem_order_id it = order_id /\
    OrderItem_product_id it = Product_id p /\
    OrderItem_name_snapshot it = Product_name p /\
    OrderItem_unit_price it = Product_price p /\
    OrderItem_quantity it = CartItem_quantity ci /\
    OrderItem_subtotal it
    = mscale (Product_price p) (CartItem_quantity ci).

(** The float columns of an order and of its items hold the values that
    [checkout] writes to them. *)
Definition storable_order (o : Order money) (items : list (OrderItem money))
  : Prop :=
  storable (Order_total_amount o) /\
  Forall (fun it => storable (OrderItem_unit_price it) /\
                    storable (OrderItem_subtotal it)) items.

(** The row of [view_cart] for the cart line [ci]: the name and the price
    are those of the product as it is now. *)
Definition shown_as (db : DB money) (ci : CartItem)
  (row : CartItemOut money) : Prop :=
  exists p,
    get_Product db (CartItem_product_id ci) = Some p /\
    row = mkCartItemOut (CartItem_id ci) (CartItem_product_id ci)
            (Product_name p) (Product_price p) (CartItem_quantity ci)
            (mscale (Product_price p) (CartItem_quantity ci)).

End FurtherPredicates.

Section AccountPredicates.

Context {P : PasswordContext} {J : Jwt}.

(** The unique constraint on [User.email]. *)
Definition emails_unique (users : list User) : Prop :=
  NoDup (map User_email users).

(** What passlib promises: a hash verifies the password it was computed
    from. *)
Definition hash_verifies : Prop :=
  forall salt password,
    verify_password password (get_password_hash salt password) = true.

(** What jose promises: a token decodes to its subject until it expires. *)
Definition token_decodes : Prop :=
  forall sub exp now,
    now <= exp -> jwt_decode now (jwt_encode sub exp) = Some (Some sub).

End AccountPredicates.

(** ** Binary64 prices

    The instance the code runs with: Python floats and SQLite [REAL] are
    IEEE 754 binary64. An int is converted to the nearest float before it is
    multiplied. The renderer of this instance always succeeds and returns
    [os.path.join(INVOICE_DIR, filename)] for the default [INVOICE_DIR]. *)

Definition float_of_int (q : Z) : float :=
  SF2Prim (binary_normalize prec emax q 0 false).

Definition float_money : Money float :=
  {| mzero := 0%float;
     madd := PrimFloat.add;
     mscale := fun price quantity =>
       PrimFloat.mul price (float_of_int quantity) |}.

(** SQLite turns NaN into NULL, which the column refuses, and holds the
    negative zero as zero; an infinity is held, but the JSON encoder of the
    response refuses it, as it refuses NaN. *)
Definition float_column : FloatColumn float :=
  {| bound := fun x =>
       if PrimFloat.is_nan x || PrimFloat.is_infinity x then None
       else if PrimFloat.is_zero x then Some 0%float
       else Some x |}.

Definition invoice_files : Invoicing float :=
  {| generate_invoice_pdf := fun order _ =>
       Some ("./invoices/invoice_order_" ++ str (Order_id order)
             ++ ".pdf")%string |}.

(** ** Scenarios *)

Module Scenario.

#[local] Existing Instance float_money.
#[local] Existing Instance invoice_files.

Definition alice : Z := 1.
Definition bob : Z := 2.

(** A product priced 10.00 USD with the given stock. *)
Definition widget (stock : Z) : ProductCreate float :=
  mkProductCreate "Widget" None 10%float "USD" None stock.

(** A product priced 4.00 in the given currency, 7 in stock. *)
Definition gadget (currency : string) : ProductCreate float :=
  mkProductCreate "Gadget" None 4%float currency None 7.

(** Alice has 3 widgets in her cart and the stock is 5. *)
Definition three_in_cart : DB float :=
  Eval vm_compute in
    run [CreateProduct (widget 5); AddToCart alice (mkCartAdd 1 3)] empty_db.

(** A product that names every field, and the catalog after its creation. *)
Definition gizmo : ProductCreate float :=
  mkProductCreate "Gizmo" (Some "A small one") 2.5%float "EUR" (Some "G-1") 4.

Definition gizmo_row : Product float :=
  mkProduct 2 "Gizmo" (Some "A small one") 2.5%float (Some "EUR")
    (Some "G-1") (Some 4).

Definition gizmo_added : DB float :=
  Eval vm_compute in run [CreateProduct gizmo] three_in_cart.

(** The stock is lowered to 2 while 3 widgets wait in the cart. *)
Definition stock_lowered : DB float :=
  Eval vm_compute in run [UpdateProduct 1 (widget 2)] three_in_cart.

(** Alice has bought 3 widgets. *)
Definition after_purchase : DB float :=
  Eval vm_compute in run [Checkout alice] three_in_cart.

(** The widget is deleted after the purchase. *)
Definition widget_deleted : DB float :=
  Eval vm_compute in run [DeleteProduct 1] after_purchase.

(** Alice's cart holds a line of 3 widgets priced in EUR and then a line of
    2 gadgets priced in the given currency. *)
Definition two_lines (gadget_currency : string) : DB float :=
  Eval vm_compute in
    run [CreateProduct (mkProductCreate "Widget" None 10%float "EUR" None 5);
         CreateProduct (gadget gadget_currency);
         AddToCart alice (mkCartAdd 1 3);
         AddToCart alice (mkCartAdd 2 2)] empty_db.

(** The same cart, bought, with the gadget priced in USD, in GBP and in the
    empty currency. *)
Definition bought_usd : DB float :=
  Eval vm_compute in run [Checkout alice] (two_lines "USD").

Definition bought_gbp : DB float :=
  Eval vm_compute in run [Checkout alice] (two_lines "GBP").

Definition bought_empty : DB float :=
  Eval vm_compute in run [Checkout alice] (two_lines "").

(** Alice has 2 widgets in her cart and the stock is 10; then she adds 3. *)
Definition two_in_cart : DB float :=
  Eval vm_compute in
    run [CreateProduct (widget 10); AddToCart alice (mkCartAdd 1 2)] empty_db.

Definition five_in_cart : DB float :=
  Eval vm_compute in run [AddToCart alice (mkCartAdd 1 3)] two_in_cart.

(** Alice has 3 widgets in her cart, the stock is 5, and she adds 3. *)
Definition six_in_cart : DB float :=
  Eval vm_compute in run [AddToCart alice (mkCartAdd 1 3)] three_in_cart.

(** A widget created with a stock of -5. *)
Definition negative_stock : DB float :=
  Eval vm_compute in run [CreateProduct (widget (-5))] empty_db.

(** The widget row of the catalog with the given stock, Alice's cart line of
    3 widgets and the order item of her purchase. *)
Definition widget_row (stock : Z) : Product float :=
  mkProduct 1 "Widget" None 10%float (Some "USD") None (Some stock).

Definition widget_line : CartItem := mkCartItem 1 alice 1 3.

Definition widget_item : OrderItem float :=
  mkOrderItem 1 1 1 "Widget" 10%float 3 30%float.

(** The gadget row of the catalog with the given currency and Alice's cart
    line of 2 gadgets. *)
Definition gadget_row (currency : string) : Product float :=
  mkProduct 2 "Gadget" None 4%float (Some currency) None (Some 7).

Definition gadget_line : CartItem := mkCartItem 2 alice 2 2.

(** The answer of the first checkout of a database: order 1 with the given
    total and currency. *)
Definition receipt (total : float) (currency : string) : CheckoutOut float :=
  mkCheckoutOut 1 total currency "/orders/1/invoice".

(** The order stored by the first checkout of a database. *)
Definition first_order (total : float) (currency : string) : Order float :=
  mkOrder 1 alice total currency "PAID"
    (Some "./invoices/invoice_order_1.pdf").

(** An update body that names only [name] and [price], and the widget after
    it. *)
Definition rename_only : ProductBody float :=
  mkProductBody (Some "Widget v2") None (Some 12%float) None None None.

Definition widget_v2 : Product float :=
  mkProduct 1 "Widget v2" None 12%float (Some "USD") None (Some 0).

Definition renamed : DB float :=
  Eval vm_compute in fst (put_product 1 rename_only three_in_cart).

(** An update body that names every field, and the widget after it. *)
Definition full_update : ProductBody float :=
  mkProductBody (Some "Widget v2") (Some (Some "Second version"))
    (Some 12%float) (Some "EUR") (Some (Some "W-2")) (Some 9).

Definition widget_v2_full : Product float :=
  mkProduct 1 "Widget v2" (Some "Second version") 12%float (Some "EUR")
    (Some "W-2") (Some 9).

Definition fully_updated : DB float :=
  Eval vm_compute in fst (put_product 1 full_update three_in_cart).

(** A renderer that always raises. *)
Definition no_invoices : Invoicing float :=
  {| generate_invoice_pdf := fun _ _ => None |}.

(** Alice's purchase when the renderer raises. *)
Definition purchase_without_invoice : DB float :=
  Eval vm_compute in fst (@checkout float float_money no_invoices alice
                            three_in_cart).

(** The widget is deleted while 3 of it wait in Alice's cart. *)
Definition widget_gone : DB float :=
  Eval vm_compute in run [DeleteProduct 1] three_in_cart.

(** Bob has 1 widget in his cart besides Alice's 3. *)
Definition two_carts : DB float :=
  Eval vm_compute in run [AddToCart bob (mkCartAdd 1 1)] three_in_cart.

(** Alice checks out of it. *)
Definition two_carts_bought : DB float :=
  Eval vm_compute in run [Checkout alice] two_carts.

(** Alice sets her line to 4 widgets, removes it, or checks out a second
    cart after her purchase. *)
Definition four_in_cart : DB float :=
  Eval vm_compute in run [UpdateCartItem alice 1 4] three_in_cart.

Definition line_removed : DB float :=
  Eval vm_compute in run [RemoveCartItem alice 1] three_in_cart.

(** Seven products, to be listed by pages. *)
Definition seven_products : DB float :=
  Eval vm_compute in
    run (map (fun n => CreateProduct (widget n)) [1; 2; 3; 4; 5; 6; 7])
        empty_db.

(** The rows of Alice's purchase as [view_cart] shows the line before it and
    as [list_ordered_products] shows it afterwards. *)
Definition widget_shown : CartItemOut float :=
  mkCartItemOut 1 1 "Widget" 10%float 3 30%float.

Definition widget_ordered : OrderedProductOut float :=
  mkOrderedProductOut 1 1 "Widget" 10%float 3 30%float.

Definition widget_order_out : OrderOut float :=
  mkOrderOut 1 30%float "USD" "PAID"
    [mkOrderItemOut 1 "Widget" 10%float 3 30%float].

(** The file system after the invoice of order 1 is written. *)
Definition invoice_written (path : string) : bool :=
  (path =? "./invoices/invoice_order_1.pdf")%string.

(** A password context and a token codec that satisfy the promises of the
    libraries, for the scenarios only: the hash is the salt followed by the
    password, checked by suffix; the token is the subject. *)
Fixpoint ends_with (suffix s : string) : bool :=
  (s =? suffix)%string
  || match s with
     | EmptyString => false
     | String _ rest => ends_with suffix rest
     end.

Definition plain_passwords : PasswordContext :=
  {| get_password_hash := fun salt password => (salt ++ password)%string;
     verify_password := fun password hashed => ends_with password hashed |}.

Definition plain_tokens : Jwt :=
  {| jwt_encode := fun sub _ => sub;
     jwt_decode := fun _ token => Some (Some token) |}.

Definition carol : UserCreate :=
  mkUserCreate "carol@example.com" (Some "Carol") "secret1".

Definition carol_registered : list User :=
  Eval vm_compute in fst (@signup plain_passwords "salt" carol []).

End Scenario.

(** * Properties *)

Section Properties.

Context {money : Type} {M : Money money} {I : Invoicing money}.
Context {C : FloatColumn money}.

(** ** Stock validation at checkout *)

Lemma stock_exceeded_true (stock : option Z) (quantity : Z) :
  stock_exceeded stock quantity = true <->
  exists s, stock = Some s /\ quantity > s.
Proof.
  destruct stock as [s|]; simpl; split.
  - intros H. exists s. split; [reflexivity | apply Z.gtb_lt in H; lia].
  - intros [s' [E H]]. injection E as ->. apply Z.gtb_lt. lia.
  - discriminate.
  - intros [s' [E _]]. discriminate E.
Qed.

Lemma validate_cart_first_violation (db : DB money) (pre post : list CartItem)
  (ci : CartItem) (p : Product money) :
  Forall (passes db) pre ->
  insufficient db ci p ->
  forall total currency,
    validate_cart db (pre ++ ci :: post) total currency
    = inl (InsufficientStock (Product_name p)).
Proof.
  intros Hpre [Hget Hstock].
  induction Hpre as [|c pre [q [Hq Hok]] _ IH]; intros total currency; simpl.
  - rewrite Hget.
    apply stock_exceeded_true in Hstock. rewrite Hstock. reflexivity.
  - rewrite Hq, Hok. apply IH.
Qed.

Lemma validate_cart_bad_request (db : DB money) (cart : list CartItem) :
  forall total currency detail,
    validate_cart db cart total currency = inl (HTTPException 400 detail) ->
    exists ci p,
      In ci cart /\ insufficient db ci p /\
      detail = ("Not enough stock for " ++ Product_name p)%string.
Proof.
  induction cart as [|c cart IH]; intros total currency detail; simpl.
  - discriminate.
  - destruct (get_Product db (CartItem_product_id c)) as [p|] eqn:Hget;
      [|discriminate].
    destruct (stock_exceeded (Product_stock p) (CartItem_quantity c)) eqn:Hs.
    + intros H. injection H as <-.
      exists c, p. split; [now left|]. split; [|reflexivity].
      split; [exact Hget | now apply stock_exceeded_true].
    + intros H. apply IH in H. destruct H as [ci [q [Hin Hrest]]].
      exists ci, q. split; [now right | exact Hrest].
Qed.

Lemma create_order_items_error (order_id : Z) (cart : list CartItem) :
  forall db e,
    create_order_items order_id cart db = inl e -> e = AttributeError.
Proof.
  induction cart as [|c cart IH]; intros db e; simpl.
  - discriminate.
  - destruct (get_Product db (CartItem_product_id c)) as [p|].
    + apply IH.
    + intros H. injection H as <-. reflexivity.
Qed.

(** The only 400 of [checkout] besides the empty cart is the stock check, and
    it is raised before anything is written. *)
Lemma checkout_bad_request (u : Z) (db db' : DB money) (detail : string) :
  checkout u db = (db', inl (HTTPException 400 detail)) ->
  db' = db /\
  (detail = "Cart is empty" \/
   exists ci p,
     In ci (cart_of u db) /\ insufficient db ci p /\
     detail = ("Not enough stock for " ++ Product_name p)%string).
Proof.
  unfold checkout.
  destruct (cart_of u db) as [|c cart] eqn:Hcart.
  - intros H. injection H as <- <-. split; [reflexivity | now left].
  - destruct (validate_cart db (c :: cart) mzero "USD") as [e|[total currency]]
      eqn:Hv.
    + intros H. injection H as <- ->. split; [reflexivity|].
      right. eapply validate_cart_bad_request. exact Hv.
    + destruct (create_order_items _ _ _) as [e|db2] eqn:Hc.
      { apply create_order_items_error in Hc. subst e. discriminate. }
      destruct (get_Order _ _) as [o|]; [|discriminate].
      destruct (generate_invoice_pdf _ _); discriminate.
Qed.

(** C1. When a line of the caller's cart asks for more than the tracked stock
    of its product, and the lines before it pass the check, [checkout] raises
    the 400 that names this product and returns the database it was given:
    products and their stock, orders, order items and cart items are all
    unchanged. Conversely, whenever [checkout] raises that error, the
    database is unchanged and the named product is one whose stock a cart
    line exceeds. *)
Theorem checkout_insufficient_stock_changes_nothing (u : Z) (db : DB money) :
  (forall pre ci post p,
     cart_of u db = pre ++ ci :: post ->
     Forall (passes db) pre ->
     insufficient db ci p ->
     checkout u db = (db, inl (InsufficientStock (Product_name p)))) /\
  (forall db' name,
     checkout u db = (db', inl (InsufficientStock name)) ->
     db' = db /\
     exists ci p,
       In ci (cart_of u db) /\ insufficient db ci p /\ Product_name p = name).
Proof.
  split.
  - intros pre ci post p Hcart Hpre Hbad.
    unfold checkout. rewrite Hcart.
    destruct (pre ++ ci :: post) as [|c cart] eqn:E.
    + destruct pre; discriminate E.
    + rewrite <- E.
      rewrite (validate_cart_first_violation db pre post ci p Hpre Hbad).
      reflexivity.
  - intros db' name H.
    apply checkout_bad_request in H. destruct H as [-> [H|H]].
    + discriminate H.
    + split; [reflexivity|].
      destruct H as [ci [p [Hin [Hbad Hname]]]].
      exists ci, p. repeat split; try assumption; try apply Hbad.
      simpl in Hname. injection Hname as ->. reflexivity.
Qed.

(** ** The shape of a successful checkout *)

Lemma next_id_fresh (ids : list Z) (x : Z) : In x ids -> x < next_id ids.
Proof.
  unfold next_id. induction ids as [|y ids IH]; cbn [fold_right In].
  - intros [].
  - intros [->|H]; [|apply IH in H]; lia.
Qed.

Lemma create_order_items_frame (order_id : Z) (cart : list CartItem) :
  forall db db2,
    create_order_items order_id cart db = inr db2 ->
    orders db2 = orders db /\ cart_items db2 = cart_items db.
Proof.
  induction cart as [|c cart IH]; intros db db2; simpl.
  - intros H. injection H as <-. split; reflexivity.
  - destruct (get_Product db (CartItem_product_id c)) as [p|]; [|discriminate].
    intros H. apply IH in H. exact H.
Qed.

Lemma get_new_order (rows : list (Order money)) (o : Order money) :
  Order_id o = next_id (map Order_id rows) ->
  find (fun q => Order_id q =? Order_id o) (rows ++ [o]) = Some o.
Proof.
  intros Hid.
  assert (Hfresh : forall q, In q rows -> Order_id q < Order_id o).
  { intros q Hq. rewrite Hid. apply next_id_fresh. now apply in_map. }
  clear Hid. induction rows as [|q rows IH]; simpl.
  - now rewrite Z.eqb_refl.
  - destruct (Order_id q =? Order_id o) eqn:E.
    + apply Z.eqb_eq in E. specialize (Hfresh q (or_introl eq_refl)). lia.
    + apply IH. intros r Hr. apply Hfresh. now right.
Qed.

Lemma checkout_success (u : Z) (db db' : DB money) (out : CheckoutOut money) :
  checkout u db = (db', inr out) ->
  exists total currency db2 path,
    let order := new_order u db total currency in
    cart_of u db <> [] /\
    validate_cart db (cart_of u db) mzero "USD" = inr (total, currency) /\
    create_order_items (Order_id order) (cart_of u db) (with_order db order)
    = inr db2 /\
    generate_invoice_pdf order
      (items_of (delete_cart u db2) (Order_id order)) = Some path /\
    db' = with_invoice (delete_cart u db2) (Order_id order) path /\
    out = mkCheckoutOut (Order_id order) total currency
            ("/orders/" ++ str (Order_id order) ++ "/invoice")%string.
Proof.
  unfold checkout.
  destruct (cart_of u db) as [|c cart] eqn:Hcart; [discriminate|].
  destruct (validate_cart db (c :: cart) mzero "USD") as [e|[total currency]]
    eqn:Hv; [discriminate|].
  destruct (create_order_items _ _ _) as [e|db2] eqn:Hc; [discriminate|].
  assert (Hget : get_Order (delete_cart u db2)
                   (next_id (map Order_id (orders db)))
                 = Some (new_order u db total currency)).
  { unfold get_Order. simpl.
    destruct (create_order_items_frame _ _ _ _ Hc) as [-> _]. simpl.
    apply (get_new_order (orders db) (new_order u db total currency)).
    reflexivity. }
  simpl in Hget |- *. rewrite Hget.
  destruct (generate_invoice_pdf _ _) as [path|] eqn:Hpdf; [|discriminate].
  intros H. injection H as <- <-.
  exists total, currency, db2, path. simpl.
  repeat split; try assumption; try reflexivity.
  discriminate.
Qed.

(** ** The cart after checkout *)

Lemma filter_out_then_in {A : Type} (f : A -> bool) (l : list A) :
  filter f (filter (fun x => negb (f x)) l) = [].
Proof.
  induction l as [|x l IH]; simpl; [reflexivity|].
  destruct (f x) eqn:E; simpl; [exact IH | rewrite E; exact IH].
Qed.

(** C9. After a successful checkout the caller has no cart row left, and
    [view_cart] answers with the empty list. *)
Theorem checkout_clears_cart (u : Z) (db db' : DB money)
  (out : CheckoutOut money) :
  checkout u db = (db', inr out) ->
  cart_of u db' = [] /\ view_cart u db' = (db', inr []).
Proof.
  intros H. apply checkout_success in H.
  destruct H as [total [currency [db2 [path H]]]]. simpl in H.
  destruct H as [_ [_ [_ [_ [-> _]]]]].
  assert (E : cart_of u
                (with_invoice (delete_cart u db2)
                   (next_id (map Order_id (orders db))) path) = []).
  { unfold cart_of. simpl. apply filter_out_then_in. }
  split; [exact E|].
  unfold view_cart. rewrite E. reflexivity.
Qed.

(** ** Ownership *)

(** C8. A caller who asks by id for an order or a cart row of another user
    gets the 404 that an unknown id gets, with the same detail, and the
    database is left as it was; this holds for [get_order],
    [remove_cart_item] and [update_cart_item]. *)
Theorem foreign_rows_are_not_found (a b : Z) (db : DB money) :
  a <> b ->
  (forall order_id o,
     get_Order db order_id = Some o -> Order_user_id o = b ->
     get_order a order_id db
     = (db, inl (HTTPException 404 "Order not found"))) /\
  (forall order_id,
     get_Order db order_id = None ->
     get_order a order_id db
     = (db, inl (HTTPException 404 "Order not found"))) /\
  (forall item_id ci,
     get_CartItem db item_id = Some ci -> CartItem_user_id ci = b ->
     remove_cart_item a item_id db
     = (db, inl (HTTPException 404 "Cart item not found")) /\
     forall quantity, 1 <= quantity ->
       update_cart_item a item_id quantity db
       = (db, inl (HTTPException 404 "Cart item not found"))) /\
  (forall item_id,
     get_CartItem db item_id = None ->
     remove_cart_item a item_id db
     = (db, inl (HTTPException 404 "Cart item not found")) /\
     forall quantity, 1 <= quantity ->
       update_cart_item a item_id quantity db
       = (db, inl (HTTPException 404 "Cart item not found"))).
Proof.
  intros Hab.
  assert (Hne : (b =? a) = false) by (apply Z.eqb_neq; congruence).
  assert (Hq : forall quantity, 1 <= quantity -> (quantity <? 1) = false)
    by (intros quantity Hge; apply Z.ltb_ge; lia).
  split; [|split; [|split]].
  - intros order_id o Hget Hown. unfold get_order.
    rewrite Hget, Hown, Hne. reflexivity.
  - intros order_id Hget. unfold get_order. rewrite Hget. reflexivity.
  - intros item_id ci Hget Hown. split.
    + unfold remove_cart_item. rewrite Hget, Hown, Hne. reflexivity.
    + intros quantity Hge. unfold update_cart_item.
      rewrite (Hq quantity Hge), Hget, Hown, Hne. reflexivity.
  - intros item_id Hget. split.
    + unfold remove_cart_item. rewrite Hget. reflexivity.
    + intros quantity Hge. unfold update_cart_item.
      rewrite (Hq quantity Hge), Hget. reflexivity.
Qed.

(** ** Product update *)

Lemma get_assigned (product : ProductCreate money) (product_id : Z)
  (ps : list (Product money)) :
  find (fun p => Product_id p =? product_id)
       (map (fun q => if Product_id q =? product_id
                      then assign product q else q) ps)
  = option_map (assign product)
      (find (fun p => Product_id p =? product_id) ps).
Proof.
  induction ps as [|q ps IH]; simpl; [reflexivity|].
  destruct (Product_id q =? product_id) eqn:E; simpl; rewrite E.
  - reflexivity.
  - exact IH.
Qed.

Lemma existsb_none {A : Type} (f : A -> bool) (l : list A) :
  (forall x, In x l -> f x = false) -> existsb f l = false.
Proof.
  induction l as [|x l IH]; simpl; intros H; [reflexivity|].
  rewrite (H x (or_introl eq_refl)). apply IH.
  intros y Hy. apply H. now right.
Qed.

(** C10. An update replaces every field of the product with the value of
    the request: the name and the price that the body gives and, for each
    other field, the value that the body gives or, when the body omits the
    field, the default of [ProductCreate] (no description, currency "USD",
    no sku, stock 0), whatever the product held; only the id is kept. So a
    body of only a name and a price resets the stock to 0, the currency to
    "USD" and the description and the sku to null. The update goes through
    when the product exists, no other product carries the sku of the body,
    and the price and the stock of the body are values that the database
    stores, and the response carries, as they are. *)
Theorem update_product_replaces_every_field (product_id : Z) (db : DB money)
  (p0 : Product money) (body : ProductBody money) (name : string)
  (price : money) :
  get_Product db product_id = Some p0 ->
  body_name body = Some name ->
  body_price body = Some price ->
  storable price ->
  (forall stock, body_stock body = Some stock -> int64 stock) ->
  (forall sku q,
     body_sku body = Some (Some sku) ->
     In q (products db) -> Product_id q <> product_id ->
     Product_sku q <> Some sku) ->
  exists db' p,
    put_product product_id body db = (db', inr p) /\
    get_Product db' product_id = Some p /\
    Product_id p = product_id /\
    Product_name p = name /\
    Product_price p = price /\
    Product_description p
    = match body_description body with
      | Some description => description
      | None => None
      end /\
    Product_currency p
    = Some match body_currency body with
           | Some currency => currency
           | None => "USD"
           end /\
    Product_sku p
    = match body_sku body with
      | Some sku => sku
      | None => None
      end /\
    Product_stock p
    = Some match body_stock body with
           | Some stock => stock
           | None => 0
           end /\
    (body_description body = None -> body_currency body = None ->
     body_sku body = None -> body_stock body = None ->
     p = mkProduct product_id name None price (Some "USD") None (Some 0)).
Proof.
  intros Hget Hname Hprice _ _ Hsku.
  assert (Hid : Product_id p0 = product_id).
  { unfold get_Product in Hget. apply find_some in Hget.
    now apply Z.eqb_eq. }
  unfold put_product, ProductCreate_validate. rewrite Hname, Hprice.
  unfold update_product. rewrite Hget.
  cbn [ProductCreate_sku].
  replace (sku_taken _ _) with false.
  2:{ symmetry. unfold sku_taken. apply existsb_none.
      intros q Hq. apply filter_In in Hq. destruct Hq as [Hq Hne].
      apply negb_true_iff, Z.eqb_neq in Hne.
      destruct (body_sku body) as [[sku|]|] eqn:Hbody; simpl;
        try (destruct (Product_sku q); reflexivity).
      destruct (Product_sku q) as [k|] eqn:Hk; simpl; [|reflexivity].
      apply String.eqb_neq. intros ->.
      now apply (Hsku sku q eq_refl Hq Hne). }
  eexists _, _. split; [reflexivity|].
  split.
  { unfold get_Product in *. cbn [products]. rewrite get_assigned, Hget.
    reflexivity. }
  cbn [assign Product_id Product_name Product_price Product_description
       Product_currency Product_sku Product_stock ProductCreate_name
       ProductCreate_description ProductCreate_price ProductCreate_currency
       ProductCreate_sku ProductCreate_stock].
  unfold field_default.
  repeat (split; [reflexivity || exact Hid |]).
  intros -> -> -> ->. unfold assign. now rewrite Hid.
Qed.

(** ** Totals and subtotals *)

Lemma listing_set_stock (x : Z) (stock : option Z) (ps : list (Product money)) :
  map listing
      (map (fun q => if Product_id q =? x then set_stock stock q else q) ps)
  = map listing ps.
Proof.
  induction ps as [|q ps IH]; simpl; [reflexivity|].
  rewrite IH. destruct (Product_id q =? x); reflexivity.
Qed.

Lemma find_same_listing (x : Z) (ps qs : list (Product money)) :
  map listing ps = map listing qs ->
  option_map listing (find (fun p => Product_id p =? x) ps)
  = option_map listing (find (fun p => Product_id p =? x) qs).
Proof.
  revert qs. induction ps as [|p ps IH]; intros [|q qs]; simpl;
    try discriminate; [reflexivity|].
  intros H. injection H as Hid Hname Hprice Hrest.
  rewrite Hid. destruct (Product_id q =? x).
  - simpl. unfold listing. now rewrite Hid, Hname, Hprice.
  - now apply IH.
Qed.

Lemma create_order_items_spec (order_id : Z) (cart : list CartItem) :
  forall dbv dba total currency t c,
    map listing (products dbv) = map listing (products dba) ->
    validate_cart dbv cart total currency = inr (t, c) ->
    exists db2 new,
      create_order_items order_id cart dba = inr db2 /\
      order_items db2 = order_items dba ++ new /\
      t = fold_left (fun acc it => madd acc (OrderItem_subtotal it))
            new total /\
      Forall (fun it =>
                OrderItem_order_id it = order_id /\
                OrderItem_subtotal it
                = mscale (OrderItem_unit_price it) (OrderItem_quantity it))
             new /\
      map (fun it => (OrderItem_product_id it, OrderItem_quantity it)) new
      = map (fun ci => (CartItem_product_id ci, CartItem_quantity ci)) cart.
Proof.
  induction cart as [|ci cart IH]; intros dbv dba total currency t c Hsame;
    simpl.
  - intros H. injection H as <- <-. exists dba, []. rewrite app_nil_r.
    repeat split; constructor.
  - pose proof (find_same_listing (CartItem_product_id ci) _ _ Hsame) as Hfind.
    unfold get_Product.
    destruct (find _ (products dbv)) as [p|]; [|discriminate].
    destruct (find _ (products dba)) as [q|] eqn:Hq; [|discriminate Hfind].
    simpl in Hfind. injection Hfind as Hid Hname Hprice.
    destruct (stock_exceeded _ _); [discriminate|].
    intros Hv.
    match goal with
    | |- context [create_order_items order_id cart ?d] =>
        edestruct (IH dbv d) as [db2 [new [Hc [Hitems [Ht [Hall Hmap]]]]]];
          [ simpl; rewrite listing_set_stock; exact Hsame
          | exact Hv | ]
    end.
    exists db2.
    eexists (_ :: new).
    split; [exact Hc|].
    split; [rewrite Hitems; simpl; rewrite <- app_assoc; reflexivity|].
    split; [simpl; rewrite Ht, Hprice; reflexivity|].
    split.
    + constructor; [split; reflexivity | exact Hall].
    + simpl. rewrite Hmap. f_equal. f_equal.
      apply find_some in Hq. destruct Hq as [_ Hq].
      now apply Z.eqb_eq in Hq.
Qed.

Lemma filter_all {A : Type} (f : A -> bool) (l : list A) :
  Forall (fun x => f x = true) l -> filter f l = l.
Proof.
  induction 1 as [|x l Hx _ IH]; simpl; [reflexivity|].
  now rewrite Hx, IH.
Qed.

Lemma filter_none {A : Type} (f : A -> bool) (l : list A) :
  Forall (fun x => f x = false) l -> filter f l = [].
Proof.
  induction 1 as [|x l Hx _ IH]; simpl; [reflexivity|].
  now rewrite Hx.
Qed.

Lemma get_invoiced (order_id : Z) (path : string) (rows : list (Order money)) :
  find (fun o => Order_id o =? order_id)
       (map (fun q => if Order_id q =? order_id
                      then set_invoice_path path q else q) rows)
  = option_map (set_invoice_path path)
      (find (fun o => Order_id o =? order_id) rows).
Proof.
  induction rows as [|q rows IH]; simpl; [reflexivity|].
  destruct (Order_id q =? order_id) eqn:E; simpl; rewrite E.
  - reflexivity.
  - exact IH.
Qed.

(** What a successful checkout leaves in the order tables: the order it
    answers with, and as its items exactly one new row per cart line. *)
Lemma checkout_order (u : Z) (db db' : DB money) (out : CheckoutOut money) :
  order_items_reference_orders db ->
  checkout u db = (db', inr out) ->
  exists o new,
    get_Order db' (CheckoutOut_order_id out) = Some o /\
    Order_id o = CheckoutOut_order_id out /\
    Order_user_id o = u /\
    Order_total_amount o = CheckoutOut_total_amount out /\
    Order_currency o = CheckoutOut_currency out /\
    items_of db' (Order_id o) = new /\
    order_items db' = order_items db ++ new /\
    Order_total_amount o
    = fold_left (fun acc it => madd acc (OrderItem_subtotal it)) new mzero /\
    Forall (fun it =>
              OrderItem_subtotal it
              = mscale (OrderItem_unit_price it) (OrderItem_quantity it)) new /\
    map (fun it => (OrderItem_product_id it, OrderItem_quantity it)) new
    = map (fun ci => (CartItem_product_id ci, CartItem_quantity ci))
          (cart_of u db).
Proof.
  intros Hfk H. apply checkout_success in H.
  destruct H as [total [currency [db2 [path H]]]]. simpl in H.
  destruct H as [_ [Hv [Hc [_ [-> ->]]]]].
  destruct (create_order_items_spec (next_id (map Order_id (orders db)))
              (cart_of u db) db
              (with_order db (new_order u db total currency))
              mzero "USD" total currency eq_refl Hv)
    as [db2' [new [Hc' [Hitems [Ht [Hall Hmap]]]]]].
  rewrite Hc in Hc'. injection Hc' as <-.
  destruct (create_order_items_frame _ _ _ _ Hc) as [Horders _].
  exists (set_invoice_path path (new_order u db total currency)), new.
  simpl.
  split.
  { unfold get_Order. cbn [orders with_invoice delete_cart].
    rewrite get_invoiced, Horders. cbn [orders with_order].
    replace (find _ (orders db ++ _))
      with (Some (new_order u db total currency)); [reflexivity|].
    symmetry.
    apply (get_new_order (orders db) (new_order u db total currency) eq_refl). }
  repeat split; try assumption.
  - unfold items_of. simpl. rewrite Hitems. simpl. rewrite filter_app.
    rewrite filter_none, filter_all; [reflexivity | |].
    + eapply Forall_impl; [|exact Hall].
      intros it [Hid _]. rewrite Hid. apply Z.eqb_refl.
    + eapply Forall_impl; [|exact Hfk].
      intros it Hin. apply next_id_fresh in Hin. apply Z.eqb_neq. lia.
  - eapply Forall_impl; [|exact Hall]. intros it [_ Hsub]. exact Hsub.
Qed.

Lemma validate_cart_passes (db : DB money) (cart : list CartItem) :
  Forall (passes db) cart ->
  forall total currency,
    exists t c, validate_cart db cart total currency = inr (t, c).
Proof.
  induction 1 as [|ci cart [p [Hp Hok]] _ IH]; intros total currency; simpl.
  - now exists total, currency.
  - rewrite Hp, Hok. apply IH.
Qed.

(** Checkout does succeed: on a cart that is not empty and whose lines all
    pass the stock check, when the renderer returns a path. *)
(** C2. After a successful checkout, the order it created is stored with a
    total that is the sum, from left to right, of the subtotals of its order
    items, each of them the unit price times the quantity; the total in the
    answer is the stored one, and the order has one item per cart line. The
    hypothesis on the database is its foreign key from order items to
    orders. *)
Theorem checkout_total_is_sum_of_subtotals (u : Z) (db db' : DB money)
  (out : CheckoutOut money) :
  order_items_reference_orders db ->
  checkout u db = (db', inr out) ->
  exists o,
    get_Order db' (CheckoutOut_order_id out) = Some o /\
    Order_total_amount o = sum_subtotals (items_of db' (Order_id o)) /\
    Forall (fun it =>
              OrderItem_subtotal it
              = mscale (OrderItem_unit_price it) (OrderItem_quantity it))
           (items_of db' (Order_id o)) /\
    CheckoutOut_total_amount out = Order_total_amount o /\
    List.length (items_of db' (Order_id o)) = List.length (cart_of u db).
Proof.
  intros Hfk H.
  destruct (checkout_order u db db' out Hfk H)
    as [o [new [Hget [_ [_ [Hout [_ [Hitems [_ [Htotal [Hall Hmap]]]]]]]]]]].
  exists o. rewrite Hitems. unfold sum_subtotals.
  repeat split; try assumption.
  - now symmetry.
  - rewrite <- (List.length_map (fun it => (OrderItem_product_id it,
                                        OrderItem_quantity it)) new).
    rewrite Hmap. apply List.length_map.
Qed.

(** ** The currency of an order *)

Lemma or_else_code (code currency : string) :
  code <> "" -> or_else (Some code) currency = code.
Proof.
  intros H. simpl. destruct (code =? "")%string eqn:E; [|reflexivity].
  apply String.eqb_eq in E. contradiction.
Qed.

Lemma or_else_cases (x : option string) :
  (exists code, x = Some code /\ code <> "") \/
  (forall currency, or_else x currency = currency).
Proof.
  destruct x as [code|]; [|right; reflexivity].
  destruct (code =? "")%string eqn:E.
  - right. intros currency. simpl. now rewrite E.
  - left. exists code. split; [reflexivity|]. now apply String.eqb_neq.
Qed.

Lemma validate_cart_currency (db : DB money) (cart : list CartItem) :
  forall total currency t c,
    validate_cart db cart total currency = inr (t, c) ->
    (exists pre ci post p,
       cart = pre ++ ci :: post /\
       get_Product db (CartItem_product_id ci) = Some p /\
       Product_currency p = Some c /\ c <> "" /\
       Forall (no_currency db) post) \/
    (Forall (no_currency db) cart /\ c = currency).
Proof.
  induction cart as [|ci cart IH]; intros total currency t c; simpl.
  - intros H. injection H as _ <-. right. split; [constructor | reflexivity].
  - destruct (get_Product db (CartItem_product_id ci)) as [p|] eqn:Hget;
      [|discriminate].
    destruct (stock_exceeded _ _); [discriminate|].
    intros H. apply IH in H.
    destruct H as [[pre [cj [post [q [-> H]]]]] | [Hall ->]].
    + left. exists (ci :: pre), cj, post, q. split; [reflexivity | exact H].
    + destruct (or_else_cases (Product_currency p))
        as [[code [Hc Hne]] | Hnone].
      * left. exists [], ci, cart, p. rewrite Hc, (or_else_code _ _ Hne).
        repeat split; assumption.
      * right. split; [|apply Hnone].
        constructor; [|exact Hall]. exists p. split; assumption.
Qed.

Lemma validate_cart_last (db : DB money) (ci : CartItem) (p : Product money)
  (pre : list CartItem) :
  get_Product db (CartItem_product_id ci) = Some p ->
  forall total currency t c,
    validate_cart db (pre ++ [ci]) total currency = inr (t, c) ->
    exists before, c = or_else (Product_currency p) before.
Proof.
  intros Hget. induction pre as [|cj pre IH]; intros total currency t c; simpl.
  - rewrite Hget. destruct (stock_exceeded _ _); [discriminate|].
    intros H. injection H as _ <-. now exists currency.
  - destruct (get_Product db (CartItem_product_id cj)); [|discriminate].
    destruct (stock_exceeded _ _); [discriminate|]. apply IH.
Qed.

(** C7, amended. The currency of the order of a successful checkout is the
    currency of the last cart line whose product has a currency that is
    neither null nor empty, and "USD" when no line has one. In particular,
    when the product of the last cart line has a non-empty currency, that
    currency is the order's, whatever the earlier lines carry. *)
Theorem checkout_currency_is_last_nonempty (u : Z) (db db' : DB money)
  (out : CheckoutOut money) :
  checkout u db = (db', inr out) ->
  ((exists pre ci post p,
      cart_of u db = pre ++ ci :: post /\
      get_Product db (CartItem_product_id ci) = Some p /\
      Product_currency p = Some (CheckoutOut_currency out) /\
      CheckoutOut_currency out <> "" /\
      Forall (no_currency db) post) \/
   (Forall (no_currency db) (cart_of u db) /\
    CheckoutOut_currency out = "USD")) /\
  (forall pre ci p code,
     cart_of u db = pre ++ [ci] ->
     get_Product db (CartItem_product_id ci) = Some p ->
     Product_currency p = Some code -> code <> "" ->
     CheckoutOut_currency out = code).
Proof.
  intros H. apply checkout_success in H.
  destruct H as [total [currency [db2 [path H]]]]. simpl in H.
  destruct H as [_ [Hv [_ [_ [_ ->]]]]]. simpl. split.
  - exact (validate_cart_currency _ _ _ _ _ _ Hv).
  - intros pre ci p code Hcart Hget Hcur Hne.
    rewrite Hcart in Hv.
    destruct (validate_cart_last db ci p pre Hget _ _ _ _ Hv) as [before ->].
    rewrite Hcur. now apply or_else_code.
Qed.

(** ** Order items and the catalog *)

(** C4, amended. An update of a product changes no order and no order item:
    name, unit price, quantity and subtotal of every item and the total of
    every order stay as they were stored. A deletion of a product changes no
    order either, and keeps, unchanged, exactly the order items of the other
    products: the items that reference the deleted product are deleted with
    it. *)
Theorem order_history_under_catalog_changes (product_id : Z) (db : DB money) :
  (forall product,
     orders (fst (update_product product_id product db)) = orders db /\
     order_items (fst (update_product product_id product db))
     = order_items db) /\
  orders (fst (delete_product product_id db)) = orders db /\
  (forall p, get_Product db product_id = Some p ->
     snd (delete_product product_id db) = inr tt /\
     get_Product (fst (delete_product product_id db)) product_id = None /\
     forall oi,
       In oi (order_items (fst (delete_product product_id db))) <->
       In oi (order_items db) /\ OrderItem_product_id oi <> product_id) /\
  (get_Product db product_id = None ->
     delete_product product_id db
     = (db, inl (HTTPException 404 "Product not found"))).
Proof.
  split; [|split; [|split]].
  - intros product. unfold update_product.
    destruct (get_Product db product_id); [|split; reflexivity].
    destruct (sku_taken _ _); split; reflexivity.
  - unfold delete_product. destruct (get_Product db product_id); reflexivity.
  - intros p Hp. unfold delete_product. rewrite Hp. simpl.
    split; [reflexivity|]. split.
    + unfold get_Product. simpl.
      destruct (find _ (filter _ (products db))) as [q|] eqn:E; [|reflexivity].
      apply find_some in E. destruct E as [Hin Hq].
      apply filter_In in Hin. destruct Hin as [_ Hneq].
      rewrite Hq in Hneq. discriminate Hneq.
    + intros oi. rewrite filter_In, negb_true_iff, Z.eqb_neq. reflexivity.
  - intros Hget. unfold delete_product. rewrite Hget. reflexivity.
Qed.

(** ** What a request leaves of the cart and of the catalog *)

Lemma find_map_compat {A : Type} (f : A -> bool) (g : A -> A) (l : list A) :
  (forall x, f (g x) = f x) ->
  find f (map g l) = option_map g (find f l).
Proof.
  intros Hfg. induction l as [|x l IH]; simpl; [reflexivity|].
  rewrite Hfg. destruct (f x); [reflexivity | exact IH].
Qed.

(** The cart rows after [checkout]: all of them when it raises, those of
    the other users when it succeeds or fails after the cart is cleared. *)
Lemma checkout_cart_items (u : Z) (db : DB money) :
  cart_items (fst (checkout u db)) = cart_items db \/
  cart_items (fst (checkout u db))
  = filter (fun ci => negb (CartItem_user_id ci =? u)) (cart_items db).
Proof.
  unfold checkout.
  destruct (cart_of u db) as [|c cart]; [now left|].
  destruct (validate_cart _ _ _ _) as [e|[total currency]]; [now left|].
  destruct (create_order_items _ _ _) as [e|db2] eqn:Hc; [now left|].
  apply create_order_items_frame in Hc. destruct Hc as [_ Hcart].
  right.
  destruct (get_Order _ _) as [o|]; [|simpl; now rewrite Hcart].
  destruct (generate_invoice_pdf _ _); simpl; now rewrite Hcart.
Qed.

(** The products after [checkout]: those it was given, or those left by the
    second loop. *)
Lemma checkout_products (u : Z) (db : DB money) :
  products (fst (checkout u db)) = products db \/
  exists order_id o db2,
    create_order_items order_id (cart_of u db) (with_order db o) = inr db2 /\
    products (fst (checkout u db)) = products db2.
Proof.
  unfold checkout.
  destruct (cart_of u db) as [|c cart]; [now left|].
  destruct (validate_cart _ _ _ _) as [e|[total currency]]; [now left|].
  destruct (create_order_items _ _ _) as [e|db2] eqn:Hc; [now left|].
  right. eexists _, _, db2. split; [exact Hc|].
  destruct (get_Order _ _) as [o|]; [|reflexivity].
  destruct (generate_invoice_pdf _ _); reflexivity.
Qed.

(** ** One cart row per user and product *)

Lemma NoDup_map_filter {A B : Type} (f : A -> B) (g : A -> bool)
  (l : list A) :
  NoDup (map f l) -> NoDup (map f (filter g l)).
Proof.
  induction l as [|x l IH]; simpl; [trivial|].
  intros H. apply NoDup_cons_iff in H. destruct H as [Hx Hl].
  destruct (g x); simpl; [|now apply IH].
  constructor; [|now apply IH].
  intros Hin. apply Hx.
  apply in_map_iff in Hin. destruct Hin as [y [Hy Hin]].
  apply filter_In in Hin. apply in_map_iff. exists y. tauto.
Qed.

Lemma pairing_update_row (item_id : Z) (f : CartItem -> CartItem)
  (rows : list CartItem) :
  (forall ci, pairing (f ci) = pairing ci) ->
  map pairing (update_row item_id f rows) = map pairing rows.
Proof.
  intros Hf. unfold update_row. induction rows as [|ci rows IH]; simpl;
    [reflexivity|].
  rewrite IH.
  destruct (CartItem_id ci =? item_id); [now rewrite Hf | reflexivity].
Qed.

Lemma add_to_cart_cart_unique (u : Z) (item : CartAdd) (db : DB money) :
  cart_unique db -> cart_unique (fst (add_to_cart u item db)).
Proof.
  unfold cart_unique, add_to_cart. intros H.
  destruct (CartAdd_quantity item <? 1); [exact H|].
  destruct (get_Product db (CartAdd_product_id item)) as [p|]; [|exact H].
  destruct (stock_exceeded _ _); [exact H|].
  destruct (existing_row u (CartAdd_product_id item) db) as [existing|] eqn:E;
    simpl.
  - rewrite pairing_update_row; [exact H | reflexivity].
  - rewrite map_app. simpl.
    apply NoDup_app; [exact H | repeat constructor; intros [] |].
    intros k Hk [<-|[]].
    apply in_map_iff in Hk. destruct Hk as [ci [Hci Hin]].
    unfold existing_row in E.
    pose proof (find_none _ _ E ci Hin) as Hnone. simpl in Hnone.
    unfold pairing in Hci. injection Hci as Hu Hp.
    rewrite Hu, Hp, !Z.eqb_refl in Hnone. discriminate Hnone.
Qed.

Lemma handle_cart_unique (r : request money) (db : DB money) :
  cart_unique db -> cart_unique (handle r db).
Proof.
  intros H. destruct r; simpl.
  - unfold create_product. destruct (sku_taken _ _); exact H.
  - unfold update_product. destruct (get_Product db product_id); [|exact H].
    destruct (sku_taken _ _); exact H.
  - unfold delete_product. destruct (get_Product db product_id); exact H.
  - now apply add_to_cart_cart_unique.
  - exact H.
  - unfold update_cart_item. destruct (quantity <? 1); [exact H|].
    destruct (get_CartItem db item_id) as [ci|]; [|exact H].
    destruct (negb _); [exact H|].
    destruct (get_Product db (CartItem_product_id ci)); [|exact H].
    destruct (stock_exceeded _ _); [exact H|].
    unfold cart_unique. simpl.
    rewrite pairing_update_row; [exact H | reflexivity].
  - unfold remove_cart_item.
    destruct (get_CartItem db item_id) as [ci|]; [|exact H].
    destruct (negb _); [exact H|].
    unfold cart_unique. simpl. now apply NoDup_map_filter.
  - unfold cart_unique. simpl. now apply NoDup_map_filter.
  - unfold cart_unique.
    destruct (checkout_cart_items current_user db) as [-> | ->];
      [exact H | now apply NoDup_map_filter].
  - unfold get_order. destruct (get_Order db order_id) as [o|]; [|exact H].
    destruct (negb _); exact H.
Qed.

Lemma run_invariant (P : DB money -> Prop) (Q : request money -> Prop) :
  (forall r db, Q r -> P db -> P (handle r db)) ->
  forall rs db, Forall Q rs -> P db -> P (run rs db).
Proof.
  intros Hstep rs. induction rs as [|r rs IH]; intros db Hrs Hdb; simpl.
  - exact Hdb.
  - apply Forall_cons_iff in Hrs. destruct Hrs as [Hr Hrs].
    apply IH; [exact Hrs | now apply Hstep].
Qed.

(** C6. No request breaks the rule of one cart row per user and product, so
    the rule holds after any sequence of requests served from the empty
    database. When the caller already has a row for the product, a
    successful [add_to_cart] adds no row: the pairings of the table are the
    same, the row of the pairing has its quantity increased by the quantity
    added, and the answer shows that sum. *)
Theorem one_cart_row_per_user_and_product :
  (forall r db, cart_unique db -> cart_unique (handle r db)) /\
  (forall rs, cart_unique (run rs empty_db)) /\
  (forall u item db existing db' out,
     existing_row u (CartAdd_product_id item) db = Some existing ->
     add_to_cart u item db = (db', inr out) ->
     map pairing (cart_items db') = map pairing (cart_items db) /\
     existing_row u (CartAdd_product_id item) db'
     = Some (set_quantity
               (CartItem_quantity existing + CartAdd_quantity item) existing) /\
     CartItemOut_quantity out
     = CartItem_quantity existing + CartAdd_quantity item).
Proof.
  split; [exact handle_cart_unique|]. split.
  - intros rs.
    apply (run_invariant cart_unique (fun _ => True)).
    + intros r db _. apply handle_cart_unique.
    + apply Forall_forall. trivial.
    + constructor.
  - intros u item db existing db' out Hex. unfold add_to_cart.
    destruct (CartAdd_quantity item <? 1); [discriminate|].
    destruct (get_Product db (CartAdd_product_id item)) as [p|];
      [|discriminate].
    destruct (stock_exceeded _ _); [discriminate|].
    rewrite Hex. intros H. injection H as <- <-. simpl.
    split; [apply pairing_update_row; reflexivity|].
    split; [|reflexivity].
    unfold existing_row in *. simpl. unfold update_row.
    rewrite find_map_compat.
    + rewrite Hex. simpl. now rewrite Z.eqb_refl.
    + intros ci. destruct (CartItem_id ci =? CartItem_id existing); reflexivity.
Qed.

(** ** Stock *)

Lemma decrement_stock_nonneg (stock : option Z) (quantity s : Z) :
  decrement_stock stock quantity = Some s -> 0 <= s.
Proof.
  destruct stock as [s0|]; simpl; [|discriminate].
  intros H. injection H as <-. lia.
Qed.

Lemma create_order_items_stock_nonneg (order_id : Z) (cart : list CartItem) :
  forall db db2,
    stock_nonneg db ->
    create_order_items order_id cart db = inr db2 ->
    stock_nonneg db2.
Proof.
  induction cart as [|ci cart IH]; intros db db2 Hdb; simpl.
  - intros H. injection H as <-. exact Hdb.
  - destruct (get_Product db (CartItem_product_id ci)) as [p|]; [|discriminate].
    apply IH. unfold stock_nonneg in *. simpl.
    apply Forall_map. eapply Forall_impl; [|exact Hdb].
    intros q Hq. destruct (Product_id q =? Product_id p); [|exact Hq].
    simpl. intros s. apply decrement_stock_nonneg.
Qed.

Lemma handle_stock_nonneg (r : request money) (db : DB money) :
  writes_nonneg_stock r -> stock_nonneg db -> stock_nonneg (handle r db).
Proof.
  intros Hr H. destruct r; simpl in *.
  - unfold create_product. destruct (sku_taken _ _); [exact H|].
    unfold stock_nonneg. simpl. apply Forall_app. split; [exact H|].
    constructor; [|constructor]. simpl. intros s Hs.
    injection Hs as <-. exact Hr.
  - unfold update_product. destruct (get_Product db product_id); [|exact H].
    destruct (sku_taken _ _); [exact H|].
    unfold stock_nonneg in *. simpl. apply Forall_map.
    eapply Forall_impl; [|exact H]. intros q Hq.
    destruct (Product_id q =? product_id); [|exact Hq].
    simpl. intros s Hs. injection Hs as <-. exact Hr.
  - unfold delete_product. destruct (get_Product db product_id); [|exact H].
    unfold stock_nonneg in *. simpl.
    apply Forall_forall. intros q Hq. apply filter_In in Hq.
    destruct Hq as [Hq _]. rewrite Forall_forall in H. now apply H.
  - unfold add_to_cart. destruct (CartAdd_quantity item <? 1); [exact H|].
    destruct (get_Product db (CartAdd_product_id item)); [|exact H].
    destruct (stock_exceeded _ _); [exact H|].
    destruct (existing_row _ _ _); exact H.
  - exact H.
  - unfold update_cart_item. destruct (quantity <? 1); [exact H|].
    destruct (get_CartItem db item_id) as [ci|]; [|exact H].
    destruct (negb _); [exact H|].
    destruct (get_Product db (CartItem_product_id ci)); [|exact H].
    destruct (stock_exceeded _ _); exact H.
  - unfold remove_cart_item.
    destruct (get_CartItem db item_id) as [ci|]; [|exact H].
    destruct (negb _); exact H.
  - exact H.
  - unfold stock_nonneg.
    destruct (checkout_products current_user db)
      as [-> | [order_id [o [db2 [Hc ->]]]]]; [exact H|].
    exact (create_order_items_stock_nonneg _ _ (with_order db o) _ H Hc).
  - unfold get_order. destruct (get_Order db order_id) as [o|]; [|exact H].
    destruct (negb _); exact H.
Qed.

Lemma create_order_items_stock (order_id : Z) (cart : list CartItem) :
  forall db db2,
    create_order_items order_id cart db = inr db2 ->
    forall product_id p,
      get_Product db product_id = Some p ->
      get_Product db2 product_id
      = Some (set_stock
                (fold_left decrement_stock
                   (map CartItem_quantity
                      (filter (fun ci => CartItem_product_id ci =? product_id)
                              cart))
                   (Product_stock p))
                p).
Proof.
  induction cart as [|ci cart IH]; intros db db2; simpl.
  - intros H product_id p Hp. injection H as <-. rewrite Hp.
    destruct p; reflexivity.
  - destruct (get_Product db (CartItem_product_id ci)) as [q|] eqn:Hq;
      [|discriminate].
    intros H product_id p Hp.
    assert (Hqid : Product_id q = CartItem_product_id ci).
    { unfold get_Product in Hq. apply find_some in Hq.
      now apply Z.eqb_eq. }
    match type of H with
    | create_order_items _ _ ?d = _ =>
        assert (Hmid : get_Product d product_id
                       = Some (if Product_id p =? Product_id q
                               then set_stock
                                      (decrement_stock (Product_stock q)
                                         (CartItem_quantity ci)) p
                               else p))
    end.
    { unfold get_Product in *. simpl. rewrite find_map_compat.
      - rewrite Hp. reflexivity.
      - intros x. destruct (Product_id x =? Product_id q); reflexivity. }
    pose proof (IH _ _ H product_id _ Hmid) as Hend. rewrite Hend. clear Hend.
    assert (Hpid : Product_id p = product_id).
    { unfold get_Product in Hp. apply find_some in Hp.
      now apply Z.eqb_eq. }
    rewrite Hpid, Hqid.
    destruct (CartItem_product_id ci =? product_id) eqn:E.
    + apply Z.eqb_eq in E. rewrite <- E, Z.eqb_refl. simpl.
      assert (q = p) by congruence. subst q. reflexivity.
    + rewrite Z.eqb_sym, E. reflexivity.
Qed.

Lemma fold_decrement_stock (quantities : list Z) :
  forall s, exists s',
    fold_left decrement_stock quantities (Some s) = Some s' /\
    (0 <= s \/ quantities <> [] -> 0 <= s').
Proof.
  induction quantities as [|q quantities IH]; intros s; simpl.
  - exists s. split; [reflexivity|]. intros [H|H]; [exact H | contradiction].
  - destruct (IH (Z.max 0 (s - q))) as [s' [Hs' Hnonneg]].
    exists s'. split; [exact Hs'|]. intros _. apply Hnonneg. left. lia.
Qed.

(** C5, amended. Checkout rewrites the tracked stock of a product once per
    cart line of that product, each time to [max(0, stock - quantity)], and
    leaves an untracked stock untracked: after a successful checkout every
    product of the caller's cart with a tracked stock has a stock of at
    least 0. So along any sequence of requests whose product creations and
    updates carry a stock of at least 0, no tracked stock is negative. The
    other routes do not make a stock negative either: the cart routes,
    [get_order], [list_ordered_products] and [download_invoice] leave the
    product table as it is, a deletion keeps no product that was not
    there, and a creation or an update that succeeds stores the stock of
    its request as it is, whatever its sign, and changes no other
    product. *)
Theorem checkout_floors_stock_at_zero :
  (forall u db db' out product_id p,
     checkout u db = (db', inr out) ->
     get_Product db product_id = Some p ->
     get_Product db' product_id
     = Some (set_stock
               (fold_left decrement_stock
                  (map CartItem_quantity
                     (filter (fun ci => CartItem_product_id ci =? product_id)
                             (cart_of u db)))
                  (Product_stock p))
               p)) /\
  (forall u db db' out ci p s,
     checkout u db = (db', inr out) ->
     In ci (cart_of u db) ->
     get_Product db (CartItem_product_id ci) = Some p ->
     Product_stock p = Some s ->
     exists p' s',
       get_Product db' (CartItem_product_id ci) = Some p' /\
       Product_stock p' = Some s' /\ 0 <= s') /\
  (forall u db db' out product_id p,
     checkout u db = (db', inr out) ->
     get_Product db product_id = Some p ->
     Product_stock p = None ->
     get_Product db' product_id = Some p) /\
  (forall stock quantity,
     decrement_stock stock quantity
     = option_map (fun s => Z.max 0 (s - quantity)) stock) /\
  (forall rs db,
     Forall writes_nonneg_stock rs ->
     stock_nonneg db -> stock_nonneg (run rs db)) /\
  (forall (r : request money) (db : DB money),
     match r with
     | AddToCart _ _ | ViewCart _ | UpdateCartItem _ _ _
     | RemoveCartItem _ _ | ClearCart _ | GetOrder _ _ =>
         products (handle r db) = products db
     | _ => True
     end) /\
  (forall os_path_exists u order_id (db : DB money),
     fst (list_ordered_products u db) = db /\
     fst (download_invoice os_path_exists u order_id db) = db) /\
  (forall product (db db' : DB money) p,
     create_product product db = (db', inr p) ->
     Product_stock p = Some (ProductCreate_stock product) /\
     products db' = products db ++ [p]) /\
  (forall product_id product (db db' : DB money) p,
     update_product product_id product db = (db', inr p) ->
     Product_stock p = Some (ProductCreate_stock product) /\
     get_Product db' product_id = Some p /\
     forall other q,
       other <> product_id ->
       get_Product db other = Some q -> get_Product db' other = Some q) /\
  (forall product_id (db : DB money) p,
     In p (products (fst (delete_product product_id db))) ->
     In p (products db)).
Proof.
  assert (Hformula : forall u db db' out product_id p,
     checkout u db = (db', inr out) ->
     get_Product db product_id = Some p ->
     get_Product db' product_id
     = Some (set_stock
               (fold_left decrement_stock
                  (map CartItem_quantity
                     (filter (fun ci => CartItem_product_id ci =? product_id)
                             (cart_of u db)))
                  (Product_stock p))
               p)).
  { intros u db db' out product_id p H Hp.
    apply checkout_success in H.
    destruct H as [total [currency [db2 [path H]]]]. simpl in H.
    destruct H as [_ [_ [Hc [_ [-> _]]]]].
    exact (create_order_items_stock _ _ _ _ Hc product_id p Hp). }
  split; [exact Hformula|].
  split; [|split; [|split; [|split; [|split; [|split; [|split; [|split]]]]]]].
  - intros u db db' out ci p s H Hin Hp Hs.
    rewrite (Hformula u db db' out _ p H Hp). rewrite Hs.
    destruct (fold_decrement_stock
                (map CartItem_quantity
                   (filter (fun cj => CartItem_product_id cj
                                      =? CartItem_product_id ci)
                           (cart_of u db))) s) as [s' [Hs' Hnonneg]].
    eexists _, s'. split; [reflexivity|]. split; [exact Hs'|].
    apply Hnonneg. right. intros Hnil.
    apply map_eq_nil in Hnil.
    assert (Hci : In ci (filter (fun cj => CartItem_product_id cj
                                           =? CartItem_product_id ci)
                                (cart_of u db))).
    { apply filter_In. split; [exact Hin | apply Z.eqb_refl]. }
    rewrite Hnil in Hci. exact Hci.
  - intros u db db' out product_id p H Hp Hs.
    rewrite (Hformula u db db' out _ p H Hp). rewrite Hs.
    replace (fold_left decrement_stock _ None) with (@None Z).
    + destruct p. simpl in Hs. subst. reflexivity.
    + symmetry.
      induction (map CartItem_quantity _) as [|q l IH]; simpl;
        [reflexivity | exact IH].
  - intros [s|] quantity; reflexivity.
  - apply run_invariant. exact handle_stock_nonneg.
  - intros r db. destruct r; simpl; trivial.
    + unfold add_to_cart. destruct (CartAdd_quantity item <? 1); [reflexivity|].
      destruct (get_Product db (CartAdd_product_id item)); [|reflexivity].
      destruct (stock_exceeded _ _); [reflexivity|].
      destruct (existing_row _ _ _); reflexivity.
    + unfold update_cart_item. destruct (quantity <? 1); [reflexivity|].
      destruct (get_CartItem db item_id) as [ci|]; [|reflexivity].
      destruct (negb _); [reflexivity|].
      destruct (get_Product db (CartItem_product_id ci)); [|reflexivity].
      destruct (stock_exceeded _ _); reflexivity.
    + unfold remove_cart_item.
      destruct (get_CartItem db item_id) as [ci|]; [|reflexivity].
      destruct (negb _); reflexivity.
    + unfold get_order. destruct (get_Order db order_id) as [o|];
        [|reflexivity].
      destruct (negb _); reflexivity.
  - intros fs u order_id db. split; [reflexivity|].
    unfold download_invoice.
    destruct (get_Order db order_id) as [o|]; [|reflexivity].
    destruct (negb _); [reflexivity|].
    destruct (Order_invoice_path o) as [path|]; [|reflexivity].
    destruct (_ || _); reflexivity.
  - intros product db db' p. unfold create_product.
    destruct (sku_taken _ _); [discriminate|].
    intros H. injection H as <- <-. split; reflexivity.
  - intros product_id product db db' p. unfold update_product.
    destruct (get_Product db product_id) as [p0|] eqn:Hp0; [|discriminate].
    destruct (sku_taken _ _); [discriminate|].
    intros H. injection H as <- <-. split; [reflexivity|]. split.
    + unfold get_Product in *. simpl. rewrite get_assigned, Hp0. reflexivity.
    + intros other q Hother Hq. unfold get_Product in *. simpl.
      rewrite find_map_compat.
      * rewrite Hq. simpl.
        apply find_some in Hq. destruct Hq as [_ Hid]. apply Z.eqb_eq in Hid.
        replace (Product_id q =? product_id) with false; [reflexivity|].
        symmetry. apply Z.eqb_neq. congruence.
      * intros x. destruct (Product_id x =? product_id); reflexivity.
  - intros product_id db p. unfold delete_product.
    destruct (get_Product db product_id); simpl; [|trivial].
    intros H. apply filter_In in H. apply H.
Qed.

(** ** The foreign key of order items *)

Lemma handle_order_items_reference_orders (r : request money) (db : DB money) :
  order_items_reference_orders db ->
  order_items_reference_orders (handle r db).
Proof.
  intros H. destruct r; simpl.
  - unfold create_product. destruct (sku_taken _ _); exact H.
  - unfold update_product. destruct (get_Product db product_id); [|exact H].
    destruct (sku_taken _ _); exact H.
  - unfold delete_product. destruct (get_Product db product_id); [|exact H].
    unfold order_items_reference_orders in *. simpl.
    apply Forall_forall. intros oi Hoi. apply filter_In in Hoi.
    rewrite Forall_forall in H. now apply H.
  - unfold add_to_cart. destruct (CartAdd_quantity item <? 1); [exact H|].
    destruct (get_Product db (CartAdd_product_id item)); [|exact H].
    destruct (stock_exceeded _ _); [exact H|].
    destruct (existing_row _ _ _); exact H.
  - exact H.
  - unfold update_cart_item. destruct (quantity <? 1); [exact H|].
    destruct (get_CartItem db item_id) as [ci|]; [|exact H].
    destruct (negb _); [exact H|].
    destruct (get_Product db (CartItem_product_id ci)); [|exact H].
    destruct (stock_exceeded _ _); exact H.
  - unfold remove_cart_item.
    destruct (get_CartItem db item_id) as [ci|]; [|exact H].
    destruct (negb _); exact H.
  - exact H.
  - unfold checkout.
    destruct (cart_of current_user db) as [|c cart] eqn:Hcart; [exact H|].
    destruct (validate_cart _ _ _ _) as [e|[total currency]] eqn:Hv; [exact H|].
    rewrite <- Hcart in *.
    destruct (create_order_items_spec
                (next_id (map Order_id (orders db)))
                (cart_of current_user db) db
                (with_order db (new_order current_user db total currency))
                mzero "USD" total currency eq_refl Hv)
      as [db2 [new [Hc [Hitems [_ [Hall _]]]]]].
    fold (new_order current_user db total currency).
    fold (with_order db (new_order current_user db total currency)).
    simpl in Hc |- *. rewrite Hc.
    destruct (create_order_items_frame _ _ _ _ Hc) as [Horders _].
    assert (Hdb2 : order_items_reference_orders db2).
    { unfold order_items_reference_orders in *.
      rewrite Hitems, Horders. simpl. rewrite map_app. apply Forall_app. split.
      - eapply Forall_impl; [|exact H]. intros oi Hoi.
        apply in_or_app. now left.
      - eapply Forall_impl; [|exact Hall]. intros oi [-> _].
        apply in_or_app. right. now left. }
    assert (Hdb4 : forall path,
              order_items_reference_orders
                (with_invoice (delete_cart current_user db2)
                   (next_id (map Order_id (orders db))) path)).
    { intros path. unfold order_items_reference_orders in *. simpl.
      rewrite map_map.
      erewrite map_ext; [exact Hdb2|].
      intros q. simpl. destruct (Order_id q =? _); reflexivity. }
    destruct (get_Order _ _) as [o|] eqn:Ho; [|exact Hdb2].
    destruct (generate_invoice_pdf _ _) as [path|]; [|exact Hdb2].
    simpl.
    assert (Hid : Order_id o = next_id (map Order_id (orders db))).
    { unfold get_Order in Ho. apply find_some in Ho. now apply Z.eqb_eq. }
    rewrite Hid. apply Hdb4.
  - unfold get_order. destruct (get_Order db order_id) as [o|]; [|exact H].
    destruct (negb _); exact H.
Qed.

(** The databases that the requests can build satisfy the foreign key. *)
Lemma run_order_items_reference_orders (rs : list (request money)) :
  order_items_reference_orders (run rs empty_db).
Proof.
  apply (run_invariant order_items_reference_orders (fun _ => True)).
  - intros r db _. apply handle_order_items_reference_orders.
  - apply Forall_forall. trivial.
  - constructor.
Qed.

(** ** The stock check of [add_to_cart] *)

(** A request for more than the tracked stock is refused, whatever the cart
    holds, and nothing is written. *)
Lemma add_to_cart_request_over_stock (u : Z) (item : CartAdd) (db : DB money)
  (p : Product money) (s : Z) :
  1 <= CartAdd_quantity item ->
  get_Product db (CartAdd_product_id item) = Some p ->
  Product_stock p = Some s ->
  CartAdd_quantity item > s ->
  add_to_cart u item db = (db, inl (HTTPException 400 "Not enough stock")).
Proof.
  intros Hq Hp Hs Hover. unfold add_to_cart.
  replace (CartAdd_quantity item <? 1) with false
    by (symmetry; apply Z.ltb_ge; lia).
  rewrite Hp.
  replace (stock_exceeded (Product_stock p) (CartAdd_quantity item)) with true;
    [reflexivity|].
  symmetry. apply stock_exceeded_true. now exists s.
Qed.

(** C3, as the code behaves. The stock check of [add_to_cart] reads the
    quantity of the request only. When the caller already has a row for the
    product and the request alone fits the tracked stock, the request is
    accepted and the quantities are summed into the row, also when the sum
    is above the stock: the cumulative quantity is never compared with the
    stock. *)
Theorem add_to_cart_merge_ignores_row_quantity (u : Z) (item : CartAdd)
  (db : DB money) (p : Product money) (s : Z) (existing : CartItem) :
  1 <= CartAdd_quantity item ->
  get_Product db (CartAdd_product_id item) = Some p ->
  Product_stock p = Some s ->
  CartAdd_quantity item <= s ->
  existing_row u (CartAdd_product_id item) db = Some existing ->
  s < CartItem_quantity existing + CartAdd_quantity item ->
  exists db' out,
    add_to_cart u item db = (db', inr out) /\
    CartItemOut_quantity out
    = CartItem_quantity existing + CartAdd_quantity item /\
    existing_row u (CartAdd_product_id item) db'
    = Some (set_quantity
              (CartItem_quantity existing + CartAdd_quantity item) existing) /\
    stock_exceeded (Product_stock p) (CartItemOut_quantity out) = true.
Proof.
  intros Hq Hp Hs Hfits Hex Hover. unfold add_to_cart.
  replace (CartAdd_quantity item <? 1) with false
    by (symmetry; apply Z.ltb_ge; lia).
  rewrite Hp.
  replace (stock_exceeded (Product_stock p) (CartAdd_quantity item)) with false.
  2:{ rewrite Hs. simpl. symmetry. rewrite Z.gtb_ltb. apply Z.ltb_ge. lia. }
  rewrite Hex. eexists _, _. split; [reflexivity|]. simpl.
  split; [reflexivity|]. split.
  - unfold existing_row in *. simpl. unfold update_row.
    rewrite find_map_compat.
    + rewrite Hex. simpl. now rewrite Z.eqb_refl.
    + intros ci. destruct (CartItem_id ci =? CartItem_id existing); reflexivity.
  - apply stock_exceeded_true. exists s. split; [exact Hs | lia].
Qed.

End Properties.

(** * Further properties *)

Section FurtherProperties.

Context {money : Type} {M : Money money} {I : Invoicing money}.
Context {C : FloatColumn money}.

(** ** The catalog *)

Lemma find_last {A : Type} (f : A -> bool) (l : list A) (x : A) :
  find f (l ++ [x])
  = match find f l with
    | Some y => Some y
    | None => if f x then Some x else None
    end.
Proof.
  induction l as [|y l IH]; simpl; [reflexivity|].
  destruct (f y); [reflexivity | exact IH].
Qed.

Lemma get_Product_in (db : DB money) (product_id : Z) (p : Product money) :
  get_Product db product_id = Some p ->
  In p (products db) /\ Product_id p = product_id.
Proof.
  unfold get_Product. intros H. apply find_some in H.
  destruct H as [Hin Hid]. split; [exact Hin | now apply Z.eqb_eq].
Qed.

(** X1. A creation whose sku no product carries, and whose price and stock
    the database stores, and the response carries, as they are, answers
    with a product that carries each field of the request under an id no
    product had; [get_product] finds that product under that id afterwards,
    and finds every product it found before. *)
Theorem create_product_then_get_product (product : ProductCreate money)
  (db : DB money) :
  (forall sku q,
     ProductCreate_sku product = Some sku -> In q (products db) ->
     Product_sku q <> Some sku) ->
  storable (ProductCreate_price product) ->
  int64 (ProductCreate_stock product) ->
  exists db' p,
    create_product product db = (db', inr p) /\
    Product_name p = ProductCreate_name product /\
    Product_description p = ProductCreate_description product /\
    Product_price p = ProductCreate_price product /\
    Product_currency p = Some (ProductCreate_currency product) /\
    Product_sku p = ProductCreate_sku product /\
    Product_stock p = Some (ProductCreate_stock product) /\
    get_product (Product_id p) db
    = (db, inl (HTTPException 404 "Product not found")) /\
    get_product (Product_id p) db' = (db', inr p) /\
    forall product_id q,
      get_product product_id db = (db, inr q) ->
      get_product product_id db' = (db', inr q).
Proof.
  intros Hfree _ _.
  assert (Hsku : sku_taken (ProductCreate_sku product) (products db) = false).
  { unfold sku_taken. apply existsb_none. intros q Hq.
    destruct (ProductCreate_sku product) as [sku|] eqn:E;
      [|destruct (Product_sku q); reflexivity].
    destruct (Product_sku q) as [k|] eqn:Hk; simpl; [|reflexivity].
    apply String.eqb_neq. intros ->. now apply (Hfree sku q eq_refl Hq). }
  unfold create_product. rewrite Hsku.
  eexists _, _. split; [reflexivity|].
  do 6 (split; [reflexivity|]).
  assert (Hfresh : get_Product db (next_id (map Product_id (products db)))
                   = None).
  { unfold get_Product.
    destruct (find _ (products db)) as [q|] eqn:E; [|reflexivity].
    apply find_some in E. destruct E as [Hin Hid]. apply Z.eqb_eq in Hid.
    pose proof (next_id_fresh (map Product_id (products db)) (Product_id q)
                  (in_map Product_id _ _ Hin)). lia. }
  unfold get_product. cbn [Product_id].
  split; [now rewrite Hfresh|]. split.
  - unfold get_Product in *. cbn [products]. rewrite find_last, Hfresh.
    cbn [Product_id]. now rewrite Z.eqb_refl.
  - intros product_id q.
    destruct (get_Product db product_id) as [q'|] eqn:E; [|discriminate].
    intros H. injection H as <-.
    unfold get_Product in *. cbn [products]. rewrite find_last, E.
    reflexivity.
Qed.

Lemma firstn_add_skipn {A : Type} (a b : nat) (l : list A) :
  firstn a l ++ firstn b (skipn a l) = firstn (a + b) l.
Proof.
  revert l. induction a as [|a IH]; intros l; simpl; [reflexivity|].
  destruct l as [|x l]; simpl.
  - now rewrite firstn_nil.
  - now rewrite IH.
Qed.

Lemma skipn_add {A : Type} (a b : nat) (l : list A) :
  skipn (a + b) l = skipn b (skipn a l).
Proof.
  revert l. induction a as [|a IH]; intros l; simpl; [reflexivity|].
  destruct l as [|x l]; simpl; [now rewrite skipn_nil | apply IH].
Qed.

(** X2. Pages of [list_products] tile the table: with offsets and limits
    that are not negative, the page of [a] rows at [skip] followed by the
    page of [b] rows at [skip + a] is the page of [a + b] rows at [skip].
    A page has at most [limit] rows, all of them rows of the table, and
    the database is not written. *)
Theorem list_products_pages (skip a b : Z) (db : DB money) :
  0 <= skip -> 0 <= a -> 0 <= b ->
  exists page next,
    list_products skip a db = (db, inr page) /\
    list_products (skip + a) b db = (db, inr next) /\
    list_products skip (a + b) db = (db, inr (page ++ next)) /\
    Z.of_nat (List.length page) <= a /\
    incl page (products db).
Proof.
  intros Hskip Ha Hb. unfold list_products.
  replace (a <? 0) with false by (symmetry; apply Z.ltb_ge; lia).
  replace (b <? 0) with false by (symmetry; apply Z.ltb_ge; lia).
  replace (a + b <? 0) with false by (symmetry; apply Z.ltb_ge; lia).
  eexists _, _. split; [reflexivity|]. split; [reflexivity|].
  split; [|split].
  - rewrite !Z2Nat.inj_add by lia. rewrite skipn_add, firstn_add_skipn.
    reflexivity.
  - pose proof (firstn_le_length (Z.to_nat a)
                  (skipn (Z.to_nat skip) (products db))). lia.
  - intros p Hp.
    rewrite <- (firstn_skipn (Z.to_nat skip) (products db)).
    apply in_or_app. right.
    rewrite <- (firstn_skipn (Z.to_nat a)
                  (skipn (Z.to_nat skip) (products db))).
    apply in_or_app. now left.
Qed.

(** ** Requests that raise *)

Lemma checkout_http_exception (u : Z) (db db' : DB money) (status : Z)
  (detail : string) :
  checkout u db = (db', inl (HTTPException status detail)) -> db' = db.
Proof.
  unfold checkout.
  destruct (cart_of u db) as [|c cart].
  - intros H. now injection H as <-.
  - destruct (validate_cart _ _ _ _) as [e|[total currency]].
    + intros H. now injection H as <-.
    + destruct (create_order_items _ _ _) as [e|db2] eqn:Hc.
      { apply create_order_items_error in Hc. subst e. discriminate. }
      destruct (get_Order _ _) as [o|]; [|discriminate].
      destruct (generate_invoice_pdf _ _); discriminate.
Qed.

(** X3. A request that is answered with an exception has written nothing:
    the database is the one it was given. For [checkout] this holds of the
    exceptions it raises itself (the HTTP exceptions); the others can
    escape it after the order is committed. *)
Theorem raising_request_writes_nothing (r : request money) (db : DB money)
  (e : exn) :
  raised r db = Some e ->
  (forall u, r = Checkout u ->
             exists status detail, e = HTTPException status detail) ->
  handle r db = db.
Proof.
  intros Hraised Hcheckout. destruct r; simpl in *.
  - unfold create_product in *. destruct (sku_taken _ _);
      [reflexivity | discriminate].
  - unfold update_product in *.
    destruct (get_Product db product_id); [|reflexivity].
    destruct (sku_taken _ _); [reflexivity | discriminate].
  - unfold delete_product in *.
    destruct (get_Product db product_id); [discriminate | reflexivity].
  - unfold add_to_cart in *.
    destruct (CartAdd_quantity item <? 1); [reflexivity|].
    destruct (get_Product db (CartAdd_product_id item)); [|reflexivity].
    destruct (stock_exceeded _ _); [reflexivity|].
    destruct (existing_row _ _ _); discriminate.
  - reflexivity.
  - unfold update_cart_item in *. destruct (quantity <? 1); [reflexivity|].
    destruct (get_CartItem db item_id) as [ci|]; [|reflexivity].
    destruct (negb _); [reflexivity|].
    destruct (get_Product db (CartItem_product_id ci)); [|reflexivity].
    destruct (stock_exceeded _ _); [reflexivity | discriminate].
  - unfold remove_cart_item in *.
    destruct (get_CartItem db item_id) as [ci|]; [|reflexivity].
    destruct (negb _); [reflexivity | discriminate].
  - discriminate.
  - destruct (Hcheckout current_user eq_refl) as [status [detail ->]].
    destruct (checkout current_user db) as [db' [e|out]] eqn:E;
      [|discriminate].
    simpl in Hraised. injection Hraised as ->.
    apply checkout_http_exception in E. exact E.
  - unfold get_order. destruct (get_Order db order_id) as [o|]; [|reflexivity].
    destruct (negb _); reflexivity.
Qed.

(** X4. A checkout on an empty cart raises the 400 "Cart is empty" and
    writes nothing; so does a checkout that follows a successful checkout of
    the same user: submitting twice creates one order. *)
Theorem checkout_twice_creates_one_order (u : Z) (db : DB money) :
  (cart_of u db = [] ->
   checkout u db = (db, inl (HTTPException 400 "Cart is empty"))) /\
  (forall db' out,
     checkout u db = (db', inr out) ->
     checkout u db' = (db', inl (HTTPException 400 "Cart is empty")) /\
     orders (fst (checkout u db')) = orders db').
Proof.
  assert (Hempty : forall d : DB money, cart_of u d = [] ->
            checkout u d = (d, inl (HTTPException 400 "Cart is empty"))).
  { intros d Hd. unfold checkout. now rewrite Hd. }
  split; [apply Hempty|].
  intros db' out H.
  assert (Hd : cart_of u db' = []).
  { apply checkout_success in H.
    destruct H as [total [currency [db2 [path H]]]]. simpl in H.
    destruct H as [_ [_ [_ [_ [-> _]]]]].
    unfold cart_of. simpl. apply filter_out_then_in. }
  rewrite (Hempty db' Hd). split; reflexivity.
Qed.

(** ** The outcomes of checkout *)

Lemma validate_cart_ok (db : DB money) (cart : list CartItem) :
  forall total currency t c,
    validate_cart db cart total currency = inr (t, c) ->
    Forall (passes db) cart.
Proof.
  induction cart as [|ci cart IH]; intros total currency t c; simpl.
  - constructor.
  - destruct (get_Product db (CartItem_product_id ci)) as [p|] eqn:Hp;
      [|discriminate].
    destruct (stock_exceeded _ _) eqn:Hs; [discriminate|].
    intros H. constructor; [now exists p | exact (IH _ _ _ _ H)].
Qed.

(** The database that [checkout] leaves: the one it was given; or the one
    with the order alone; or, once the items are written and the cart is
    cleared, with or without the invoice path. *)
Lemma checkout_cases (u : Z) (db : DB money) :
  fst (checkout u db) = db \/
  exists total currency,
    validate_cart db (cart_of u db) mzero "USD" = inr (total, currency) /\
    (fst (checkout u db) = with_order db (new_order u db total currency) \/
     exists db2,
       create_order_items (next_id (map Order_id (orders db))) (cart_of u db)
         (with_order db (new_order u db total currency)) = inr db2 /\
       (fst (checkout u db) = delete_cart u db2 \/
        exists path,
          fst (checkout u db)
          = with_invoice (delete_cart u db2)
              (next_id (map Order_id (orders db))) path)).
Proof.
  unfold checkout.
  destruct (cart_of u db) as [|c cart] eqn:Hcart; [now left|].
  destruct (validate_cart _ _ _ _) as [e|[total currency]] eqn:Hv; [now left|].
  right. exists total, currency. split; [reflexivity|].
  fold (new_order u db total currency).
  fold (with_order db (new_order u db total currency)).
  cbn [Order_id new_order].
  destruct (create_order_items _ _ _) as [e|db2] eqn:Hc; [now left|].
  right. exists db2. split; [reflexivity|].
  destruct (get_Order _ _) as [o|] eqn:Ho; [|now left].
  destruct (generate_invoice_pdf _ _) as [path|]; [|now left].
  right. exists path. cbn [fst].
  assert (Hid : Order_id o = next_id (map Order_id (orders db))).
  { unfold get_Order in Ho. apply find_some in Ho. now apply Z.eqb_eq. }
  rewrite Hid. reflexivity.
Qed.

Lemma set_invoice_path_old (rows : list (Order money)) (path : string) :
  map (fun q => if Order_id q =? next_id (map Order_id rows)
                then set_invoice_path path q else q) rows
  = rows.
Proof.
  transitivity (map (fun q => q) rows); [|apply map_id].
  apply map_ext_in. intros q Hq.
  pose proof (next_id_fresh (map Order_id rows) (Order_id q)
                (in_map Order_id _ _ Hq)) as Hlt.
  replace (Order_id q =? next_id (map Order_id rows)) with false;
    [reflexivity|].
  symmetry. apply Z.eqb_neq. lia.
Qed.

(** The orders after [checkout]: those before it, then possibly the new
    one. *)
Lemma checkout_orders (u : Z) (db : DB money) :
  orders (fst (checkout u db)) = orders db \/
  exists o, Order_user_id o = u /\
            Order_id o = next_id (map Order_id (orders db)) /\
            orders (fst (checkout u db)) = orders db ++ [o].
Proof.
  destruct (checkout_cases u db)
    as [-> | [total [currency [_ [-> | [db2 [Hc [-> | [path ->]]]]]]]]].
  - now left.
  - right. exists (new_order u db total currency). now repeat split.
  - right. exists (new_order u db total currency).
    destruct (create_order_items_frame _ _ _ _ Hc) as [Ho _].
    split; [reflexivity|]. split; [reflexivity|]. simpl. exact Ho.
  - right. exists (set_invoice_path path (new_order u db total currency)).
    destruct (create_order_items_frame _ _ _ _ Hc) as [Ho _].
    split; [reflexivity|]. split; [reflexivity|].
    simpl. rewrite Ho. simpl. rewrite map_app, set_invoice_path_old.
    simpl. now rewrite Z.eqb_refl.
Qed.

Lemma create_order_items_snapshots (order_id : Z) (cart : list CartItem) :
  forall dbv dba db2,
    map listing (products dbv) = map listing (products dba) ->
    create_order_items order_id cart dba = inr db2 ->
    exists new,
      order_items db2 = order_items dba ++ new /\
      Forall2 (snapshot_of dbv order_id) cart new.
Proof.
  induction cart as [|ci cart IH]; intros dbv dba db2 Hsame; simpl.
  - intros H. injection H as <-. exists []. rewrite app_nil_r.
    split; [reflexivity | constructor].
  - pose proof (find_same_listing (CartItem_product_id ci) _ _ Hsame) as Hfind.
    unfold get_Product in *.
    destruct (find _ (products dba)) as [q|] eqn:Hq; [|discriminate].
    destruct (find _ (products dbv)) as [p|] eqn:Hp; [|discriminate Hfind].
    simpl in Hfind. injection Hfind as Hid Hname Hprice.
    intros Hc.
    match type of Hc with
    | create_order_items _ _ ?d = _ =>
        destruct (IH dbv d db2) as [new [Hitems Hall]];
          [ simpl; rewrite listing_set_stock; exact Hsame | exact Hc | ]
    end.
    eexists (_ :: new). split.
    + rewrite Hitems. simpl. rewrite <- app_assoc. reflexivity.
    + constructor; [|exact Hall].
      exists p. unfold get_Product. rewrite Hp. simpl.
      rewrite Hid, Hname, Hprice. repeat split; reflexivity.
Qed.

Lemma Forall2_order_id (db : DB money) (order_id : Z)
  (cart : list CartItem) (new : list (OrderItem money)) :
  Forall2 (snapshot_of db order_id) cart new ->
  Forall (fun it => OrderItem_order_id it = order_id) new.
Proof.
  induction 1 as [|ci it cart new [p [_ [Hid _]]] _ IH]; constructor;
    assumption.
Qed.

(** A cart that is not empty and passes the stock check reaches the
    renderer: the order and its items are written and the cart is cleared,
    and the answer depends on the renderer alone. *)
Lemma checkout_reaches_renderer (u : Z) (db : DB money) :
  cart_of u db <> [] ->
  Forall (passes db) (cart_of u db) ->
  exists total currency db2 new,
    let o := new_order u db total currency in
    total = sum_subtotals new /\
    Forall2 (snapshot_of db (Order_id o)) (cart_of u db) new /\
    orders db2 = orders db ++ [o] /\
    order_items db2 = order_items db ++ new /\
    get_Order (delete_cart u db2) (Order_id o) = Some o /\
    checkout u db
    = match generate_invoice_pdf o
              (items_of (delete_cart u db2) (Order_id o)) with
      | None => (delete_cart u db2, inl InvoiceError)
      | Some path =>
          (with_invoice (delete_cart u db2) (Order_id o) path,
           inr (mkCheckoutOut (Order_id o) total currency
                  ("/orders/" ++ str (Order_id o) ++ "/invoice")%string))
      end.
Proof.
  intros Hcart Hpass. unfold checkout.
  destruct (cart_of u db) as [|c cart] eqn:E; [contradiction|].
  destruct (validate_cart_passes db (c :: cart) Hpass mzero "USD")
    as [total [currency Hv]].
  rewrite Hv. rewrite <- E in *.
  destruct (create_order_items_spec
              (next_id (map Order_id (orders db))) (cart_of u db) db
              (with_order db (new_order u db total currency))
              mzero "USD" total currency eq_refl Hv)
    as [db2 [new [Hc [Hitems [Htotal _]]]]].
  destruct (create_order_items_snapshots _ _ db
              (with_order db (new_order u db total currency)) _ eq_refl Hc)
    as [new' [Hitems' Hsnap]].
  assert (new' = new) as ->.
  { rewrite Hitems in Hitems'. now apply app_inv_head in Hitems'. }
  fold (new_order u db total currency).
  fold (with_order db (new_order u db total currency)).
  simpl in Hc |- *. rewrite Hc.
  destruct (create_order_items_frame _ _ _ _ Hc) as [Horders _].
  assert (Hget : get_Order (delete_cart u db2)
                   (next_id (map Order_id (orders db)))
                 = Some (new_order u db total currency)).
  { unfold get_Order. simpl. rewrite Horders. simpl.
    apply (get_new_order (orders db) (new_order u db total currency)).
    reflexivity. }
  rewrite Hget.
  exists total, currency, db2, new.
  split; [exact Htotal|]. split; [exact Hsnap|].
  split; [exact Horders|]. split; [exact Hitems|].
  split; [exact Hget|].
  destruct (generate_invoice_pdf _ _); reflexivity.
Qed.

(** X5. A failure of the renderer does not undo the purchase. On a cart
    that is not empty and passes the stock check, [checkout] writes an
    order for the caller, with status "PAID", without invoice path, whose
    total is the sum of the subtotals of its items, and one item per cart
    line, the snapshot of that line; it clears the cart of the caller. When
    the database stores the amounts of that order and of those items as
    they are, and the renderer raises on that order with its items,
    [checkout] is answered with the failure of the renderer and leaves all
    of this in place: nothing is rolled back. *)
Theorem checkout_survives_invoice_failure (u : Z) (db : DB money) :
  cart_of u db <> [] ->
  Forall (passes db) (cart_of u db) ->
  exists db' o new,
    Order_id o = next_id (map Order_id (orders db)) /\
    Order_user_id o = u /\
    Order_status o = "PAID" /\
    Order_invoice_path o = None /\
    Order_total_amount o = sum_subtotals new /\
    Forall2 (snapshot_of db (Order_id o)) (cart_of u db) new /\
    orders db' = orders db ++ [o] /\
    order_items db' = order_items db ++ new /\
    cart_of u db' = [] /\
    (storable_order o new ->
     generate_invoice_pdf o (items_of db' (Order_id o)) = None ->
     checkout u db = (db', inl InvoiceError)).
Proof.
  intros Hcart Hpass.
  destruct (checkout_reaches_renderer u db Hcart Hpass)
    as [total [currency [db2 [new H]]]]. cbv zeta in H.
  destruct H as [Htotal [Hsnap [Horders [Hitems [_ Hrun]]]]].
  exists (delete_cart u db2), (new_order u db total currency), new.
  do 4 (split; [reflexivity|]).
  split; [exact Htotal|]. split; [exact Hsnap|].
  split; [exact Horders|]. split; [exact Hitems|]. split.
  - unfold cart_of. simpl. apply filter_out_then_in.
  - intros _ Hrender. rewrite Hrun, Hrender. reflexivity.
Qed.

(** X6. What a successful checkout needs. It succeeds only on a cart that
    is not empty and whose lines all pass the stock check. On such a cart
    it writes an order for the caller, whose total is the sum of the
    subtotals of its items, and one item per cart line, the snapshot of
    that line; when the database stores the amounts of that order and of
    those items as they are, and the renderer returns a path for that order
    with its items, [checkout] does succeed: it records the path on the
    order and answers with the id of the order. *)
Theorem checkout_success_conditions (u : Z) (db : DB money) :
  (forall db' out,
     checkout u db = (db', inr out) ->
     cart_of u db <> [] /\ Forall (passes db) (cart_of u db)) /\
  (cart_of u db <> [] ->
   Forall (passes db) (cart_of u db) ->
   exists written o new,
     Order_id o = next_id (map Order_id (orders db)) /\
     Order_user_id o = u /\
     Order_invoice_path o = None /\
     Order_total_amount o = sum_subtotals new /\
     Forall2 (snapshot_of db (Order_id o)) (cart_of u db) new /\
     get_Order written (Order_id o) = Some o /\
     order_items written = order_items db ++ new /\
     forall path,
       storable_order o new ->
       generate_invoice_pdf o (items_of written (Order_id o)) = Some path ->
       exists out,
         checkout u db = (with_invoice written (Order_id o) path, inr out) /\
         CheckoutOut_order_id out = Order_id o /\
         CheckoutOut_total_amount out = Order_total_amount o).
Proof.
  split.
  - intros db' out H. apply checkout_success in H.
    destruct H as [total [currency [db2 [path H]]]]. simpl in H.
    destruct H as [Hcart [Hv _]].
    split; [exact Hcart | exact (validate_cart_ok _ _ _ _ _ _ Hv)].
  - intros Hcart Hpass.
    destruct (checkout_reaches_renderer u db Hcart Hpass)
      as [total [currency [db2 [new H]]]]. cbv zeta in H.
    destruct H as [Htotal [Hsnap [_ [Hitems [Hget Hrun]]]]].
    exists (delete_cart u db2), (new_order u db total currency), new.
    do 3 (split; [reflexivity|]).
    split; [exact Htotal|]. split; [exact Hsnap|].
    split; [exact Hget|]. split; [exact Hitems|].
    intros path _ Hrender. rewrite Hrun, Hrender.
    eexists. repeat split; reflexivity.
Qed.

(** ** What a request leaves to the other users *)

Lemma handle_orders (r : request money) (db : DB money) :
  orders (handle r db) = orders db \/
  exists u o, r = Checkout u /\ Order_user_id o = u /\
              Order_id o = next_id (map Order_id (orders db)) /\
              orders (handle r db) = orders db ++ [o].
Proof.
  destruct r; simpl.
  - unfold create_product. destruct (sku_taken _ _); now left.
  - unfold update_product. destruct (get_Product db product_id); [|now left].
    destruct (sku_taken _ _); now left.
  - unfold delete_product. destruct (get_Product db product_id); now left.
  - unfold add_to_cart. destruct (CartAdd_quantity item <? 1); [now left|].
    destruct (get_Product db (CartAdd_product_id item)); [|now left].
    destruct (stock_exceeded _ _); [now left|].
    destruct (existing_row _ _ _); now left.
  - now left.
  - unfold update_cart_item. destruct (quantity <? 1); [now left|].
    destruct (get_CartItem db item_id) as [ci|]; [|now left].
    destruct (negb _); [now left|].
    destruct (get_Product db (CartItem_product_id ci)); [|now left].
    destruct (stock_exceeded _ _); now left.
  - unfold remove_cart_item.
    destruct (get_CartItem db item_id) as [ci|]; [|now left].
    destruct (negb _); now left.
  - now left.
  - destruct (checkout_orders current_user db) as [H | [o [Hu [Hid H]]]];
      [now left|].
    right. now exists current_user, o.
  - unfold get_order. destruct (get_Order db order_id) as [o|]; [|now left].
    destruct (negb _); now left.
Qed.

(** X7. Orders are only ever appended: whatever the requests, every order
    of the table stays in it as it is, with its id, owner, total, currency,
    status and invoice path, and in the same place: the table before is a
    prefix of the table after. *)
Theorem orders_are_append_only (rs : list (request money)) (db : DB money) :
  exists added, orders (run rs db) = orders db ++ added.
Proof.
  revert db. induction rs as [|r rs IH]; intros db; simpl.
  - exists []. now rewrite app_nil_r.
  - destruct (IH (handle r db)) as [added Hadded].
    destruct (handle_orders r db) as [H | [u [o [_ [_ [_ H]]]]]].
    + exists added. now rewrite Hadded, H.
    + exists (o :: added). rewrite Hadded, H, <- app_assoc. reflexivity.
Qed.

Lemma same_id_same_row (db : DB money) (a b : CartItem) :
  cart_ids_unique db ->
  In a (cart_items db) -> In b (cart_items db) ->
  CartItem_id a = CartItem_id b -> a = b.
Proof.
  unfold cart_ids_unique.
  induction (cart_items db) as [|x l IH]; simpl; [tauto|].
  intros Hnd Ha Hb Hid. apply NoDup_cons_iff in Hnd.
  destruct Hnd as [Hx Hl].
  destruct Ha as [-> | Ha]; destruct Hb as [-> | Hb]; try reflexivity.
  - exfalso. apply Hx. rewrite Hid. now apply in_map.
  - exfalso. apply Hx. rewrite <- Hid. now apply in_map.
  - now apply IH.
Qed.

Lemma get_CartItem_only (db : DB money) (item_id : Z) (ci : CartItem) :
  cart_ids_unique db ->
  get_CartItem db item_id = Some ci ->
  forall c, In c (cart_items db) -> CartItem_id c = item_id -> c = ci.
Proof.
  intros Hnd Hget c Hc Hid.
  unfold get_CartItem in Hget. apply find_some in Hget.
  destruct Hget as [Hin Hci]. apply Z.eqb_eq in Hci.
  apply (same_id_same_row db); try assumption. congruence.
Qed.

Lemma filter_user_update_row (v item_id : Z) (f : CartItem -> CartItem)
  (rows : list CartItem) :
  (forall c, CartItem_user_id (f c) = CartItem_user_id c) ->
  (forall c, In c rows -> CartItem_id c = item_id ->
             CartItem_user_id c <> v) ->
  filter (fun ci => CartItem_user_id ci =? v) (update_row item_id f rows)
  = filter (fun ci => CartItem_user_id ci =? v) rows.
Proof.
  intros Hf. unfold update_row.
  induction rows as [|c rows IH]; intros Hrows; simpl; [reflexivity|].
  rewrite IH by (intros x Hx; apply Hrows; now right).
  destruct (CartItem_id c =? item_id) eqn:E; [|reflexivity].
  apply Z.eqb_eq in E.
  pose proof (Hrows c (or_introl eq_refl) E) as Hv.
  rewrite Hf. apply Z.eqb_neq in Hv. now rewrite Hv.
Qed.

Lemma filter_user_remove (v : Z) (g : CartItem -> bool)
  (rows : list CartItem) :
  (forall c, In c rows -> g c = false -> CartItem_user_id c <> v) ->
  filter (fun ci => CartItem_user_id ci =? v) (filter g rows)
  = filter (fun ci => CartItem_user_id ci =? v) rows.
Proof.
  induction rows as [|c rows IH]; intros Hrows; simpl; [reflexivity|].
  assert (IH' := IH (fun x Hx => Hrows x (or_intror Hx))).
  destruct (g c) eqn:E; simpl; rewrite IH'; [reflexivity|].
  pose proof (Hrows c (or_introl eq_refl) E) as Hv.
  apply Z.eqb_neq in Hv. now rewrite Hv.
Qed.

Lemma handle_cart_ids_unique (r : request money) (db : DB money) :
  cart_ids_unique db -> cart_ids_unique (handle r db).
Proof.
  unfold cart_ids_unique. intros H. destruct r; simpl.
  - unfold create_product. destruct (sku_taken _ _); exact H.
  - unfold update_product. destruct (get_Product db product_id); [|exact H].
    destruct (sku_taken _ _); exact H.
  - unfold delete_product. destruct (get_Product db product_id); exact H.
  - unfold add_to_cart. destruct (CartAdd_quantity item <? 1); [exact H|].
    destruct (get_Product db (CartAdd_product_id item)); [|exact H].
    destruct (stock_exceeded _ _); [exact H|].
    destruct (existing_row _ _ _) as [existing|]; simpl.
    + unfold update_row. rewrite map_map.
      erewrite map_ext; [exact H|].
      intros c. simpl. destruct (CartItem_id c =? _); reflexivity.
    + rewrite map_app. simpl.
      apply NoDup_app; [exact H | repeat constructor; intros [] |].
      intros x Hx [<-|[]]. apply next_id_fresh in Hx. lia.
  - exact H.
  - unfold update_cart_item. destruct (quantity <? 1); [exact H|].
    destruct (get_CartItem db item_id) as [ci|]; [|exact H].
    destruct (negb _); [exact H|].
    destruct (get_Product db (CartItem_product_id ci)); [|exact H].
    destruct (stock_exceeded _ _); [exact H|]. simpl.
    unfold update_row. rewrite map_map.
    erewrite map_ext; [exact H|].
    intros c. simpl. destruct (CartItem_id c =? _); reflexivity.
  - unfold remove_cart_item.
    destruct (get_CartItem db item_id) as [ci|]; [|exact H].
    destruct (negb _); [exact H|]. simpl. now apply NoDup_map_filter.
  - simpl. now apply NoDup_map_filter.
  - destruct (checkout_cart_items current_user db) as [-> | ->];
      [exact H | now apply NoDup_map_filter].
  - unfold get_order. destruct (get_Order db order_id) as [o|]; [|exact H].
    destruct (negb _); exact H.
Qed.

(** What [get_order] shows depends on the orders and on their items
    alone. *)
Lemma get_order_frame (v : Z) (db db' : DB money) :
  orders db' = orders db ->
  order_items db' = order_items db ->
  forall order_id,
    snd (get_order v order_id db') = snd (get_order v order_id db).
Proof.
  intros Ho Hi order_id. unfold get_order, get_Order, items_of.
  rewrite Ho, Hi.
  destruct (find _ (orders db)) as [o|]; [|reflexivity].
  destruct (negb _); reflexivity.
Qed.

(** An order appended for another user, with its items, changes nothing of
    what [get_order] shows. *)
Lemma get_order_appended (v : Z) (db db' : DB money) (o : Order money)
  (new : list (OrderItem money)) :
  Order_id o = next_id (map Order_id (orders db)) ->
  Order_user_id o <> v ->
  orders db' = orders db ++ [o] ->
  order_items db' = order_items db ++ new ->
  Forall (fun it => OrderItem_order_id it = Order_id o) new ->
  forall order_id,
    snd (get_order v order_id db') = snd (get_order v order_id db).
Proof.
  intros Hid Hu Ho Hi Hnew order_id. unfold get_order, get_Order.
  rewrite Ho, find_last.
  destruct (find _ (orders db)) as [q|] eqn:E.
  - apply find_some in E. destruct E as [Hin _].
    pose proof (next_id_fresh (map Order_id (orders db)) (Order_id q)
                  (in_map Order_id _ _ Hin)) as Hlt.
    replace (items_of db' (Order_id q)) with (items_of db (Order_id q)).
    + destruct (negb _); reflexivity.
    + unfold items_of. rewrite Hi, filter_app.
      rewrite (filter_none _ new); [now rewrite app_nil_r|].
      eapply Forall_impl; [|exact Hnew].
      intros it Hit. cbv beta in Hit. apply Z.eqb_neq. lia.
  - destruct (Order_id o =? order_id); [|reflexivity].
    apply Z.eqb_neq in Hu. now rewrite Hu.
Qed.

Lemma get_order_after_checkout_of_another (u v : Z) (db : DB money) :
  u <> v ->
  forall order_id,
    snd (get_order v order_id (fst (checkout u db)))
    = snd (get_order v order_id db).
Proof.
  intros Hu.
  destruct (checkout_cases u db)
    as [-> | [total [currency [_ [-> | [db2 [Hc [-> | [path ->]]]]]]]]].
  - reflexivity.
  - apply (get_order_appended v db _ (new_order u db total currency) []);
      try reflexivity; [exact Hu | | constructor].
    simpl. now rewrite app_nil_r.
  - destruct (create_order_items_frame _ _ _ _ Hc) as [Ho _].
    destruct (create_order_items_snapshots _ _ db
                (with_order db (new_order u db total currency)) _ eq_refl Hc)
      as [new [Hitems Hsnap]].
    apply (get_order_appended v db _ (new_order u db total currency) new);
      try reflexivity; [exact Hu | exact Ho | exact Hitems |].
    exact (Forall2_order_id _ _ _ _ Hsnap).
  - destruct (create_order_items_frame _ _ _ _ Hc) as [Ho _].
    destruct (create_order_items_snapshots _ _ db
                (with_order db (new_order u db total currency)) _ eq_refl Hc)
      as [new [Hitems Hsnap]].
    apply (get_order_appended v db _
             (set_invoice_path path (new_order u db total currency)) new);
      try reflexivity; [exact Hu | | exact Hitems |].
    + simpl. rewrite Ho. simpl. rewrite map_app, set_invoice_path_old.
      simpl. now rewrite Z.eqb_refl.
    + exact (Forall2_order_id _ _ _ _ Hsnap).
Qed.

Lemma filter_filter_swap {A : Type} (f g : A -> bool) (l : list A) :
  filter f (filter g l) = filter g (filter f l).
Proof.
  induction l as [|x l IH]; simpl; [reflexivity|].
  destruct (f x) eqn:Hf, (g x) eqn:Hg; simpl; rewrite ?Hf, ?Hg, IH;
    reflexivity.
Qed.

(** X8. Requests act on the rows of the caller only. A request made by
    another user, or a request on the catalog, leaves the cart rows and
    the order rows of a user exactly as they were, and, unless it is the
    deletion of a product, leaves what [get_order] shows to that user as it
    was. The deletion of a product is the exception: it takes the items of
    that product out of every order, of every user. The hypothesis is the
    primary key of the cart table, which every request keeps. *)
Theorem requests_leave_other_users_alone (r : request money) (v : Z)
  (db : DB money) :
  cart_ids_unique db ->
  acts_for r <> Some v ->
  cart_of v (handle r db) = cart_of v db /\
  orders_of v (handle r db) = orders_of v db /\
  cart_ids_unique (handle r db) /\
  match r with
  | DeleteProduct product_id =>
      forall order_id,
        items_of (handle r db) order_id
        = match get_Product db product_id with
          | Some _ =>
              filter (fun it => negb (OrderItem_product_id it =? product_id))
                (items_of db order_id)
          | None => items_of db order_id
          end
  | _ =>
      forall order_id,
        snd (get_order v order_id (handle r db))
        = snd (get_order v order_id db)
  end.
Proof.
  intros Hpk Hv.
  split; [|split; [|split; [now apply handle_cart_ids_unique|]]].
  - unfold cart_of. destruct r; simpl in *.
    + unfold create_product. destruct (sku_taken _ _); reflexivity.
    + unfold update_product.
      destruct (get_Product db product_id); [|reflexivity].
      destruct (sku_taken _ _); reflexivity.
    + unfold delete_product. destruct (get_Product db product_id); reflexivity.
    + assert (Hu : current_user <> v) by congruence.
      unfold add_to_cart.
      destruct (CartAdd_quantity item <? 1); [reflexivity|].
      destruct (get_Product db (CartAdd_product_id item)); [|reflexivity].
      destruct (stock_exceeded _ _); [reflexivity|].
      destruct (existing_row _ _ _) as [existing|] eqn:E; simpl.
      * apply filter_user_update_row; [reflexivity|].
        intros c Hc Hid.
        unfold existing_row in E. apply find_some in E.
        destruct E as [Hin Hkey].
        apply andb_true_iff in Hkey. destruct Hkey as [Huser _].
        apply Z.eqb_eq in Huser.
        assert (c = existing)
          by (apply (same_id_same_row db); assumption).
        subst c. congruence.
      * rewrite filter_app. simpl.
        replace (current_user =? v) with false
          by (symmetry; now apply Z.eqb_neq).
        apply app_nil_r.
    + reflexivity.
    + assert (Hu : current_user <> v) by congruence.
      unfold update_cart_item. destruct (quantity <? 1); [reflexivity|].
      destruct (get_CartItem db item_id) as [ci|] eqn:E; [|reflexivity].
      destruct (negb _) eqn:Hown; [reflexivity|].
      apply negb_false_iff, Z.eqb_eq in Hown.
      destruct (get_Product db (CartItem_product_id ci)); [|reflexivity].
      destruct (stock_exceeded _ _); [reflexivity|]. simpl.
      apply filter_user_update_row; [reflexivity|].
      intros c Hc Hid.
      rewrite (get_CartItem_only db item_id ci Hpk E c Hc Hid). congruence.
    + assert (Hu : current_user <> v) by congruence.
      unfold remove_cart_item.
      destruct (get_CartItem db item_id) as [ci|] eqn:E; [|reflexivity].
      destruct (negb _) eqn:Hown; [reflexivity|].
      apply negb_false_iff, Z.eqb_eq in Hown. simpl.
      apply filter_user_remove. intros c Hc Hid.
      apply negb_false_iff, Z.eqb_eq in Hid.
      rewrite (get_CartItem_only db item_id ci Hpk E c Hc Hid). congruence.
    + assert (Hu : current_user <> v) by congruence.
      apply filter_user_remove. intros c _ Hc.
      apply negb_false_iff, Z.eqb_eq in Hc. congruence.
    + assert (Hu : current_user <> v) by congruence.
      destruct (checkout_cart_items current_user db) as [-> | ->];
        [reflexivity|].
      apply filter_user_remove. intros c _ Hc.
      apply negb_false_iff, Z.eqb_eq in Hc. congruence.
    + unfold get_order. destruct (get_Order db order_id) as [o|];
        [|reflexivity].
      destruct (negb _); reflexivity.
  - unfold orders_of.
    destruct (handle_orders r db) as [-> | [u [o [-> [Hu [_ ->]]]]]];
      [reflexivity|].
    simpl in Hv. rewrite filter_app. simpl.
    replace (Order_user_id o =? v) with false.
    + apply app_nil_r.
    + symmetry. apply Z.eqb_neq. congruence.
  - destruct r; simpl in *.
    + apply get_order_frame; unfold create_product;
        destruct (sku_taken _ _); reflexivity.
    + apply get_order_frame; unfold update_product;
        destruct (get_Product db product_id); try reflexivity;
        destruct (sku_taken _ _); reflexivity.
    + intros order_id. unfold delete_product.
      destruct (get_Product db product_id); [|reflexivity].
      unfold items_of. simpl. apply filter_filter_swap.
    + apply get_order_frame; unfold add_to_cart;
        destruct (CartAdd_quantity item <? 1); try reflexivity;
        destruct (get_Product db (CartAdd_product_id item)); try reflexivity;
        destruct (stock_exceeded _ _); try reflexivity;
        destruct (existing_row _ _ _); reflexivity.
    + reflexivity.
    + apply get_order_frame; unfold update_cart_item;
        destruct (quantity <? 1); try reflexivity;
        destruct (get_CartItem db item_id) as [ci|]; try reflexivity;
        destruct (negb _); try reflexivity;
        destruct (get_Product db (CartItem_product_id ci)); try reflexivity;
        destruct (stock_exceeded _ _); reflexivity.
    + apply get_order_frame; unfold remove_cart_item;
        destruct (get_CartItem db item_id) as [ci|]; try reflexivity;
        destruct (negb _); reflexivity.
    + apply get_order_frame; reflexivity.
    + apply get_order_after_checkout_of_another. congruence.
    + apply get_order_frame; unfold get_order;
        destruct (get_Order db order_id) as [o|]; try reflexivity;
        destruct (negb _); reflexivity.
Qed.

(** ** What a successful checkout stores *)

(** The tables after a successful checkout. *)
Lemma checkout_result (u : Z) (db db' : DB money) (out : CheckoutOut money) :
  checkout u db = (db', inr out) ->
  exists path new,
    CheckoutOut_order_id out = next_id (map Order_id (orders db)) /\
    orders db'
    = orders db
      ++ [mkOrder (CheckoutOut_order_id out) u (CheckoutOut_total_amount out)
            (CheckoutOut_currency out) "PAID" (Some path)] /\
    order_items db' = order_items db ++ new /\
    Forall2 (snapshot_of db (CheckoutOut_order_id out)) (cart_of u db) new /\
    cart_items db'
    = filter (fun ci => negb (CartItem_user_id ci =? u)) (cart_items db).
Proof.
  intros H. apply checkout_success in H.
  destruct H as [total [currency [db2 [path H]]]]. simpl in H.
  destruct H as [_ [_ [Hc [_ [-> ->]]]]].
  destruct (create_order_items_snapshots _ _ db
              (with_order db (new_order u db total currency)) _ eq_refl Hc)
    as [new [Hitems Hall]].
  destruct (create_order_items_frame _ _ _ _ Hc) as [Horders Hcart].
  exists path, new. simpl.
  split; [reflexivity|]. split; [|split; [exact Hitems|split; [exact Hall|]]].
  - rewrite Horders. simpl. rewrite map_app, set_invoice_path_old. simpl.
    now rewrite Z.eqb_refl.
  - now rewrite Hcart.
Qed.

(** The items of the new order are the new items, given the foreign key. *)
Lemma items_of_new_order (db db' : DB money) (order_id : Z)
  (new : list (OrderItem money)) :
  order_items_reference_orders db ->
  order_id = next_id (map Order_id (orders db)) ->
  order_items db' = order_items db ++ new ->
  Forall (fun it => OrderItem_order_id it = order_id) new ->
  items_of db' order_id = new.
Proof.
  intros Hfk Hid Hitems Hnew. unfold items_of. rewrite Hitems, filter_app.
  rewrite filter_none, filter_all; [reflexivity | |].
  - eapply Forall_impl; [|exact Hnew]. intros it ->. apply Z.eqb_refl.
  - eapply Forall_impl; [|exact Hfk].
    intros it Hin. apply next_id_fresh in Hin. apply Z.eqb_neq. lia.
Qed.

(** X9. The items of the order of a successful checkout are the snapshots
    of the cart lines, in the order of the cart: each carries the id, the
    name and the price that its product had in the catalog when checkout
    was called, the quantity of its line, and their product as subtotal. *)
Theorem checkout_snapshots_the_cart (u : Z) (db db' : DB money)
  (out : CheckoutOut money) :
  order_items_reference_orders db ->
  checkout u db = (db', inr out) ->
  Forall2 (snapshot_of db (CheckoutOut_order_id out))
    (cart_of u db) (items_of db' (CheckoutOut_order_id out)).
Proof.
  intros Hfk H.
  destruct (checkout_result u db db' out H)
    as [path [new [Hid [_ [Hitems [Hall _]]]]]].
  rewrite (items_of_new_order db db' _ new Hfk Hid Hitems
             (Forall2_order_id _ _ _ _ Hall)).
  exact Hall.
Qed.

Lemma get_Order_last (rows : list (Order money)) (o : Order money) :
  Order_id o = next_id (map Order_id rows) ->
  find (fun q => Order_id q =? Order_id o) (rows ++ [o]) = Some o.
Proof.
  intros Hid. rewrite find_last.
  destruct (find _ rows) as [q|] eqn:E.
  - apply find_some in E. destruct E as [Hin Hq]. apply Z.eqb_eq in Hq.
    pose proof (next_id_fresh (map Order_id rows) (Order_id q)
                  (in_map Order_id _ _ Hin)). lia.
  - now rewrite Z.eqb_refl.
Qed.

(** X10. The order of a successful checkout can be read at once: to its
    owner [get_order] shows the id, the total and the currency of the
    checkout answer, the status "PAID" and one item per cart line, each the
    snapshot of its line; to any other user it answers 404. *)
Theorem get_order_after_checkout (u : Z) (db db' : DB money)
  (out : CheckoutOut money) :
  order_items_reference_orders db ->
  checkout u db = (db', inr out) ->
  (exists items,
     Forall2 (snapshot_of db (CheckoutOut_order_id out)) (cart_of u db)
       items /\
     get_order u (CheckoutOut_order_id out) db'
     = (db', inr (mkOrderOut (CheckoutOut_order_id out)
                    (CheckoutOut_total_amount out)
                    (CheckoutOut_currency out) "PAID"
                    (map order_item_out items)))) /\
  (forall v, v <> u ->
     get_order v (CheckoutOut_order_id out) db'
     = (db', inl (HTTPException 404 "Order not found"))).
Proof.
  intros Hfk H.
  destruct (checkout_result u db db' out H)
    as [path [new [Hid [Horders [Hitems [Hall _]]]]]].
  pose proof (items_of_new_order db db' _ new Hfk Hid Hitems
                (Forall2_order_id _ _ _ _ Hall)) as Hnew.
  assert (Hget : get_Order db' (CheckoutOut_order_id out)
                 = Some (mkOrder (CheckoutOut_order_id out) u
                           (CheckoutOut_total_amount out)
                           (CheckoutOut_currency out) "PAID" (Some path))).
  { unfold get_Order. rewrite Horders.
    apply (get_Order_last (orders db)
             (mkOrder (CheckoutOut_order_id out) u
                (CheckoutOut_total_amount out)
                (CheckoutOut_currency out) "PAID" (Some path))).
    exact Hid. }
  split.
  - exists new. split; [exact Hall|].
    unfold get_order. rewrite Hget. cbn [Order_user_id Order_id].
    rewrite Z.eqb_refl. simpl. now rewrite Hnew.
  - intros v Hv. unfold get_order. rewrite Hget. cbn [Order_user_id].
    replace (u =? v) with false by (symmetry; apply Z.eqb_neq; congruence).
    reflexivity.
Qed.

(** X11. The invoice of a successful checkout. [checkout] hands to
    [generate_invoice_pdf] the order as it is stored, still without path,
    with the items of that order; the path that the renderer returned for
    them is the one recorded on the order. [download_invoice] serves that
    path to the owner under its base name as a PDF when the file exists,
    answers 404 "Invoice not found" when it does not, and answers 404
    "Order not found" to any other user. The amounts of the order and of
    its items are taken to be stored as they are. *)
Theorem download_invoice_after_checkout (u : Z) (db db' : DB money)
  (out : CheckoutOut money) :
  checkout u db = (db', inr out) ->
  storable (CheckoutOut_total_amount out) ->
  Forall (fun it => storable (OrderItem_unit_price it) /\
                    storable (OrderItem_subtotal it))
         (items_of db' (CheckoutOut_order_id out)) ->
  exists o path,
    o = mkOrder (CheckoutOut_order_id out) u (CheckoutOut_total_amount out)
          (CheckoutOut_currency out) "PAID" None /\
    generate_invoice_pdf o (items_of db' (CheckoutOut_order_id out))
    = Some path /\
    get_Order db' (CheckoutOut_order_id out)
    = Some (set_invoice_path path o) /\
    (forall os_path_exists,
       path <> "" -> os_path_exists path = true ->
       download_invoice os_path_exists u (CheckoutOut_order_id out) db'
       = (db', inr (mkFileResponse path (basename path)
                      "application/pdf"))) /\
    (forall os_path_exists,
       os_path_exists path = false ->
       download_invoice os_path_exists u (CheckoutOut_order_id out) db'
       = (db', inl (HTTPException 404 "Invoice not found"))) /\
    (forall os_path_exists v,
       v <> u ->
       download_invoice os_path_exists v (CheckoutOut_order_id out) db'
       = (db', inl (HTTPException 404 "Order not found"))).
Proof.
  intros H _ _. apply checkout_success in H.
  destruct H as [total [currency [db2 [path H]]]]. cbv zeta in H.
  destruct H as [_ [_ [Hc [Hrender [-> ->]]]]].
  destruct (create_order_items_frame _ _ _ _ Hc) as [Horders _].
  cbn [CheckoutOut_order_id CheckoutOut_total_amount CheckoutOut_currency
       new_order Order_id] in *.
  fold (new_order u db total currency) in *.
  exists (new_order u db total currency), path.
  split; [reflexivity|]. split; [exact Hrender|].
  assert (Hget : get_Order
                   (with_invoice (delete_cart u db2)
                      (next_id (map Order_id (orders db))) path)
                   (next_id (map Order_id (orders db)))
                 = Some (set_invoice_path path
                           (new_order u db total currency))).
  { unfold get_Order. simpl. rewrite Horders. simpl.
    rewrite map_app, set_invoice_path_old. simpl. rewrite Z.eqb_refl.
    apply (get_Order_last (orders db)
             (set_invoice_path path (new_order u db total currency))).
    reflexivity. }
  split; [exact Hget|]. split; [|split].
  - intros fs Hpath Hfs. unfold download_invoice.
    rewrite Hget. cbn [Order_user_id Order_invoice_path set_invoice_path
                       new_order].
    rewrite Z.eqb_refl, Hfs. simpl.
    destruct (path =? "")%string eqn:E; [|reflexivity].
    apply String.eqb_eq in E. contradiction.
  - intros fs Hfs. unfold download_invoice.
    rewrite Hget. cbn [Order_user_id Order_invoice_path set_invoice_path
                       new_order].
    rewrite Z.eqb_refl, Hfs. simpl. now rewrite orb_true_r.
  - intros fs v Hv. unfold download_invoice.
    rewrite Hget. cbn [Order_user_id set_invoice_path new_order].
    replace (u =? v) with false by (symmetry; apply Z.eqb_neq; congruence).
    reflexivity.
Qed.

(** X12. The history of purchases grows by the purchase: after a
    successful checkout [list_ordered_products] shows to the caller the
    rows it showed before, followed by one row per cart line with the id of
    the new order; to any other user it shows what it showed before. *)
Theorem list_ordered_products_after_checkout (u : Z) (db db' : DB money)
  (out : CheckoutOut money) :
  order_items_reference_orders db ->
  checkout u db = (db', inr out) ->
  (exists before added,
     list_ordered_products u db = (db, inr before) /\
     list_ordered_products u db' = (db', inr (before ++ added)) /\
     List.length added = List.length (cart_of u db) /\
     Forall (fun row => OrderedProductOut_order_id row
                        = CheckoutOut_order_id out) added) /\
  (forall v, v <> u ->
     snd (list_ordered_products v db') = snd (list_ordered_products v db)).
Proof.
  intros Hfk H.
  destruct (checkout_result u db db' out H)
    as [path [new [Hid [Horders [Hitems [Hall _]]]]]].
  pose proof (Forall2_order_id _ _ _ _ Hall) as Hnew.
  pose proof (items_of_new_order db db' _ new Hfk Hid Hitems Hnew) as Hof.
  set (o := mkOrder (CheckoutOut_order_id out) u
              (CheckoutOut_total_amount out)
              (CheckoutOut_currency out) "PAID" (Some path)) in *.
  assert (Hold : forall q, In q (orders db) ->
                   items_of db' (Order_id q) = items_of db (Order_id q)).
  { intros q Hq. unfold items_of. rewrite Hitems, filter_app.
    rewrite (filter_none _ new); [apply app_nil_r|].
    eapply Forall_impl; [|exact Hnew]. intros it ->.
    pose proof (next_id_fresh (map Order_id (orders db)) (Order_id q)
                  (in_map Order_id _ _ Hq)).
    apply Z.eqb_neq. lia. }
  assert (Hflat : forall v,
            flat_map (fun q => map (ordered_product_out q)
                                 (items_of db' (Order_id q)))
                     (filter (fun q => Order_user_id q =? v) (orders db))
            = flat_map (fun q => map (ordered_product_out q)
                                   (items_of db (Order_id q)))
                       (filter (fun q => Order_user_id q =? v) (orders db))).
  { intros v. rewrite !flat_map_concat_map. f_equal.
    apply map_ext_in. intros q Hq.
    apply filter_In in Hq. now rewrite Hold. }
  split.
  - exists (flat_map (fun q => map (ordered_product_out q)
                                 (items_of db (Order_id q)))
                     (orders_of u db)),
           (map (ordered_product_out o) new).
    split; [reflexivity|]. split; [|split].
    + unfold list_ordered_products, orders_of. rewrite Horders.
      rewrite filter_app. cbn [filter Order_user_id o].
      rewrite Z.eqb_refl, flat_map_app, Hflat. simpl.
      rewrite Hof, app_nil_r. reflexivity.
    + rewrite List.length_map. symmetry.
      exact (Forall2_length Hall).
    + apply Forall_map. apply Forall_forall. intros it _. reflexivity.
  - intros v Hv. unfold list_ordered_products, orders_of. simpl.
    rewrite Horders, filter_app. cbn [filter Order_user_id o].
    replace (u =? v) with false by (symmetry; apply Z.eqb_neq; congruence).
    now rewrite app_nil_r, Hflat.
Qed.

(** ** Stock and currency of a successful checkout *)

Lemma unique_line (rows : list CartItem) (u : Z) (ci : CartItem) :
  NoDup (map pairing rows) ->
  In ci rows ->
  CartItem_user_id ci = u ->
  filter (fun c => CartItem_product_id c =? CartItem_product_id ci)
         (filter (fun c => CartItem_user_id c =? u) rows)
  = [ci].
Proof.
  intros Hnd Hin Hu.
  assert (Hclash : forall x l,
            ~ In (pairing x) (map pairing l) -> In ci l ->
            (CartItem_user_id x =? u)
            && (CartItem_product_id x =? CartItem_product_id ci) = false).
  { intros x l Hx Hci.
    destruct ((CartItem_user_id x =? u)
              && (CartItem_product_id x =? CartItem_product_id ci)) eqn:E;
      [|reflexivity].
    apply andb_true_iff in E. destruct E as [Ex Ep].
    apply Z.eqb_eq in Ex. apply Z.eqb_eq in Ep.
    exfalso. apply Hx. apply in_map_iff. exists ci.
    split; [|exact Hci]. unfold pairing. congruence. }
  induction rows as [|x l IH]; simpl in *; [contradiction|].
  apply NoDup_cons_iff in Hnd. destruct Hnd as [Hx Hl].
  destruct Hin as [-> | Hin].
  - rewrite Hu, Z.eqb_refl. simpl. rewrite Z.eqb_refl. f_equal.
    apply filter_none. apply Forall_forall. intros y Hy.
    apply filter_In in Hy. destruct Hy as [Hy Hyu]. apply Z.eqb_eq in Hyu.
    destruct (CartItem_product_id y =? CartItem_product_id ci) eqn:E;
      [|reflexivity].
    apply Z.eqb_eq in E. exfalso. apply Hx. apply in_map_iff.
    exists y. split; [|exact Hy]. unfold pairing. congruence.
  - pose proof (Hclash x l Hx Hin) as Hfalse.
    destruct (CartItem_user_id x =? u); simpl in *.
    + rewrite Hfalse. now apply IH.
    + now apply IH.
Qed.

(** X13. With one cart row per user and product, a successful checkout
    takes from the tracked stock of each product of the cart exactly the
    quantity of its line, which the stock covered; it leaves an untracked
    stock untracked, and it leaves the products that are not in the cart as
    they were. *)
Theorem checkout_takes_the_ordered_quantity (u : Z) (db db' : DB money)
  (out : CheckoutOut money) :
  cart_unique db ->
  checkout u db = (db', inr out) ->
  (forall ci p,
     In ci (cart_of u db) ->
     get_Product db (CartItem_product_id ci) = Some p ->
     match Product_stock p with
     | Some s =>
         CartItem_quantity ci <= s /\
         get_Product db' (CartItem_product_id ci)
         = Some (set_stock (Some (s - CartItem_quantity ci)) p)
     | None => get_Product db' (CartItem_product_id ci) = Some p
     end) /\
  (forall product_id p,
     get_Product db product_id = Some p ->
     (forall ci, In ci (cart_of u db) ->
                 CartItem_product_id ci <> product_id) ->
     get_Product db' product_id = Some p).
Proof.
  intros Huniq H. apply checkout_success in H.
  destruct H as [total [currency [db2 [path H]]]]. simpl in H.
  destruct H as [_ [Hv [Hc [_ [-> _]]]]].
  pose proof (validate_cart_ok _ _ _ _ _ _ Hv) as Hpass.
  assert (Hstock : forall product_id p,
            get_Product db product_id = Some p ->
            get_Product (with_invoice (delete_cart u db2)
                           (next_id (map Order_id (orders db))) path)
              product_id
            = Some (set_stock
                      (fold_left decrement_stock
                         (map CartItem_quantity
                            (filter (fun ci => CartItem_product_id ci
                                               =? product_id)
                                    (cart_of u db)))
                         (Product_stock p))
                      p)).
  { intros product_id p Hp.
    exact (create_order_items_stock _ _ _ _ Hc product_id p Hp). }
  split.
  - intros ci p Hin Hp. rewrite (Hstock _ p Hp).
    assert (Hci : In ci (cart_items db) /\ CartItem_user_id ci = u).
    { unfold cart_of in Hin. apply filter_In in Hin.
      destruct Hin as [Hin Hu]. apply Z.eqb_eq in Hu. now split. }
    unfold cart_of.
    rewrite (unique_line (cart_items db) u ci Huniq (proj1 Hci) (proj2 Hci)).
    simpl. destruct (Product_stock p) as [s|] eqn:Hs; simpl.
    + rewrite Forall_forall in Hpass.
      destruct (Hpass ci Hin) as [p' [Hp' Hok]].
      rewrite Hp in Hp'. injection Hp' as <-.
      rewrite Hs in Hok. simpl in Hok.
      rewrite Z.gtb_ltb in Hok. apply Z.ltb_ge in Hok.
      split; [exact Hok|]. now rewrite Z.max_r by lia.
    + destruct p; simpl in *. now subst.
  - intros product_id p Hp Hnone. rewrite (Hstock _ p Hp).
    rewrite filter_none.
    + simpl. now destruct p.
    + apply Forall_forall. intros ci Hci. apply Z.eqb_neq.
      now apply Hnone.
Qed.

Lemma or_else_nonempty (x : option string) (currency : string) :
  currency <> "" -> or_else x currency <> "".
Proof.
  intros H. destruct x as [code|]; simpl; [|exact H].
  destruct (code =? "")%string eqn:E; [exact H|].
  now apply String.eqb_neq.
Qed.

Lemma validate_cart_currency_nonempty (db : DB money)
  (cart : list CartItem) :
  forall total currency t c,
    currency <> "" ->
    validate_cart db cart total currency = inr (t, c) -> c <> "".
Proof.
  induction cart as [|ci cart IH]; intros total currency t c Hne; simpl.
  - intros H. now injection H as _ <-.
  - destruct (get_Product db (CartItem_product_id ci)) as [p|];
      [|discriminate].
    destruct (stock_exceeded _ _); [discriminate|].
    apply IH. now apply or_else_nonempty.
Qed.

(** X14. An order always has a currency: the currency of a successful
    checkout, in the answer and on the stored order, is never empty. *)
Theorem checkout_currency_is_never_empty (u : Z) (db db' : DB money)
  (out : CheckoutOut money) :
  checkout u db = (db', inr out) ->
  CheckoutOut_currency out <> "" /\
  exists o,
    get_Order db' (CheckoutOut_order_id out) = Some o /\
    Order_currency o = CheckoutOut_currency out.
Proof.
  intros H. split.
  - apply checkout_success in H.
    destruct H as [total [currency [db2 [path H]]]]. simpl in H.
    destruct H as [_ [Hv [_ [_ [_ ->]]]]]. simpl.
    eapply validate_cart_currency_nonempty; [|exact Hv]. discriminate.
  - destruct (checkout_result u db db' out H)
      as [path [new [Hid [Horders _]]]].
    exists (mkOrder (CheckoutOut_order_id out) u
              (CheckoutOut_total_amount out)
              (CheckoutOut_currency out) "PAID" (Some path)).
    split; [|reflexivity].
    unfold get_Order. rewrite Horders.
    apply (get_Order_last (orders db)
             (mkOrder (CheckoutOut_order_id out) u
                (CheckoutOut_total_amount out)
                (CheckoutOut_currency out) "PAID" (Some path))).
    exact Hid.
Qed.

(** ** The cart *)

(** X15. [view_cart] shows the cart as it is priced now: when the product
    of every line exists, it answers with one row per line, in the order of
    the cart, each with the current name and price of the product and their
    product with the quantity as subtotal; when the product of some line is
    gone, it raises. It never writes. *)
Theorem view_cart_shows_current_prices (u : Z) (db : DB money) :
  ((forall ci, In ci (cart_of u db) ->
               get_Product db (CartItem_product_id ci) <> None) ->
   exists rows,
     view_cart u db = (db, inr rows) /\
     Forall2 (shown_as db) (cart_of u db) rows) /\
  (forall ci,
     In ci (cart_of u db) ->
     get_Product db (CartItem_product_id ci) = None ->
     view_cart u db = (db, inl AttributeError)).
Proof.
  unfold view_cart. split.
  - induction (cart_of u db) as [|ci cart IH]; intros Hall; simpl.
    + exists []. split; [reflexivity | constructor].
    + destruct (get_Product db (CartItem_product_id ci)) as [p|] eqn:Hp.
      * destruct IH as [rows [Hrows Hshown]].
        { intros c Hc. apply Hall. now right. }
        injection Hrows as Hrows. rewrite Hrows.
        eexists. split; [reflexivity|].
        constructor; [|exact Hshown]. exists p. now split.
      * exfalso. now apply (Hall ci (or_introl eq_refl)).
  - intros ci Hin Hnone. f_equal.
    induction (cart_of u db) as [|c cart IH]; simpl in *; [contradiction|].
    destruct Hin as [-> | Hin].
    + now rewrite Hnone.
    + destruct (get_Product db (CartItem_product_id c)); [|reflexivity].
      now rewrite (IH Hin).
Qed.

Lemma validate_cart_missing_product (db : DB money)
  (pre post : list CartItem) (ci : CartItem) :
  Forall (passes db) pre ->
  get_Product db (CartItem_product_id ci) = None ->
  forall total currency,
    validate_cart db (pre ++ ci :: post) total currency = inl AttributeError.
Proof.
  intros Hpre Hnone.
  induction Hpre as [|c pre [q [Hq Hok]] _ IH]; intros total currency; simpl.
  - now rewrite Hnone.
  - rewrite Hq, Hok. apply IH.
Qed.

(** X16. Deleting a product leaves the cart lines of that product behind,
    and such a line blocks its cart: [view_cart] raises, [checkout] raises
    at that line and writes nothing, [update_cart_item] on it raises,
    adding the product again answers 404. Only [remove_cart_item] (or
    clearing the cart) gets rid of the line. *)
Theorem deleted_product_blocks_the_cart (u : Z) (db : DB money)
  (ci : CartItem) :
  (forall p,
     get_Product db (CartItem_product_id ci) = Some p ->
     In ci (cart_of u db) ->
     In ci (cart_of u (fst (delete_product (CartItem_product_id ci) db))) /\
     get_Product (fst (delete_product (CartItem_product_id ci) db))
       (CartItem_product_id ci) = None) /\
  (In ci (cart_of u db) ->
   get_Product db (CartItem_product_id ci) = None ->
   view_cart u db = (db, inl AttributeError) /\
   (forall pre post,
      cart_of u db = pre ++ ci :: post -> Forall (passes db) pre ->
      checkout u db = (db, inl AttributeError)) /\
   (forall quantity,
      1 <= quantity ->
      get_CartItem db (CartItem_id ci) = Some ci ->
      update_cart_item u (CartItem_id ci) quantity db
      = (db, inl AttributeError)) /\
   (forall quantity,
      1 <= quantity ->
      add_to_cart u (mkCartAdd (CartItem_product_id ci) quantity) db
      = (db, inl (HTTPException 404 "Product not found"))) /\
   (get_CartItem db (CartItem_id ci) = Some ci ->
    exists db',
      remove_cart_item u (CartItem_id ci) db = (db', inr tt) /\
      ~ In ci (cart_items db'))).
Proof.
  split.
  - intros p Hp Hin. unfold delete_product. rewrite Hp. simpl. split.
    + exact Hin.
    + unfold get_Product. simpl.
      destruct (find _ (filter _ (products db))) as [q|] eqn:E; [|reflexivity].
      apply find_some in E. destruct E as [Hq Hid].
      apply filter_In in Hq. destruct Hq as [_ Hneq].
      rewrite Hid in Hneq. discriminate Hneq.
  - intros Hin Hnone.
    assert (Hu : CartItem_user_id ci = u).
    { unfold cart_of in Hin. apply filter_In in Hin.
      now apply Z.eqb_eq. }
    assert (Hq : forall quantity, 1 <= quantity -> (quantity <? 1) = false)
      by (intros quantity Hge; apply Z.ltb_ge; lia).
    split; [|split; [|split; [|split]]].
    + unfold view_cart. f_equal.
      induction (cart_of u db) as [|c cart IH]; simpl in *; [contradiction|].
      destruct Hin as [-> | Hin].
      * now rewrite Hnone.
      * destruct (get_Product db (CartItem_product_id c)); [|reflexivity].
        now rewrite (IH Hin).
    + intros pre post Hcart Hpre. unfold checkout. rewrite Hcart.
      destruct (pre ++ ci :: post) as [|c cart] eqn:E;
        [destruct pre; discriminate E|].
      rewrite <- E.
      now rewrite (validate_cart_missing_product db pre post ci Hpre Hnone).
    + intros quantity Hge Hget. unfold update_cart_item.
      rewrite (Hq quantity Hge), Hget, Hu, Z.eqb_refl. simpl.
      now rewrite Hnone.
    + intros quantity Hge. unfold add_to_cart. simpl.
      now rewrite (Hq quantity Hge), Hnone.
    + intros Hget. unfold remove_cart_item.
      rewrite Hget, Hu, Z.eqb_refl. simpl.
      eexists. split; [reflexivity|]. simpl.
      intros Hci. apply filter_In in Hci. destruct Hci as [_ Hne].
      rewrite Z.eqb_refl in Hne. discriminate Hne.
Qed.

Lemma get_CartItem_update_row (item_id other : Z)
  (f : CartItem -> CartItem) (rows : list CartItem) :
  (forall c, CartItem_id (f c) = CartItem_id c) ->
  find (fun c => CartItem_id c =? other) (update_row item_id f rows)
  = option_map (fun c => if CartItem_id c =? item_id then f c else c)
      (find (fun c => CartItem_id c =? other) rows).
Proof.
  intros Hf. unfold update_row. apply find_map_compat.
  intros c. destruct (CartItem_id c =? item_id); [now rewrite Hf | reflexivity].
Qed.

(** X17. [update_cart_item] on a row of the caller whose product exists:
    a quantity above the tracked stock is refused with 400 and nothing is
    written; any other quantity of at least 1 replaces the quantity of that
    row, which then does not exceed the tracked stock, and no other row,
    product or order is touched. *)
Theorem update_cart_item_sets_the_quantity (u item_id quantity : Z)
  (db : DB money) (ci : CartItem) (p : Product money) :
  1 <= quantity ->
  get_CartItem db item_id = Some ci ->
  CartItem_user_id ci = u ->
  get_Product db (CartItem_product_id ci) = Some p ->
  (stock_exceeded (Product_stock p) quantity = true ->
   update_cart_item u item_id quantity db
   = (db, inl (HTTPException 400 "Not enough stock"))) /\
  (stock_exceeded (Product_stock p) quantity = false ->
   exists db',
     update_cart_item u item_id quantity db
     = (db', inr (cart_item_out (set_quantity quantity ci) p)) /\
     get_CartItem db' item_id = Some (set_quantity quantity ci) /\
     (forall other, other <> item_id ->
                    get_CartItem db' other = get_CartItem db other) /\
     (forall s, Product_stock p = Some s -> quantity <= s) /\
     products db' = products db /\
     orders db' = orders db /\
     order_items db' = order_items db).
Proof.
  intros Hge Hget Hu Hp.
  assert (Hq : (quantity <? 1) = false) by (apply Z.ltb_ge; lia).
  unfold update_cart_item. rewrite Hq, Hget, Hu, Z.eqb_refl, Hp. simpl.
  split; intros Hs; rewrite Hs; [reflexivity|].
  eexists. split; [reflexivity|]. simpl.
  assert (Hid : CartItem_id ci = item_id).
  { unfold get_CartItem in Hget. apply find_some in Hget.
    now apply Z.eqb_eq. }
  split; [|split; [|split; [|repeat split]]].
  - unfold get_CartItem in *. simpl.
    rewrite get_CartItem_update_row by reflexivity.
    rewrite Hget. simpl. rewrite Hid. now rewrite Z.eqb_refl.
  - intros other Hother. unfold get_CartItem. simpl.
    rewrite get_CartItem_update_row by reflexivity.
    destruct (find _ (cart_items db)) as [c|] eqn:E; [|reflexivity].
    simpl. apply find_some in E. destruct E as [_ Hc].
    apply Z.eqb_eq in Hc.
    replace (CartItem_id c =? item_id) with false; [reflexivity|].
    symmetry. apply Z.eqb_neq. congruence.
  - intros s Hstock. rewrite Hstock in Hs. simpl in Hs.
    rewrite Z.gtb_ltb in Hs. now apply Z.ltb_ge in Hs.
Qed.

Lemma get_CartItem_filter (item_id other : Z) (rows : list CartItem) :
  find (fun c => CartItem_id c =? other)
       (filter (fun c => negb (CartItem_id c =? item_id)) rows)
  = if other =? item_id then None
    else find (fun c => CartItem_id c =? other) rows.
Proof.
  induction rows as [|c rows IH]; simpl.
  - now destruct (other =? item_id).
  - destruct (CartItem_id c =? item_id) eqn:E; simpl.
    + rewrite IH. apply Z.eqb_eq in E.
      destruct (other =? item_id) eqn:Eo; [reflexivity|].
      replace (CartItem_id c =? other) with false; [reflexivity|].
      symmetry. apply Z.eqb_neq. apply Z.eqb_neq in Eo. congruence.
    + destruct (CartItem_id c =? other) eqn:Ec.
      * apply Z.eqb_eq in Ec. rewrite <- Ec, E. reflexivity.
      * exact IH.
Qed.

(** X18. [remove_cart_item] on a row of the caller removes that row and no
    other: the id is unknown afterwards, so that removing or updating it
    again answers 404, and every other id is found as before; products and
    orders are not touched. *)
Theorem remove_cart_item_removes_the_row (u item_id : Z) (db : DB money)
  (ci : CartItem) :
  get_CartItem db item_id = Some ci ->
  CartItem_user_id ci = u ->
  exists db',
    remove_cart_item u item_id db = (db', inr tt) /\
    get_CartItem db' item_id = None /\
    (forall other, other <> item_id ->
                   get_CartItem db' other = get_CartItem db other) /\
    remove_cart_item u item_id db'
    = (db', inl (HTTPException 404 "Cart item not found")) /\
    (forall quantity, 1 <= quantity ->
       update_cart_item u item_id quantity db'
       = (db', inl (HTTPException 404 "Cart item not found"))) /\
    products db' = products db /\
    orders db' = orders db /\
    order_items db' = order_items db.
Proof.
  intros Hget Hu. unfold remove_cart_item at 1.
  rewrite Hget, Hu, Z.eqb_refl. simpl.
  eexists. split; [reflexivity|].
  assert (Hnone : forall d : DB money,
            cart_items d
            = filter (fun c => negb (CartItem_id c =? item_id))
                     (cart_items db) ->
            get_CartItem d item_id = None).
  { intros d Hd. unfold get_CartItem. rewrite Hd, get_CartItem_filter.
    now rewrite Z.eqb_refl. }
  split; [now apply Hnone|]. split; [|split; [|split; [|repeat split]]].
  - intros other Hother. unfold get_CartItem. simpl.
    rewrite get_CartItem_filter.
    replace (other =? item_id) with false; [reflexivity|].
    symmetry. now apply Z.eqb_neq.
  - unfold remove_cart_item. now rewrite Hnone.
  - intros quantity Hge. unfold update_cart_item.
    replace (quantity <? 1) with false by (symmetry; apply Z.ltb_ge; lia).
    now rewrite Hnone.
Qed.

(** X19. [clear_cart] never raises; it empties the cart of the caller, so
    that a checkout right after it answers 400 "Cart is empty", and it
    keeps every row of the other users, every product and every order.
    Clearing twice is clearing once. *)
Theorem clear_cart_empties_the_cart (u : Z) (db : DB money) :
  exists db',
    clear_cart u db = (db', inr tt) /\
    cart_of u db' = [] /\
    (forall ci, In ci (cart_items db') <->
                In ci (cart_items db) /\ CartItem_user_id ci <> u) /\
    clear_cart u db' = (db', inr tt) /\
    checkout u db' = (db', inl (HTTPException 400 "Cart is empty")) /\
    products db' = products db /\
    orders db' = orders db /\
    order_items db' = order_items db.
Proof.
  exists (delete_cart u db). split; [reflexivity|].
  assert (Hempty : cart_of u (delete_cart u db) = []).
  { unfold cart_of. simpl. apply filter_out_then_in. }
  split; [exact Hempty|]. split; [|split; [|split; [|repeat split]]].
  - intros ci. simpl. rewrite filter_In, negb_true_iff, Z.eqb_neq.
    reflexivity.
  - unfold clear_cart. f_equal. unfold delete_cart. simpl. f_equal.
    apply filter_all. apply Forall_forall. intros ci Hci.
    apply filter_In in Hci. apply Hci.
  - unfold checkout. now rewrite Hempty.
Qed.

(** X20. The first [add_to_cart] of a product by a user, with a quantity of
    at least 1 that the tracked stock covers, appends one row to the table
    under an id no row had: the row of the caller for that product, with
    the quantity of the request. The answer prices it with the current
    price of the product. *)
Theorem add_to_cart_creates_the_row (u : Z) (item : CartAdd)
  (db : DB money) (p : Product money) :
  1 <= CartAdd_quantity item ->
  get_Product db (CartAdd_product_id item) = Some p ->
  stock_exceeded (Product_stock p) (CartAdd_quantity item) = false ->
  existing_row u (CartAdd_product_id item) db = None ->
  exists db' row,
    row = mkCartItem (CartItem_id row) u (CartAdd_product_id item)
            (CartAdd_quantity item) /\
    add_to_cart u item db = (db', inr (cart_item_out row p)) /\
    get_CartItem db (CartItem_id row) = None /\
    cart_items db' = cart_items db ++ [row] /\
    cart_of u db' = cart_of u db ++ [row] /\
    existing_row u (CartAdd_product_id item) db' = Some row /\
    (forall s, Product_stock p = Some s -> CartAdd_quantity item <= s).
Proof.
  intros Hge Hp Hs Hex. unfold add_to_cart.
  replace (CartAdd_quantity item <? 1) with false
    by (symmetry; apply Z.ltb_ge; lia).
  rewrite Hp, Hs, Hex.
  eexists _, _. split; [|split; [reflexivity|]].
  - reflexivity.
  - cbn [CartItem_id cart_items].
    split; [|split; [reflexivity|split; [|split]]].
    + unfold get_CartItem.
      destruct (find _ (cart_items db)) as [c|] eqn:E; [|reflexivity].
      apply find_some in E. destruct E as [Hin Hid]. apply Z.eqb_eq in Hid.
      pose proof (next_id_fresh (map CartItem_id (cart_items db))
                    (CartItem_id c) (in_map CartItem_id _ _ Hin)). lia.
    + unfold cart_of. cbn [cart_items]. rewrite filter_app. simpl.
      now rewrite Z.eqb_refl.
    + unfold existing_row in *. cbn [cart_items]. rewrite find_last, Hex.
      simpl. now rewrite !Z.eqb_refl.
    + intros s Hstock. rewrite Hstock in Hs. simpl in Hs.
      rewrite Z.gtb_ltb in Hs. now apply Z.ltb_ge in Hs.
Qed.

Lemma handle_cart_quantities_positive (r : request money) (db : DB money) :
  cart_quantities_positive db -> cart_quantities_positive (handle r db).
Proof.
  unfold cart_quantities_positive. intros H.
  assert (Hfilter : forall g : CartItem -> bool,
            Forall (fun ci => 1 <= CartItem_quantity ci)
                   (filter g (cart_items db))).
  { intros g. apply Forall_forall. intros c Hc. apply filter_In in Hc.
    rewrite Forall_forall in H. now apply H. }
  destruct r; simpl.
  - unfold create_product. destruct (sku_taken _ _); exact H.
  - unfold update_product. destruct (get_Product db product_id); [|exact H].
    destruct (sku_taken _ _); exact H.
  - unfold delete_product. destruct (get_Product db product_id); exact H.
  - unfold add_to_cart.
    destruct (CartAdd_quantity item <? 1) eqn:Hq; [exact H|].
    apply Z.ltb_ge in Hq.
    destruct (get_Product db (CartAdd_product_id item)); [|exact H].
    destruct (stock_exceeded _ _); [exact H|].
    destruct (existing_row _ _ _) as [existing|]; simpl.
    + unfold update_row. apply Forall_map.
      eapply Forall_impl; [|exact H]. intros c Hc. cbv beta in Hc.
      destruct (CartItem_id c =? _);
        cbn [CartItem_quantity set_quantity]; lia.
    + apply Forall_app. split; [exact H|].
      constructor; [exact Hq | constructor].
  - exact H.
  - unfold update_cart_item.
    destruct (quantity <? 1) eqn:Hq; [exact H|].
    apply Z.ltb_ge in Hq.
    destruct (get_CartItem db item_id) as [ci|]; [|exact H].
    destruct (negb _); [exact H|].
    destruct (get_Product db (CartItem_product_id ci)); [|exact H].
    destruct (stock_exceeded _ _); [exact H|]. simpl.
    unfold update_row. apply Forall_map.
    eapply Forall_impl; [|exact H]. intros c Hc. cbv beta in Hc.
    destruct (CartItem_id c =? _);
      cbn [CartItem_quantity set_quantity]; lia.
  - unfold remove_cart_item.
    destruct (get_CartItem db item_id) as [ci|]; [|exact H].
    destruct (negb _); [exact H|]. apply Hfilter.
  - apply Hfilter.
  - destruct (checkout_cart_items current_user db) as [-> | ->];
      [exact H | apply Hfilter].
  - unfold get_order. destruct (get_Order db order_id) as [o|]; [|exact H].
    destruct (negb _); exact H.
Qed.

(** X21. A cart row always holds at least one unit, whatever the requests
    served from the empty database; so every order item of a checkout has a
    quantity of at least 1. *)
Theorem cart_quantities_are_positive (rs : list (request money)) :
  cart_quantities_positive (run rs empty_db) /\
  forall u db' out it,
    checkout u (run rs empty_db) = (db', inr out) ->
    In it (items_of db' (CheckoutOut_order_id out)) ->
    1 <= OrderItem_quantity it.
Proof.
  assert (Hinv : cart_quantities_positive (run rs empty_db)).
  { apply (run_invariant cart_quantities_positive (fun _ => True)).
    - intros r db _. apply handle_cart_quantities_positive.
    - apply Forall_forall. trivial.
    - constructor. }
  split; [exact Hinv|].
  intros u db' out it H Hit.
  pose proof (run_order_items_reference_orders rs) as Hfk.
  destruct (checkout_result u _ db' out H)
    as [path [new [Hid [_ [Hitems [Hall _]]]]]].
  rewrite (items_of_new_order _ db' _ new Hfk Hid Hitems
             (Forall2_order_id _ _ _ _ Hall)) in Hit.
  assert (Hcart : Forall (fun ci => 1 <= CartItem_quantity ci)
                         (cart_of u (run rs empty_db))).
  { apply Forall_forall. intros c Hc. unfold cart_of in Hc.
    apply filter_In in Hc. unfold cart_quantities_positive in Hinv.
    rewrite Forall_forall in Hinv. now apply Hinv. }
  clear Hitems H Hinv Hfk.
  induction Hall as [|ci x cart new [p [_ [_ [_ [_ [_ [Hq _]]]]]]] _ IH].
  - contradiction.
  - apply Forall_cons_iff in Hcart. destruct Hcart as [Hci Hcart].
    destruct Hit as [<- | Hit]; [lia | now apply IH].
Qed.

End FurtherProperties.

(** * Properties of the accounts *)

Section AccountProperties.

Context {P : PasswordContext} {J : Jwt}.

Lemma find_app_first {A : Type} (f : A -> bool) (l l' : list A) (x : A) :
  find f l = Some x -> find f (l ++ l') = Some x.
Proof.
  induction l as [|y l IH]; simpl; [discriminate|].
  destruct (f y); [trivial | exact IH].
Qed.

Lemma get_user_by_email_found (users : list User) (email : string)
  (user : User) :
  get_user_by_email users email = Some user ->
  In user users /\ User_email user = email.
Proof.
  unfold get_user_by_email. intros H. apply find_some in H.
  destruct H as [Hin He]. split; [exact Hin | now apply String.eqb_eq].
Qed.

Lemma signup_emails_unique (salt : string) (user_in : UserCreate)
  (users : list User) :
  emails_unique users -> emails_unique (fst (signup salt user_in users)).
Proof.
  unfold emails_unique, signup. intros H.
  destruct (get_user_by_email users (UserCreate_email user_in)) as [u|] eqn:E;
    [exact H|].
  simpl. rewrite map_app. simpl.
  apply NoDup_app; [exact H | repeat constructor; intros [] |].
  intros email Hin [<-|[]].
  apply in_map_iff in Hin. destruct Hin as [u [Hu Hin]].
  unfold get_user_by_email in E.
  pose proof (find_none _ _ E u Hin) as Hnone. simpl in Hnone.
  rewrite Hu, String.eqb_refl in Hnone. discriminate Hnone.
Qed.

(** X22. No two accounts share an email, whatever the signups served from
    the empty table: a signup with a registered email answers 400 "Email
    already registered" and writes nothing; a signup with a new email
    appends one user with that email and the hash of the password, who is
    then found by that email, the other emails being found as before. *)
Theorem signup_keeps_emails_unique :
  (forall signups,
     emails_unique
       (fold_left (fun users s => fst (signup (fst s) (snd s) users))
                  signups [])) /\
  (forall salt user_in users user,
     get_user_by_email users (UserCreate_email user_in) = Some user ->
     signup salt user_in users
     = (users, inl (HTTPException 400 "Email already registered"))) /\
  (forall salt user_in users,
     get_user_by_email users (UserCreate_email user_in) = None ->
     exists user,
       signup salt user_in users = (users ++ [user], inr (user_out user)) /\
       User_email user = UserCreate_email user_in /\
       User_hashed_password user
       = get_password_hash salt (UserCreate_password user_in) /\
       get_user_by_email (users ++ [user]) (UserCreate_email user_in)
       = Some user /\
       forall email,
         email <> UserCreate_email user_in ->
         get_user_by_email (users ++ [user]) email
         = get_user_by_email users email).
Proof.
  split; [|split].
  - intros signups.
    assert (H : forall users, emails_unique users ->
              emails_unique
                (fold_left (fun users s => fst (signup (fst s) (snd s) users))
                           signups users)).
    { induction signups as [|s signups IH]; intros users Hu; simpl.
      - exact Hu.
      - apply IH. now apply signup_emails_unique. }
    apply H. constructor.
  - intros salt user_in users user Hget. unfold signup. now rewrite Hget.
  - intros salt user_in users Hget. unfold signup. rewrite Hget.
    eexists. split; [reflexivity|]. cbn [User_email User_hashed_password].
    split; [reflexivity|]. split; [reflexivity|].
    unfold get_user_by_email in *. split.
    + rewrite find_last, Hget. cbn [User_email].
      now rewrite String.eqb_refl.
    + intros email Hne. rewrite find_last. cbn [User_email].
      destruct (find (fun u => (User_email u =? email)%string) users);
        [reflexivity|].
      replace (UserCreate_email user_in =? email)%string with false;
        [reflexivity|].
      symmetry. apply String.eqb_neq. congruence.
Qed.

(** X23. A new account can log in: when a hash verifies its password,
    [login] with the email and the password of a signup that succeeded
    answers with a bearer token for that email. A login with an unknown
    email and a login with a password that does not verify get the same
    400 "Incorrect email or password". *)
Theorem login_after_signup (salt : string) (user_in : UserCreate)
  (users : list User) :
  hash_verifies ->
  get_user_by_email users (UserCreate_email user_in) = None ->
  (forall now,
     login now (UserCreate_email user_in) (UserCreate_password user_in)
       (fst (signup salt user_in users))
     = (fst (signup salt user_in users),
        inr (mkToken (create_access_token (UserCreate_email user_in) now)
               "bearer"))) /\
  (forall now table username password,
     get_user_by_email table username = None ->
     login now username password table
     = (table, inl (HTTPException 400 "Incorrect email or password"))) /\
  (forall now table username password user,
     get_user_by_email table username = Some user ->
     verify_password password (User_hashed_password user) = false ->
     login now username password table
     = (table, inl (HTTPException 400 "Incorrect email or password"))).
Proof.
  intros Hhash Hnew. split; [|split].
  - intros now. unfold signup. rewrite Hnew. cbn [fst].
    unfold login, authenticate_user, get_user_by_email in *.
    rewrite find_last, Hnew. cbn [User_email].
    rewrite String.eqb_refl. cbn [User_email User_hashed_password].
    now rewrite Hhash.
  - intros now table username password Hget.
    unfold login, authenticate_user. now rewrite Hget.
  - intros now table username password user Hget Hverify.
    unfold login, authenticate_user. now rewrite Hget, Hverify.
Qed.

(** X24. The token of a login identifies its user: when a token decodes to
    its subject until it expires, the token that [login] answers with is
    accepted by [get_current_user] at any time up to 24 hours later, also
    after further signups, and yields the user who logged in. *)
Theorem get_current_user_after_login (now : Z) (username password : string)
  (users : list User) (token : Token) :
  token_decodes ->
  login now username password users = (users, inr token) ->
  exists user,
    In user users /\
    User_email user = username /\
    Token_token_type token = "bearer" /\
    forall later more,
      later <= now + 24 * 60 * 60 ->
      get_current_user later (Token_access_token token) (users ++ more)
      = inr user.
Proof.
  intros Hjwt. unfold login, authenticate_user.
  destruct (get_user_by_email users username) as [user|] eqn:Hget;
    [|discriminate].
  destruct (verify_password _ _); [|discriminate].
  intros H. injection H as <-.
  destruct (get_user_by_email_found _ _ _ Hget) as [Hin Hemail].
  exists user. split; [exact Hin|]. split; [exact Hemail|].
  split; [reflexivity|].
  intros later more Hlater. unfold get_current_user. cbn [Token_access_token].
  unfold create_access_token, ACCESS_TOKEN_EXPIRE_MINUTES.
  rewrite Hjwt by lia. rewrite Hemail.
  unfold get_user_by_email in *. now rewrite (find_app_first _ _ more _ Hget).
Qed.

End AccountProperties.

(** * The scenarios, checked *)

Import Scenario.

#[local] Existing Instance float_money.
#[local] Existing Instance invoice_files.
#[local] Existing Instance float_column.

Ltac evaluate := vm_compute; reflexivity.

Lemma checkout_insufficient_stock_witness :
  cart_of alice stock_lowered = [] ++ widget_line :: [] /\
  insufficient stock_lowered widget_line (widget_row 2) /\
  checkout alice stock_lowered
  = (stock_lowered, inl (HTTPException 400 "Not enough stock for Widget")).
Proof.
  assert (Hbad : insufficient stock_lowered widget_line (widget_row 2)).
  { split; [evaluate|]. exists 2. split; evaluate. }
  split; [evaluate|]. split; [exact Hbad|].
  exact (proj1 (checkout_insufficient_stock_changes_nothing alice stock_lowered)
           [] widget_line [] (widget_row 2) ltac:(evaluate) (Forall_nil _)
           Hbad).
Defined.

Lemma checkout_total_witness :
  order_items_reference_orders (two_lines "USD") /\
  checkout alice (two_lines "USD")
  = (bought_usd, inr (receipt 38%float "USD")) /\
  exists o,
    get_Order bought_usd 1 = Some o /\
    Order_total_amount o = sum_subtotals (items_of bought_usd (Order_id o)).
Proof.
  assert (Hfk : order_items_reference_orders (two_lines "USD"))
    by constructor.
  assert (Hrun : checkout alice (two_lines "USD")
                 = (bought_usd, inr (receipt 38%float "USD")))
    by evaluate.
  split; [exact Hfk|]. split; [exact Hrun|].
  destruct (checkout_total_is_sum_of_subtotals alice (two_lines "USD")
              bought_usd (receipt 38%float "USD") Hfk Hrun)
    as [o [Hget [Hsum _]]].
  exists o. split; [exact Hget | exact Hsum].
Defined.

Lemma checkout_clears_cart_witness :
  checkout alice three_in_cart
  = (after_purchase, inr (receipt 30%float "USD")) /\
  view_cart alice after_purchase = (after_purchase, inr []).
Proof.
  assert (Hrun : checkout alice three_in_cart
                 = (after_purchase, inr (receipt 30%float "USD")))
    by evaluate.
  split; [exact Hrun|].
  exact (proj2 (checkout_clears_cart alice three_in_cart after_purchase
                  (receipt 30%float "USD") Hrun)).
Defined.

Lemma foreign_rows_witness :
  bob <> alice /\
  get_order bob 1 after_purchase
  = (after_purchase, inl (HTTPException 404 "Order not found")) /\
  get_order bob 7 after_purchase
  = (after_purchase, inl (HTTPException 404 "Order not found")) /\
  remove_cart_item bob 1 three_in_cart
  = (three_in_cart, inl (HTTPException 404 "Cart item not found")).
Proof.
  assert (Hne : bob <> alice) by discriminate.
  split; [exact Hne|].
  destruct (foreign_rows_are_not_found bob alice after_purchase Hne)
    as [Hforeign [Hmissing _]].
  destruct (foreign_rows_are_not_found bob alice three_in_cart Hne)
    as [_ [_ [Hrow _]]].
  split; [exact (Hforeign 1 (first_order 30%float "USD")
                   ltac:(evaluate) ltac:(evaluate))|].
  split; [exact (Hmissing 7 ltac:(evaluate))|].
  exact (proj1 (Hrow 1 widget_line ltac:(evaluate) ltac:(evaluate))).
Defined.

Lemma update_product_witness :
  get_Product three_in_cart 1 = Some (widget_row 5) /\
  storable 12%float /\
  int64 9 /\
  put_product 1 full_update three_in_cart
  = (fully_updated, inr widget_v2_full) /\
  put_product 1 rename_only three_in_cart = (renamed, inr widget_v2) /\
  (exists db' p,
     put_product 1 full_update three_in_cart = (db', inr p) /\
     Product_description p = Some "Second version" /\
     Product_currency p = Some "EUR" /\
     Product_sku p = Some "W-2" /\
     Product_stock p = Some 9) /\
  (exists db' p,
     put_product 1 rename_only three_in_cart = (db', inr p) /\
     p = mkProduct 1 "Widget v2" None 12%float (Some "USD") None (Some 0)).
Proof.
  assert (Hget : get_Product three_in_cart 1 = Some (widget_row 5))
    by evaluate.
  assert (Hprice : storable 12%float) by evaluate.
  assert (Hstock : int64 9) by (split; [apply Z.leb_le | apply Z.ltb_lt];
                                evaluate).
  assert (Hothers : forall sku (q : Product float),
            In q (products three_in_cart) -> Product_id q <> 1 ->
            Product_sku q <> Some sku).
  { intros sku q [<- | []] Hq. exfalso. now apply Hq. }
  split; [exact Hget|]. split; [exact Hprice|]. split; [exact Hstock|].
  split; [evaluate|]. split; [evaluate|]. split.
  - destruct (update_product_replaces_every_field 1 three_in_cart
                (widget_row 5) full_update "Widget v2" 12%float
                Hget eq_refl eq_refl Hprice
                (fun stock H => match H in _ = s
                                  return match s with
                                         | Some n => int64 n
                                         | None => True
                                         end
                                with eq_refl => Hstock end)
                (fun sku q _ => Hothers sku q))
      as [db' [p [Hrun [_ [_ [_ [_ [Hd [Hc [Hs [Hst _]]]]]]]]]]].
    exists db', p. repeat split; assumption.
  - destruct (update_product_replaces_every_field 1 three_in_cart
                (widget_row 5) rename_only "Widget v2" 12%float
                Hget eq_refl eq_refl Hprice
                (fun stock H => match H in _ = s
                                  return match s with
                                         | Some n => int64 n
                                         | None => True
                                         end
                                with eq_refl => I end)
                (fun sku q _ => Hothers sku q))
      as [db' [p [Hrun [_ [_ [_ [_ [_ [_ [_ [_ Honly]]]]]]]]]]].
    exists db', p. split; [exact Hrun|].
    exact (Honly eq_refl eq_refl eq_refl eq_refl).
Defined.

Lemma checkout_currency_witness :
  cart_of alice (two_lines "GBP") = [widget_line] ++ [gadget_line] /\
  checkout alice (two_lines "GBP")
  = (bought_gbp, inr (receipt 38%float "GBP")) /\
  CheckoutOut_currency (receipt 38%float "GBP") = "GBP".
Proof.
  assert (Hrun : checkout alice (two_lines "GBP")
                 = (bought_gbp, inr (receipt 38%float "GBP")))
    by evaluate.
  split; [evaluate|]. split; [exact Hrun|].
  refine (proj2 (checkout_currency_is_last_nonempty alice (two_lines "GBP")
                   bought_gbp (receipt 38%float "GBP") Hrun)
            [widget_line] gadget_line (gadget_row "GBP") "GBP"
            ltac:(evaluate) ltac:(evaluate) ltac:(evaluate) _).
  discriminate.
Defined.

(** Two currencies in the cart, the last one empty: the order is in the
    currency of the first line. *)
Lemma empty_currency_of_last_line_loses :
  ~ last_line_currency_wins alice (two_lines "").
Proof.
  intros H.
  assert (Hrun : checkout alice (two_lines "")
                 = (bought_empty, inr (receipt 38%float "EUR")))
    by evaluate.
  pose proof (H bought_empty (receipt 38%float "EUR")
                [widget_line] gadget_line (gadget_row "")
                Hrun ltac:(evaluate) ltac:(evaluate)) as E.
  discriminate E.
Qed.

Lemma order_history_witness :
  get_Product after_purchase 1 = Some (widget_row 2) /\
  order_items after_purchase = [widget_item] /\
  delete_product 1 after_purchase = (widget_deleted, inr tt) /\
  order_items widget_deleted = [] /\
  orders widget_deleted = [first_order 30%float "USD"] /\
  (In widget_item (order_items (fst (delete_product 1 after_purchase))) <->
   In widget_item (order_items after_purchase) /\
   OrderItem_product_id widget_item <> 1).
Proof.
  assert (Hget : get_Product after_purchase 1 = Some (widget_row 2))
    by evaluate.
  split; [exact Hget|]. split; [evaluate|]. split; [evaluate|].
  split; [evaluate|]. split; [evaluate|].
  destruct (order_history_under_catalog_changes 1 after_purchase)
    as [_ [_ [Hdelete _]]].
  exact (proj2 (proj2 (Hdelete (widget_row 2) Hget)) widget_item).
Defined.

(** The order item of Alice's purchase is gone once the widget is
    deleted. *)
Lemma order_item_deleted_with_product :
  ~ order_items_survive_delete 1 after_purchase.
Proof.
  intros H. specialize (H widget_item (or_introl eq_refl)).
  change (In widget_item (order_items widget_deleted)) in H.
  exact H.
Qed.

Lemma checkout_stock_witness :
  checkout alice three_in_cart
  = (after_purchase, inr (receipt 30%float "USD")) /\
  In widget_line (cart_of alice three_in_cart) /\
  get_Product three_in_cart 1 = Some (widget_row 5) /\
  get_Product after_purchase 1 = Some (widget_row 2) /\
  exists p' s',
    get_Product after_purchase 1 = Some p' /\
    Product_stock p' = Some s' /\ 0 <= s'.
Proof.
  assert (Hrun : checkout alice three_in_cart
                 = (after_purchase, inr (receipt 30%float "USD")))
    by evaluate.
  assert (Hin : In widget_line (cart_of alice three_in_cart))
    by (left; reflexivity).
  assert (Hget : get_Product three_in_cart 1 = Some (widget_row 5))
    by evaluate.
  split; [exact Hrun|]. split; [exact Hin|]. split; [exact Hget|].
  split; [evaluate|].
  destruct checkout_floors_stock_at_zero as [_ [Hcart _]].
  exact (Hcart alice three_in_cart after_purchase (receipt 30%float "USD")
           widget_line (widget_row 5) 5 Hrun Hin Hget ltac:(evaluate)).
Defined.

(** A product created with a negative stock has a negative stock. *)
Lemma negative_stock_is_stored :
  ~ stock_nonneg_always.
Proof.
  intros H. specialize (H [CreateProduct (widget (-5))]).
  change (stock_nonneg negative_stock) in H.
  apply Forall_inv in H. specialize (H (-5) eq_refl). lia.
Qed.

(** Adding 2 and then 3 of a product yields one row of 5. *)
Lemma cart_merge_witness :
  existing_row alice 1 two_in_cart = Some (mkCartItem 1 alice 1 2) /\
  add_to_cart alice (mkCartAdd 1 3) two_in_cart
  = (five_in_cart,
     inr (cart_item_out (mkCartItem 1 alice 1 5) (widget_row 10))) /\
  cart_items five_in_cart = [mkCartItem 1 alice 1 5] /\
  existing_row alice 1 five_in_cart
  = Some (set_quantity (2 + 3) (mkCartItem 1 alice 1 2)).
Proof.
  assert (Hex : existing_row alice 1 two_in_cart
                = Some (mkCartItem 1 alice 1 2)) by evaluate.
  assert (Hrun : add_to_cart alice (mkCartAdd 1 3) two_in_cart
                 = (five_in_cart,
                    inr (cart_item_out (mkCartItem 1 alice 1 5)
                           (widget_row 10)))) by evaluate.
  split; [exact Hex|]. split; [exact Hrun|]. split; [evaluate|].
  destruct one_cart_row_per_user_and_product as [_ [_ Hmerge]].
  exact (proj1 (proj2 (Hmerge alice (mkCartAdd 1 3) two_in_cart
                         (mkCartItem 1 alice 1 2) five_in_cart _ Hex Hrun))).
Defined.

(** Stock 5, 3 in the cart, 3 more requested: accepted, 6 in the cart. *)
Lemma add_to_cart_merge_witness :
  get_Product three_in_cart 1 = Some (widget_row 5) /\
  existing_row alice 1 three_in_cart = Some widget_line /\
  add_to_cart alice (mkCartAdd 1 3) three_in_cart
  = (six_in_cart,
     inr (cart_item_out (mkCartItem 1 alice 1 6) (widget_row 5))) /\
  cart_items six_in_cart = [mkCartItem 1 alice 1 6] /\
  exists db' out,
    add_to_cart alice (mkCartAdd 1 3) three_in_cart = (db', inr out) /\
    CartItemOut_quantity out = 3 + 3 /\
    stock_exceeded (Some 5) (CartItemOut_quantity out) = true.
Proof.
  assert (Hget : get_Product three_in_cart 1 = Some (widget_row 5))
    by evaluate.
  assert (Hex : existing_row alice 1 three_in_cart = Some widget_line)
    by evaluate.
  split; [exact Hget|]. split; [exact Hex|]. split; [evaluate|].
  split; [evaluate|].
  destruct (add_to_cart_merge_ignores_row_quantity alice (mkCartAdd 1 3)
              three_in_cart (widget_row 5) 5 widget_line)
    as [db' [out [Hadd [Hsum [_ Hover]]]]];
    try assumption; try evaluate; try (simpl; lia).
  exists db', out. split; [exact Hadd|]. split; [exact Hsum | exact Hover].
Defined.

(** * The further scenarios, checked *)

#[local] Existing Instance plain_passwords.
#[local] Existing Instance plain_tokens.

Lemma three_in_cart_passes :
  Forall (passes three_in_cart) (cart_of alice three_in_cart).
Proof.
  change (cart_of alice three_in_cart) with [widget_line].
  constructor; [|constructor].
  exists (widget_row 5). split; evaluate.
Qed.

Lemma three_in_cart_purchase :
  checkout alice three_in_cart
  = (after_purchase, inr (receipt 30%float "USD")).
Proof. evaluate. Qed.

Lemma create_product_witness :
  (forall sku (q : Product float),
     ProductCreate_sku gizmo = Some sku -> In q (products three_in_cart) ->
     Product_sku q <> Some sku) /\
  storable (ProductCreate_price gizmo) /\
  int64 (ProductCreate_stock gizmo) /\
  create_product gizmo three_in_cart = (gizmo_added, inr gizmo_row) /\
  get_product 2 gizmo_added = (gizmo_added, inr gizmo_row).
Proof.
  assert (Hsku : forall sku (q : Product float),
            ProductCreate_sku gizmo = Some sku ->
            In q (products three_in_cart) -> Product_sku q <> Some sku).
  { intros sku q _ [<- | []]. discriminate. }
  assert (Hprice : storable (ProductCreate_price gizmo)) by evaluate.
  assert (Hstock : int64 (ProductCreate_stock gizmo))
    by (split; [apply Z.leb_le | apply Z.ltb_lt]; evaluate).
  assert (Hrun : create_product gizmo three_in_cart
                 = (gizmo_added, inr gizmo_row)) by evaluate.
  split; [exact Hsku|]. split; [exact Hprice|]. split; [exact Hstock|].
  split; [exact Hrun|].
  destruct (create_product_then_get_product gizmo three_in_cart
              Hsku Hprice Hstock)
    as [db' [p [Hc [_ [_ [_ [_ [_ [_ [_ [Hget _]]]]]]]]]]].
  rewrite Hrun in Hc. injection Hc as <- <-. exact Hget.
Defined.

Lemma list_products_witness :
  0 <= 1 /\ 0 <= 2 /\ 0 <= 3 /\
  exists page next,
    list_products 1 2 seven_products = (seven_products, inr page) /\
    list_products (1 + 2) 3 seven_products = (seven_products, inr next) /\
    list_products 1 (2 + 3) seven_products
    = (seven_products, inr (page ++ next)) /\
    Z.of_nat (List.length page) <= 2 /\
    incl page (products seven_products).
Proof.
  split; [lia|]. split; [lia|]. split; [lia|].
  apply (list_products_pages 1 2 3 seven_products); lia.
Defined.

Lemma raising_request_witness :
  raised (AddToCart alice (mkCartAdd 9 1)) three_in_cart
  = Some (HTTPException 404 "Product not found") /\
  handle (AddToCart alice (mkCartAdd 9 1)) three_in_cart = three_in_cart.
Proof.
  assert (Hraised : raised (AddToCart alice (mkCartAdd 9 1)) three_in_cart
                    = Some (HTTPException 404 "Product not found"))
    by evaluate.
  split; [exact Hraised|].
  apply (raising_request_writes_nothing _ _ _ Hraised).
  intros u Hu. discriminate Hu.
Defined.

Lemma checkout_twice_witness :
  checkout alice three_in_cart
  = (after_purchase, inr (receipt 30%float "USD")) /\
  checkout alice after_purchase
  = (after_purchase, inl (HTTPException 400 "Cart is empty")).
Proof.
  split; [exact three_in_cart_purchase|].
  exact (proj1 (proj2 (checkout_twice_creates_one_order alice three_in_cart)
                  after_purchase (receipt 30%float "USD")
                  three_in_cart_purchase)).
Defined.

(** The amounts of the purchase of three widgets are stored as they are. *)
Lemma three_in_cart_storable (o : Order float) (new : list (OrderItem float)) :
  Order_total_amount o = sum_subtotals new ->
  Forall2 (snapshot_of three_in_cart (Order_id o))
    (cart_of alice three_in_cart) new ->
  storable_order o new.
Proof.
  intros Htotal Hsnap.
  change (cart_of alice three_in_cart) with [widget_line] in Hsnap.
  inversion Hsnap as [|ci it cart rest Hit Hrest]; subst.
  inversion Hrest; subst.
  destruct Hit as [p [Hp [_ [_ [_ [Hprice [_ Hsub]]]]]]].
  assert (p = widget_row 5) as ->.
  { assert (Hget : get_Product three_in_cart (CartItem_product_id widget_line)
                   = Some (widget_row 5)) by evaluate.
    congruence. }
  unfold storable_order, sum_subtotals in *. simpl in Htotal.
  rewrite Htotal. split; [|constructor; [split|constructor]].
  - rewrite Hsub. evaluate.
  - rewrite Hprice. evaluate.
  - rewrite Hsub. evaluate.
Qed.

Lemma invoice_failure_witness :
  cart_of alice three_in_cart <> [] /\
  Forall (passes three_in_cart) (cart_of alice three_in_cart) /\
  storable_order (mkOrder 1 alice 30%float "USD" "PAID" None) [widget_item] /\
  orders purchase_without_invoice
  = [mkOrder 1 alice 30%float "USD" "PAID" None] /\
  order_items purchase_without_invoice = [widget_item] /\
  cart_items purchase_without_invoice = [] /\
  @checkout float float_money no_invoices alice three_in_cart
  = (purchase_without_invoice, inl InvoiceError) /\
  exists db' o new,
    orders db' = orders three_in_cart ++ [o] /\
    Order_invoice_path o = None /\
    order_items db' = order_items three_in_cart ++ new /\
    @checkout float float_money no_invoices alice three_in_cart
    = (db', inl InvoiceError).
Proof.
  assert (Hcart : cart_of alice three_in_cart <> []) by discriminate.
  split; [exact Hcart|]. split; [exact three_in_cart_passes|].
  split; [repeat constructor; evaluate|].
  split; [evaluate|]. split; [evaluate|]. split; [evaluate|].
  split; [evaluate|].
  destruct (@checkout_survives_invoice_failure float float_money no_invoices
              float_column alice three_in_cart Hcart three_in_cart_passes)
    as [db' [o [new [_ [_ [_ [Hpath [Htotal [Hsnap [Horders
         [Hitems [_ Hrun]]]]]]]]]]]].
  exists db', o, new.
  split; [exact Horders|]. split; [exact Hpath|]. split; [exact Hitems|].
  exact (Hrun (three_in_cart_storable o new Htotal Hsnap) eq_refl).
Defined.

Lemma checkout_success_witness :
  cart_of alice three_in_cart <> [] /\
  Forall (passes three_in_cart) (cart_of alice three_in_cart) /\
  storable_order (mkOrder 1 alice 30%float "USD" "PAID" None) [widget_item] /\
  checkout alice three_in_cart
  = (after_purchase, inr (receipt 30%float "USD")) /\
  exists db' out,
    checkout alice three_in_cart = (db', inr out) /\
    CheckoutOut_order_id out = 1.
Proof.
  assert (Hcart : cart_of alice three_in_cart <> []) by discriminate.
  split; [exact Hcart|]. split; [exact three_in_cart_passes|].
  split; [repeat constructor; evaluate|].
  split; [exact three_in_cart_purchase|].
  destruct (proj2 (checkout_success_conditions alice three_in_cart) Hcart
              three_in_cart_passes)
    as [written [o [new [Hid [_ [_ [Htotal [Hsnap [_ [_ Hrun]]]]]]]]]].
  destruct (Hrun _ (three_in_cart_storable o new Htotal Hsnap) eq_refl)
    as [out [Hout [Hoid _]]].
  eexists _, out. split; [exact Hout|].
  rewrite Hoid, Hid. reflexivity.
Defined.

Lemma two_carts_ids_unique : cart_ids_unique two_carts.
Proof.
  unfold cart_ids_unique.
  change (map CartItem_id (cart_items two_carts)) with [1; 2].
  repeat constructor; simpl; intuition discriminate.
Qed.

Lemma two_carts_bought_ids_unique : cart_ids_unique two_carts_bought.
Proof.
  unfold cart_ids_unique.
  change (map CartItem_id (cart_items two_carts_bought)) with [2].
  repeat constructor; simpl; intuition discriminate.
Qed.

Lemma other_users_witness :
  cart_ids_unique two_carts /\
  acts_for (Checkout (money := float) alice) <> Some bob /\
  handle (Checkout alice) two_carts = two_carts_bought /\
  cart_of alice two_carts_bought = [] /\
  cart_of bob two_carts_bought = [mkCartItem 2 bob 1 1] /\
  cart_of bob (handle (Checkout alice) two_carts) = cart_of bob two_carts /\
  cart_ids_unique two_carts_bought /\
  acts_for (Checkout (money := float) bob) <> Some alice /\
  orders (handle (Checkout bob) two_carts_bought)
  = [mkOrder 1 alice 30%float "USD" "PAID"
       (Some "./invoices/invoice_order_1.pdf");
     mkOrder 2 bob 10%float "USD" "PAID"
       (Some "./invoices/invoice_order_2.pdf")] /\
  snd (get_order alice 1 two_carts_bought) = inr widget_order_out /\
  snd (get_order alice 1 (handle (Checkout bob) two_carts_bought))
  = snd (get_order alice 1 two_carts_bought).
Proof.
  assert (Hv : acts_for (Checkout (money := float) alice) <> Some bob)
    by discriminate.
  assert (Hw : acts_for (Checkout (money := float) bob) <> Some alice)
    by discriminate.
  split; [exact two_carts_ids_unique|]. split; [exact Hv|].
  split; [evaluate|]. split; [evaluate|]. split; [evaluate|].
  split.
  { exact (proj1 (requests_leave_other_users_alone (Checkout alice) bob
                    two_carts two_carts_ids_unique Hv)). }
  split; [exact two_carts_bought_ids_unique|]. split; [exact Hw|].
  split; [evaluate|]. split; [evaluate|].
  exact (proj2 (proj2 (proj2 (requests_leave_other_users_alone
                                (Checkout bob) alice two_carts_bought
                                two_carts_bought_ids_unique Hw))) 1).
Defined.

Lemma three_in_cart_foreign_key : order_items_reference_orders three_in_cart.
Proof. constructor. Qed.

Lemma checkout_snapshots_witness :
  order_items_reference_orders three_in_cart /\
  snapshot_of three_in_cart 1 widget_line widget_item /\
  Forall2 (snapshot_of three_in_cart 1) (cart_of alice three_in_cart)
    (items_of after_purchase 1).
Proof.
  split; [exact three_in_cart_foreign_key|].
  assert (H : Forall2 (snapshot_of three_in_cart 1)
                (cart_of alice three_in_cart) (items_of after_purchase 1))
    by exact (checkout_snapshots_the_cart alice three_in_cart after_purchase
                (receipt 30%float "USD") three_in_cart_foreign_key
                three_in_cart_purchase).
  split; [|exact H].
  change (cart_of alice three_in_cart) with [widget_line] in H.
  change (items_of after_purchase 1) with [widget_item] in H.
  now apply Forall2_cons_iff in H.
Defined.

Lemma get_order_after_checkout_witness :
  order_items_reference_orders three_in_cart /\
  get_order alice 1 after_purchase = (after_purchase, inr widget_order_out) /\
  get_order bob 1 after_purchase
  = (after_purchase, inl (HTTPException 404 "Order not found")).
Proof.
  split; [exact three_in_cart_foreign_key|]. split; [evaluate|].
  refine (proj2 (get_order_after_checkout alice three_in_cart after_purchase
                   (receipt 30%float "USD") three_in_cart_foreign_key
                   three_in_cart_purchase) bob _).
  discriminate.
Defined.

Lemma download_invoice_witness :
  storable (CheckoutOut_total_amount (receipt 30%float "USD")) /\
  Forall (fun it => storable (OrderItem_unit_price it) /\
                    storable (OrderItem_subtotal it))
         (items_of after_purchase 1) /\
  basename "./invoices/invoice_order_1.pdf" = "invoice_order_1.pdf" /\
  generate_invoice_pdf (mkOrder 1 alice 30%float "USD" "PAID" None)
    (items_of after_purchase 1)
  = Some "./invoices/invoice_order_1.pdf" /\
  get_Order after_purchase 1
  = Some (mkOrder 1 alice 30%float "USD" "PAID"
            (Some "./invoices/invoice_order_1.pdf")) /\
  download_invoice invoice_written alice 1 after_purchase
  = (after_purchase,
     inr (mkFileResponse "./invoices/invoice_order_1.pdf"
            "invoice_order_1.pdf" "application/pdf")) /\
  download_invoice (fun _ => false) alice 1 after_purchase
  = (after_purchase, inl (HTTPException 404 "Invoice not found")) /\
  (forall os_path_exists v,
     v <> alice ->
     download_invoice os_path_exists v 1 after_purchase
     = (after_purchase, inl (HTTPException 404 "Order not found"))).
Proof.
  assert (Htotal : storable (CheckoutOut_total_amount (receipt 30%float "USD")))
    by evaluate.
  assert (Hitems : Forall (fun it => storable (OrderItem_unit_price it) /\
                                     storable (OrderItem_subtotal it))
                     (items_of after_purchase 1))
    by (repeat constructor; evaluate).
  split; [exact Htotal|]. split; [exact Hitems|]. split; [evaluate|].
  destruct (download_invoice_after_checkout alice three_in_cart after_purchase
              (receipt 30%float "USD") three_in_cart_purchase Htotal Hitems)
    as [o [path [-> [Hrender [Hget [Hserved [Hmissing Hforeign]]]]]]].
  assert (Hpath : path = "./invoices/invoice_order_1.pdf").
  { assert (Hfile : generate_invoice_pdf
                      (mkOrder 1 alice 30%float "USD" "PAID" None)
                      (items_of after_purchase 1)
                    = Some "./invoices/invoice_order_1.pdf") by evaluate.
    change (generate_invoice_pdf
              (mkOrder 1 alice 30%float "USD" "PAID" None)
              (items_of after_purchase 1) = Some path) in Hrender.
    congruence. }
  subst path.
  split; [exact Hrender|]. split; [exact Hget|].
  split; [exact (Hserved invoice_written ltac:(discriminate) eq_refl)|].
  split; [exact (Hmissing (fun _ => false) eq_refl)|].
  exact Hforeign.
Defined.

Lemma history_witness :
  list_ordered_products alice three_in_cart = (three_in_cart, inr []) /\
  list_ordered_products alice after_purchase
  = (after_purchase, inr [widget_ordered]) /\
  snd (list_ordered_products bob after_purchase)
  = snd (list_ordered_products bob three_in_cart).
Proof.
  split; [evaluate|]. split; [evaluate|].
  refine (proj2 (list_ordered_products_after_checkout alice three_in_cart
                   after_purchase (receipt 30%float "USD")
                   three_in_cart_foreign_key three_in_cart_purchase) bob _).
  discriminate.
Defined.

Lemma three_in_cart_unique : cart_unique three_in_cart.
Proof.
  unfold cart_unique.
  change (map pairing (cart_items three_in_cart)) with [(alice, 1)].
  repeat constructor. intros [].
Qed.

Lemma ordered_quantity_witness :
  cart_unique three_in_cart /\
  In widget_line (cart_of alice three_in_cart) /\
  3 <= 5 /\
  get_Product after_purchase 1 = Some (widget_row (5 - 3)).
Proof.
  assert (Hin : In widget_line (cart_of alice three_in_cart))
    by (left; reflexivity).
  split; [exact three_in_cart_unique|]. split; [exact Hin|].
  exact (proj1 (checkout_takes_the_ordered_quantity alice three_in_cart
                  after_purchase (receipt 30%float "USD")
                  three_in_cart_unique three_in_cart_purchase)
           widget_line (widget_row 5) Hin ltac:(evaluate)).
Defined.

Lemma currency_never_empty_witness :
  checkout alice (two_lines "")
  = (bought_empty, inr (receipt 38%float "EUR")) /\
  CheckoutOut_currency (receipt 38%float "EUR") <> "".
Proof.
  assert (Hrun : checkout alice (two_lines "")
                 = (bought_empty, inr (receipt 38%float "EUR")))
    by evaluate.
  split; [exact Hrun|].
  exact (proj1 (checkout_currency_is_never_empty alice (two_lines "")
                  bought_empty (receipt 38%float "EUR") Hrun)).
Defined.

Lemma view_cart_witness :
  view_cart alice three_in_cart = (three_in_cart, inr [widget_shown]) /\
  exists rows,
    view_cart alice three_in_cart = (three_in_cart, inr rows) /\
    Forall2 (shown_as three_in_cart) (cart_of alice three_in_cart) rows.
Proof.
  split; [evaluate|].
  apply (proj1 (view_cart_shows_current_prices alice three_in_cart)).
  intros ci [<- | []]. discriminate.
Defined.

Lemma deleted_product_witness :
  delete_product 1 three_in_cart = (widget_gone, inr tt) /\
  In widget_line (cart_of alice widget_gone) /\
  get_Product widget_gone 1 = None /\
  view_cart alice widget_gone = (widget_gone, inl AttributeError) /\
  checkout alice widget_gone = (widget_gone, inl AttributeError).
Proof.
  assert (Hin : In widget_line (cart_of alice widget_gone))
    by (left; reflexivity).
  assert (Hnone : get_Product widget_gone 1 = None) by evaluate.
  split; [evaluate|]. split; [exact Hin|]. split; [exact Hnone|].
  destruct (proj2 (deleted_product_blocks_the_cart alice widget_gone
                     widget_line) Hin Hnone)
    as [Hview [Hcheckout _]].
  split; [exact Hview|].
  exact (Hcheckout [] [] ltac:(evaluate) (Forall_nil _)).
Defined.

Lemma update_cart_item_witness :
  1 <= 4 /\
  get_CartItem three_in_cart 1 = Some widget_line /\
  update_cart_item alice 1 4 three_in_cart
  = (four_in_cart, inr (cart_item_out (set_quantity 4 widget_line)
                          (widget_row 5))) /\
  update_cart_item alice 1 6 three_in_cart
  = (three_in_cart, inl (HTTPException 400 "Not enough stock")) /\
  4 <= 5.
Proof.
  assert (Hget : get_CartItem three_in_cart 1 = Some widget_line)
    by evaluate.
  split; [lia|]. split; [exact Hget|]. split; [evaluate|].
  split.
  - exact (proj1 (update_cart_item_sets_the_quantity alice 1 6 three_in_cart
                    widget_line (widget_row 5) ltac:(lia) Hget
                    ltac:(evaluate) ltac:(evaluate))
             ltac:(evaluate)).
  - destruct (proj2 (update_cart_item_sets_the_quantity alice 1 4
                       three_in_cart widget_line (widget_row 5) ltac:(lia)
                       Hget ltac:(evaluate) ltac:(evaluate))
                ltac:(evaluate))
      as [db' [_ [_ [_ [Hbound _]]]]].
    exact (Hbound 5 ltac:(evaluate)).
Defined.

Lemma remove_cart_item_witness :
  get_CartItem three_in_cart 1 = Some widget_line /\
  remove_cart_item alice 1 three_in_cart = (line_removed, inr tt) /\
  cart_items line_removed = [] /\
  exists db',
    remove_cart_item alice 1 three_in_cart = (db', inr tt) /\
    remove_cart_item alice 1 db'
    = (db', inl (HTTPException 404 "Cart item not found")).
Proof.
  assert (Hget : get_CartItem three_in_cart 1 = Some widget_line)
    by evaluate.
  split; [exact Hget|]. split; [evaluate|]. split; [evaluate|].
  destruct (remove_cart_item_removes_the_row alice 1 three_in_cart
              widget_line Hget ltac:(evaluate))
    as [db' [Hrun [_ [_ [Hagain _]]]]].
  exists db'. split; [exact Hrun | exact Hagain].
Defined.

Lemma add_to_cart_new_row_witness :
  1 <= 1 /\
  get_Product three_in_cart 1 = Some (widget_row 5) /\
  existing_row bob 1 three_in_cart = None /\
  add_to_cart bob (mkCartAdd 1 1) three_in_cart
  = (two_carts, inr (cart_item_out (mkCartItem 2 bob 1 1) (widget_row 5))) /\
  exists db' row,
    add_to_cart bob (mkCartAdd 1 1) three_in_cart
    = (db', inr (cart_item_out row (widget_row 5))) /\
    cart_of bob db' = cart_of bob three_in_cart ++ [row].
Proof.
  assert (Hget : get_Product three_in_cart 1 = Some (widget_row 5))
    by evaluate.
  assert (Hex : existing_row bob 1 three_in_cart = None) by evaluate.
  split; [lia|]. split; [exact Hget|]. split; [exact Hex|].
  split; [evaluate|].
  destruct (add_to_cart_creates_the_row bob (mkCartAdd 1 1) three_in_cart
              (widget_row 5) ltac:(simpl; lia) Hget ltac:(evaluate) Hex)
    as [db' [row [_ [Hrun [_ [_ [Hcart _]]]]]]].
  exists db', row. split; [exact Hrun | exact Hcart].
Defined.

Lemma cart_quantities_witness :
  checkout alice
    (run [CreateProduct (widget 5); AddToCart alice (mkCartAdd 1 3)]
         empty_db)
  = (after_purchase, inr (receipt 30%float "USD")) /\
  In widget_item (items_of after_purchase 1) /\
  1 <= OrderItem_quantity widget_item.
Proof.
  assert (Hrun : checkout alice
                   (run [CreateProduct (widget 5);
                         AddToCart alice (mkCartAdd 1 3)] empty_db)
                 = (after_purchase, inr (receipt 30%float "USD")))
    by evaluate.
  assert (Hin : In widget_item (items_of after_purchase 1))
    by (left; reflexivity).
  split; [exact Hrun|]. split; [exact Hin|].
  exact (proj2 (cart_quantities_are_positive
                  [CreateProduct (widget 5); AddToCart alice (mkCartAdd 1 3)])
           alice after_purchase (receipt 30%float "USD") widget_item
           Hrun Hin).
Defined.

Lemma plain_passwords_verify : hash_verifies.
Proof.
  intros salt password. simpl.
  induction salt as [|c salt IH]; simpl.
  - destruct password; simpl; now rewrite ?Ascii.eqb_refl, ?String.eqb_refl.
  - rewrite IH. apply orb_true_r.
Qed.

Lemma plain_tokens_decode : token_decodes.
Proof. intros sub exp now _. reflexivity. Qed.

Lemma signup_witness :
  get_user_by_email [] (UserCreate_email carol) = None /\
  signup "salt" carol [] = (carol_registered, inr (mkUserOut 1
                                                    "carol@example.com"
                                                    (Some "Carol"))) /\
  signup "pepper" carol carol_registered
  = (carol_registered, inl (HTTPException 400 "Email already registered")).
Proof.
  split; [evaluate|]. split; [evaluate|].
  destruct signup_keeps_emails_unique as [_ [Hdup _]].
  refine (Hdup "pepper" carol carol_registered _ _). evaluate.
Defined.

Lemma login_witness :
  hash_verifies /\
  get_user_by_email [] (UserCreate_email carol) = None /\
  login 0 "carol@example.com" "secret1" carol_registered
  = (carol_registered,
     inr (mkToken (create_access_token "carol@example.com" 0) "bearer")).
Proof.
  assert (Hnew : get_user_by_email [] (UserCreate_email carol) = None)
    by evaluate.
  split; [exact plain_passwords_verify|]. split; [exact Hnew|].
  exact (proj1 (login_after_signup "salt" carol [] plain_passwords_verify
                  Hnew) 0).
Defined.

Lemma get_current_user_witness :
  token_decodes /\
  login 0 "carol@example.com" "secret1" carol_registered
  = (carol_registered, inr (mkToken "carol@example.com" "bearer")) /\
  exists user,
    User_email user = "carol@example.com" /\
    get_current_user 3600 "carol@example.com" (carol_registered ++ [])
    = inr user.
Proof.
  assert (Hlogin : login 0 "carol@example.com" "secret1" carol_registered
                   = (carol_registered,
                      inr (mkToken "carol@example.com" "bearer")))
    by evaluate.
  split; [exact plain_tokens_decode|]. split; [exact Hlogin|].
  destruct (get_current_user_after_login 0 "carol@example.com" "secret1"
              carol_registered (mkToken "carol@example.com" "bearer")
              plain_tokens_decode Hlogin)
    as [user [_ [Hemail [_ Hlater]]]].
  exists user. split; [exact Hemail|].
  exact (Hlater 3600 [] ltac:(lia)).
Defined.
